(** * Ollama-PDFbot: a shallow embedding of the PDF pipeline

    The development follows the Python sources module by module:
    [pdf_extractor.py], [llm_pipeline.py], [file_organizer.py],
    [main.py], and the log handler and the processing section of
    [streamlit_app.py].  Python values are modelled as follows.

    - [str] is a list of characters, a character being one of the 256
      values of [ascii]; the methods the sources call on strings
      ([find], [rfind], [strip], [split], [join], [replace], slicing)
      are written out in [PyStr].
    - a [dict] is an association list in insertion order, as Python
      dictionaries are ([PyDict]).
    - an exception is a value of [exn]; a computation that may raise
      returns an [outcome].
    - code that touches the file system, the PDF reader or the model
      backend runs in the monad [M] over a [state], against an [env]
      that answers the external calls. *)

From Stdlib Require Import String Ascii ZArith Bool Arith Lia DecimalString List.
Import ListNotations.

Set Implicit Arguments.

(* ================================================================= *)
(** ** Python strings *)

Module PyStr.

Definition str := list ascii.

(** A string literal of the source. *)
Definition lit (s : string) : str := list_ascii_of_string s.

Definition ch_newline : ascii := "010"%char.
Definition ch_space : ascii := " "%char.
Definition ch_underscore : ascii := "_"%char.
Definition ch_dquote : ascii := "034"%char.

Fixpoint eqb (a b : str) : bool :=
  match a, b with
  | [], [] => true
  | x :: a', y :: b' => Ascii.eqb x y && eqb a' b'
  | _, _ => false
  end.

(** [bool(s)]: the empty string is falsy. *)
Definition truthy (s : str) : bool :=
  match s with [] => false | _ :: _ => true end.

(** [c.isspace()] on the characters below code point 256:
    TAB..CR, FS..US, SPACE, NEL and NBSP. *)
Definition isspace (c : ascii) : bool :=
  let n := N_of_ascii c in
  ((9 <=? n) && (n <=? 13) || (28 <=? n) && (n <=? 32)
   || (n =? 133) || (n =? 160))%N.

(** [s.lstrip()], [s.rstrip()], [s.strip()]. *)
Fixpoint lstrip (s : str) : str :=
  match s with
  | [] => []
  | c :: r => if isspace c then lstrip r else s
  end.

Definition rstrip (s : str) : str := rev (lstrip (rev s)).

Definition strip (s : str) : str := rstrip (lstrip s).

(** [s.replace(old, new)] for one-character [old] and [new], the
    only way the sources call it. *)
Definition replace (old new : ascii) (s : str) : str :=
  map (fun c => if Ascii.eqb c old then new else c) s.

(** [s[:n]] for [n >= 0]. *)
Definition take (n : nat) (s : str) : str := firstn n s.

(** [s[a:b]] for [0 <= a] and [0 <= b]. *)
Definition slice (a b : Z) (s : str) : str :=
  firstn (Z.to_nat (b - a)) (skipn (Z.to_nat a) s).

(** [s.find(c)]: index of the first occurrence, [-1] when absent. *)
Fixpoint find_from (c : ascii) (s : str) (i : Z) : Z :=
  match s with
  | [] => (-1)%Z
  | x :: r => if Ascii.eqb x c then i else find_from c r (i + 1)%Z
  end.

Definition find (c : ascii) (s : str) : Z := find_from c s 0%Z.

(** [s.rfind(c)]: index of the last occurrence, [-1] when absent. *)
Fixpoint rfind_from (c : ascii) (s : str) (i best : Z) : Z :=
  match s with
  | [] => best
  | x :: r => rfind_from c r (i + 1)%Z (if Ascii.eqb x c then i else best)
  end.

Definition rfind (c : ascii) (s : str) : Z := rfind_from c s 0%Z (-1)%Z.

(** [s.split(sep)] for a one-character separator: never empty. *)
Fixpoint split (sep : ascii) (s : str) : list str :=
  match s with
  | [] => [[]]
  | c :: r =>
      if Ascii.eqb c sep then [] :: split sep r
      else match split sep r with
           | [] => [[c]]
           | h :: t => (c :: h) :: t
           end
  end.

(** [sep.join(parts)]. *)
Fixpoint join (sep : str) (parts : list str) : str :=
  match parts with
  | [] => []
  | [x] => x
  | x :: rest => x ++ sep ++ join sep rest
  end.

(** [len(s)] *)
Definition len (s : str) : Z := Z.of_nat (length s).

(** [s.endswith(suffix)]. *)
Definition endswith (suffix s : str) : bool :=
  eqb (skipn (length s - length suffix) s) suffix
  && (length suffix <=? length s).

End PyStr.

Import PyStr.

(* ================================================================= *)
(** ** Python dictionaries *)

Module PyDict.
Section Dict.
Variables K V : Type.
Variable keq : K -> K -> bool.

(** Items in insertion order; a key occurs at most once in a
    dictionary built with [set]. *)
Definition dict := list (K * V).

(** [d.get(k)] *)
Fixpoint get (d : dict) (k : K) : option V :=
  match d with
  | [] => None
  | (k', v) :: r => if keq k' k then Some v else get r k
  end.

(** [d.get(k, default)] *)
Definition get_default (d : dict) (k : K) (default : V) : V :=
  match get d k with Some v => v | None => default end.

(** [k in d] *)
Definition contains (d : dict) (k : K) : bool :=
  match get d k with Some _ => true | None => false end.

(** [d[k] = v]: an existing key keeps its place, a new one is
    appended. *)
Fixpoint set (d : dict) (k : K) (v : V) : dict :=
  match d with
  | [] => [(k, v)]
  | (k', v') :: r =>
      if keq k' k then (k', v) :: r else (k', v') :: set r k v
  end.

(** [len(d)] *)
Definition len (d : dict) : Z := Z.of_nat (length d).
End Dict.
End PyDict.

(* ================================================================= *)
(** ** Exceptions, outcomes, JSON values *)

(** The exception classes the program meets; all derive from
    [Exception], so an [except Exception] clause catches each. *)
Inductive exn_class :=
| FileNotFoundError | ValueError | JSONDecodeError | KeyError
| TypeError | AttributeError | IndexError | OSError | RuntimeError.

(** An exception: its class and [str(e)]. *)
Record exn := mk_exn { exn_cls : exn_class; exn_str : str }.

(** [isinstance(e, json.JSONDecodeError)] *)
Definition is_JSONDecodeError (e : exn) : bool :=
  match exn_cls e with JSONDecodeError => true | _ => false end.

Inductive outcome (A : Type) :=
| Return (a : A)
| Raise (e : exn).
Arguments Return {A} a.
Arguments Raise {A} e.

Definition obind {A B} (o : outcome A) (k : A -> outcome B) : outcome B :=
  match o with
  | Return a => k a
  | Raise e => Raise e
  end.

Notation "x <~ o ;; k" := (obind o (fun x => k))
  (at level 61, o at next level, right associativity).

(** A list comprehension whose element expression may raise: the
    elements are evaluated in order and the first exception ends it. *)
Fixpoint omap {A B} (f : A -> outcome B) (l : list A) : outcome (list B) :=
  match l with
  | [] => Return []
  | a :: r => b <~ f a ;; bs <~ omap f r ;; Return (b :: bs)
  end.

(** What [json.load] and [json.loads] return and [json.dump] accepts.
    A float is kept as its literal. *)
#[warnings="-register-all"]
Inductive json :=
| JNull
| JBool (b : bool)
| JInt (n : Z)
| JFloat (literal : str)
| JStr (s : str)
| JList (items : list json)
| JDict (items : list (str * json)).

Definition jget := @PyDict.get str json PyStr.eqb.
Definition jget_default := @PyDict.get_default str json PyStr.eqb.
Definition jset := @PyDict.set str json PyStr.eqb.

(** [None] and values of type [str] as JSON. *)
Definition json_of_opt_str (o : option str) : json :=
  match o with Some s => JStr s | None => JNull end.

(** [type(v).__name__] for a decoded JSON value. *)
Definition type_name (v : json) : str :=
  match v with
  | JNull => lit "NoneType"
  | JBool _ => lit "bool"
  | JInt _ => lit "int"
  | JFloat _ => lit "float"
  | JStr _ => lit "str"
  | JList _ => lit "list"
  | JDict _ => lit "dict"
  end.

(** The exception of [v.attr] on a value without that attribute. *)
Definition no_attribute (v : json) (attr : string) : exn :=
  mk_exn AttributeError
    (lit "'" ++ type_name v ++ lit "' object has no attribute '"
     ++ lit attr ++ lit "'").

(** [repr(s)] for a string: single quotes, or double quotes when the
    string holds a single quote and no double one; the quote and the
    backslash escaped, TAB, LF and CR by their letters, and the other
    unprintable characters by [\xhh]. *)
Definition hex_digit (n : N) : ascii :=
  if (n <? 10)%N then ascii_of_N (48 + n) else ascii_of_N (87 + n).

Definition repr_char (quote c : ascii) : str :=
  let n := N_of_ascii c in
  if Ascii.eqb c quote || Ascii.eqb c "\"%char then ["\"%char; c]
  else if (n =? 9)%N then lit "\t"
  else if (n =? 10)%N then lit "\n"
  else if (n =? 13)%N then lit "\r"
  else if (n <? 32)%N || (127 <=? n)%N && (n <=? 160)%N || (n =? 173)%N then
    ["\"%char; "x"%char; hex_digit (n / 16); hex_digit (n mod 16)]
  else [c].

Definition repr_str (s : str) : str :=
  let quote :=
    if existsb (Ascii.eqb "'"%char) s && negb (existsb (Ascii.eqb ch_dquote) s)
    then ch_dquote else "'"%char in
  [quote] ++ flat_map (repr_char quote) s ++ [quote].

(** [for x in v] over a decoded JSON value: a list yields its items,
    a string its characters, a dictionary its keys; the other values
    are not iterable. *)
Definition py_iter (v : json) : outcome (list json) :=
  match v with
  | JList l => Return l
  | JStr s => Return (map (fun c => JStr [c]) s)
  | JDict d => Return (map (fun kv => JStr (fst kv)) d)
  | _ =>
      Raise (mk_exn TypeError
               (lit "'" ++ type_name v ++ lit "' object is not iterable"))
  end.

(** [v[key]] for a string key: defined on dictionaries that hold the
    key only.  [str] of a [KeyError] is the [repr] of the key; the
    wording for a string is that of CPython 3.11. *)
Definition py_getitem (v : json) (key : str) : outcome json :=
  match v with
  | JDict d =>
      match jget d key with
      | Some x => Return x
      | None => Raise (mk_exn KeyError (repr_str key))
      end
  | JStr _ =>
      Raise (mk_exn TypeError (lit "string indices must be integers, not 'str'"))
  | JList _ =>
      Raise (mk_exn TypeError
               (lit "list indices must be integers or slices, not str"))
  | _ =>
      Raise (mk_exn TypeError
               (lit "'" ++ type_name v ++ lit "' object is not subscriptable"))
  end.

(** [name == v] for a string [name]: only an equal string is equal. *)
Definition json_eq_str (name : str) (v : json) : bool :=
  match v with JStr s => PyStr.eqb s name | _ => false end.

(** [str(n)] for an integer. *)
Definition str_of_int (n : Z) : str := lit (NilZero.string_of_int (Z.to_int n)).

(* ================================================================= *)
(** ** Paths, the outside world and the program state *)

(** A [pathlib.Path]: the directory it lies in and its final component
    ([Path.name]). *)
Record path := mk_path { parent : str; name : str }.

Definition path_eqb (p q : path) : bool :=
  PyStr.eqb (parent p) (parent q) && PyStr.eqb (name p) (name q).

(** [str(p)] *)
Definition path_str (p : path) : str :=
  if truthy (parent p) then parent p ++ lit "/" ++ name p else name p.

(** [p / child].  As [pathlib] does, a child that is empty or a single
    dot adds no component. *)
Definition joinpath (p : path) (child : str) : path :=
  if PyStr.eqb child [] || PyStr.eqb child (lit ".") then p
  else mk_path (path_str p) child.

(** A page of a PDF as pypdf shows it: [page.extract_text()] returns
    text or raises. *)
Record page := mk_page { page_extract_text : outcome str }.

(** A [PdfReader]: its pages and its document information (absent, or
    a mapping from keys such as [/Title] to values). *)
Record PdfReader := mk_reader {
  reader_pages : list page;
  reader_metadata : option (list (str * str))
}.

(** Calls that leave the program. *)
Inductive event :=
| EvExtractText (pdf_path : path)
| EvExtractMetadata (pdf_path : path)
| EvInvoke (prompt : str)
| EvMkdir (dir : path)
| EvCopy (src dst : path)
| EvWrite (file : path).

(** A write that fails: the exception raised and what the file is
    afterwards.  [wf_left] is [None] when the file is as before (the
    [open] itself failed); once the file has been opened for writing
    its old content is gone, and [wf_left] is what loading it then
    gives, as a rule the decoding error of a file cut short. *)
Record write_failure := mk_write_failure {
  wf_exn : exn;
  wf_left : option (outcome json)
}.

(** Everything the sources call and do not define: the JSON decoder
    and [str] of a decoded value, the file system, pypdf and the
    Ollama client.  An answer of an [option] type is [None] when the
    call succeeds.  The model answers a prompt knowing every call
    made before it. *)
Record env := mk_env {
  json_loads : str -> outcome json;
  py_repr : json -> str;
  listdir : path -> list str;
  path_exists : path -> bool;
  open_pdf : path -> outcome PdfReader;
  stat_size : path -> outcome Z;
  mkdir : path -> option exn;
  copy2 : path -> path -> option exn;
  write_fails : path -> option write_failure;
  ollama_init : option exn;
  llm_invoke : list event -> str -> outcome str
}.

(** [Config], as far as the pipeline reads it. *)
Record Config := mk_config {
  PDF_INPUT_DIR : path;
  PDF_OUTPUT_DIR : path;
  MAX_PAGES_PER_PDF : Z;
  GENERATE_INDEX : bool
}.

(** [extract_metadata]'s dictionary: the four entries, or the single
    entry [error]. *)
Inductive metadata :=
| MetaInfo (title author : str) (num_pages file_size : Z)
| MetaError (error : str).

(** The [analysis] entry of a success record.  [dict.get] without a
    default gives [None] for a missing key. *)
Record analysis := mk_analysis {
  an_topic : option str;
  an_summary : option str;
  an_entities : json
}.

(** The record [process_pdf] returns, one constructor per value of
    its [status] entry. *)
Inductive result :=
| Skipped (file : str)
| Success (file : str) (meta : metadata) (an : analysis)
| Error (file : str) (error : str).

Definition status (r : result) : str :=
  match r with
  | Skipped _ => lit "skipped"
  | Success _ _ _ => lit "success"
  | Error _ _ => lit "error"
  end.

Definition results_dict := list (path * result).

(** The JSON files under the output directory ([None]: no such file;
    otherwise what [json.load] does with it), the calls made so far
    and the orchestrator's [self.results]. *)
Record state := mk_state {
  json_files : list (path * outcome json);
  trace : list event;
  self_results : results_dict
}.

Definition read_json (st : state) (p : path) : option (outcome json) :=
  PyDict.get path_eqb (json_files st) p.

(** *** The monad of the effectful code *)

Definition M (A : Type) := state -> outcome A * state.

Definition ret {A} (a : A) : M A := fun st => (Return a, st).

Definition raise {A} (e : exn) : M A := fun st => (Raise e, st).

Definition bind {A B} (m : M A) (k : A -> M B) : M B :=
  fun st =>
    match m st with
    | (Return a, st') => k a st'
    | (Raise e, st') => (Raise e, st')
    end.

Notation "x <- m ;; k" := (bind m (fun x => k))
  (at level 61, m at next level, right associativity).
Notation "m ;;; k" := (bind m (fun _ => k))
  (at level 61, right associativity).

(** [try: body  except Exception as e: handler(e)] *)
Definition try_except {A} (body : M A) (handler : exn -> M A) : M A :=
  fun st =>
    match body st with
    | (Return a, st') => (Return a, st')
    | (Raise e, st') => handler e st'
    end.

Definition lift {A} (o : outcome A) : M A := fun st => (o, st).

Definition emit (ev : event) : M unit :=
  fun st =>
    (Return tt, mk_state (json_files st) (trace st ++ [ev]) (self_results st)).

Definition get_state : M state := fun st => (Return st, st).

(** [json.dump(value, f)] into a file opened for writing.  After a
    successful dump the file loads back as [value]; a failed write
    raises and leaves the file as the failure says. *)
Definition write_json (E : env) (file : path) (value : json) : M unit :=
  emit (EvWrite file) ;;;
  match write_fails E file with
  | Some failure =>
      fun st =>
        (Raise (wf_exn failure),
         match wf_left failure with
         | None => st
         | Some content =>
             mk_state (PyDict.set path_eqb (json_files st) file content)
                      (trace st) (self_results st)
         end)
  | None =>
      fun st =>
        (Return tt,
         mk_state (PyDict.set path_eqb (json_files st) file (Return value))
                  (trace st) (self_results st))
  end.

(* ================================================================= *)
(** ** pdf_extractor.py *)

Module PDFExtractor.
Section Extractor.
Variable E : env.
(** [self.max_pages]: [None] for all pages. *)
Variable max_pages : option Z.

(** [min(self.max_pages, num_pages) if self.max_pages else num_pages]:
    both [None] and [0] are falsy. *)
Definition pages_to_extract (num_pages : Z) : Z :=
  match max_pages with
  | Some m => if (m =? 0)%Z then num_pages else Z.min m num_pages
  | None => num_pages
  end.

(** The loop [for i in range(pages_to_extract)], over the indices
    still to visit. *)
Fixpoint extract_loop (pages : list page) (indices : list nat)
         (text_content : list str) : outcome (list str) :=
  match indices with
  | [] => Return text_content
  | i :: rest =>
      match nth_error pages i with
      | None => Raise (mk_exn IndexError (lit "sequence index out of range"))
      | Some pg =>
          text <~ page_extract_text pg ;;
          extract_loop pages rest
            (if truthy (strip text) then text_content ++ [text]
             else text_content)
      end
  end.

(** [PDFExtractor.extract_text].  The handler of its [try] logs
    and raises the exception again, so it is left out. *)
Definition extract_text (pdf_path : path) : M str :=
  emit (EvExtractText pdf_path) ;;;
  if negb (path_exists E pdf_path) then
    raise (mk_exn FileNotFoundError
             (lit "PDF file not found: " ++ path_str pdf_path))
  else
    reader <- lift (open_pdf E pdf_path) ;;
    let num_pages := Z.of_nat (length (reader_pages reader)) in
    if (num_pages =? 0)%Z then
      raise (mk_exn ValueError
               (lit "PDF has no pages: " ++ path_str pdf_path))
    else
      text_content <-
        lift (extract_loop (reader_pages reader)
                (seq 0 (Z.to_nat (pages_to_extract num_pages))) []) ;;
      match text_content with
      | [] =>
          raise (mk_exn ValueError
                   (lit "No readable text found in PDF: "
                    ++ path_str pdf_path))
      | _ :: _ => ret (join [ch_newline] text_content)
      end.

(** [PDFExtractor.extract_metadata]: every failure becomes the
    [error] dictionary. *)
Definition extract_metadata (pdf_path : path) : M metadata :=
  emit (EvExtractMetadata pdf_path) ;;;
  try_except
    (reader <- lift (open_pdf E pdf_path) ;;
     let metadata :=
       match reader_metadata reader with
       | Some d => d
       | None => []
       end in
     file_size <- lift (stat_size E pdf_path) ;;
     ret (MetaInfo
            (PyDict.get_default PyStr.eqb metadata (lit "/Title") (lit "Unknown"))
            (PyDict.get_default PyStr.eqb metadata (lit "/Author") (lit "Unknown"))
            (Z.of_nat (length (reader_pages reader)))
            file_size))
    (fun e => ret (MetaError (exn_str e))).
End Extractor.
End PDFExtractor.

(* ================================================================= *)
(** ** llm_pipeline.py *)

Module PDFAnalysisPipeline.
Section Pipeline.
Variable E : env.

(** [str(v)] for a decoded JSON value: a string is itself, any
    other value prints as its [repr]. *)
Definition py_str (v : json) : str :=
  match v with
  | JStr s => s
  | _ => py_repr E v
  end.

(** [self.llm.invoke(prompt)] *)
Definition invoke (prompt : str) : M str :=
  fun st =>
    (llm_invoke E (trace st) prompt,
     mk_state (json_files st) (trace st ++ [EvInvoke prompt])
              (self_results st)).

(** The prompt template of [generate_topic_and_summary], with its
    two fields filled in. *)
Definition format_prompt (text : str) (max_length : Z) : str :=
  [ch_newline] ++ lit "            Analyze the following document text and provide:
1. A single-word or 2-3 word topic category
2. A brief summary in " ++ str_of_int max_length ++ lit " words

Format your response as JSON with keys "
  ++ [ch_dquote] ++ lit "topic" ++ [ch_dquote] ++ lit " and "
  ++ [ch_dquote] ++ lit "summary" ++ [ch_dquote] ++ lit ".

Text:
" ++ text ++ lit "

JSON Response:
            ".

Definition analysis_dict := list (str * str).

(** The free-text result at the end of [_parse_response]. *)
Definition fallback (response : str) : analysis_dict :=
  let lines := split ch_newline (strip response) in
  [ (lit "topic", lit "Uncategorized");
    (lit "summary", take 200 (join [ch_space] lines)) ].

(** [PDFAnalysisPipeline._parse_response].  Only a
    [json.JSONDecodeError] is handled; [parsed.get] on a value that
    is no dictionary raises [AttributeError]. *)
Definition _parse_response (response : str) : outcome analysis_dict :=
  let json_start := find "{" response in
  let json_end := (rfind "}" response + 1)%Z in
  if (json_start >=? 0)%Z && (json_end >? json_start)%Z then
    let json_str := slice json_start json_end response in
    match json_loads E json_str with
    | Return (JDict parsed) =>
        Return
          [ (lit "topic",
             strip (py_str (jget_default parsed (lit "topic")
                              (JStr (lit "Uncategorized")))));
            (lit "summary",
             strip (take 200
                      (py_str (jget_default parsed (lit "summary")
                                 (JStr []))))) ]
    | Return parsed => Raise (no_attribute parsed "get")
    | Raise e =>
        if is_JSONDecodeError e then Return (fallback response)
        else Raise e
    end
  else Return (fallback response).

(** [PDFAnalysisPipeline.generate_topic_and_summary] *)
Definition generate_topic_and_summary (text : str) (max_length : Z)
  : M analysis_dict :=
  let truncated_text := slice 0 (Z.min (len text) 8000) text in
  try_except
    (let prompt := format_prompt truncated_text max_length in
     response <- invoke prompt ;;
     result <- lift (_parse_response response) ;;
     ret result)
    (fun e =>
       ret [ (lit "topic", lit "Uncategorized");
             (lit "summary", lit "Failed to process");
             (lit "error", exn_str e) ]).

Definition entities_prompt (truncated_text : str) : str :=
  lit "Extract 3-5 key concepts or entities from this text. 
Return as a JSON array of strings.

Text: " ++ truncated_text ++ lit "

JSON Array:".

(** [PDFAnalysisPipeline.extract_key_entities] *)
Definition extract_key_entities (text : str) : M json :=
  let truncated_text := slice 0 (Z.min (len text) 8000) text in
  let prompt := entities_prompt truncated_text in
  try_except
    (response <- invoke prompt ;;
     let json_start := find "[" response in
     let json_end := (rfind "]" response + 1)%Z in
     if (json_start >=? 0)%Z && (json_end >? json_start)%Z then
       lift (json_loads E (slice json_start json_end response))
     else ret (JList []))
    (fun e => ret (JList [])).
End Pipeline.
End PDFAnalysisPipeline.

(* ================================================================= *)
(** ** file_organizer.py *)

Module FileOrganizer.

(** [invalid_chars]: less-than, greater-than, colon, double quote,
    bar, question mark, star and slash, in the source's order. *)
Definition invalid_chars : str :=
  lit "<>:" ++ [ch_dquote] ++ lit "|?*/".

(** [FileOrganizer._sanitize_folder_name] *)
Definition _sanitize_folder_name (name : str) : str :=
  let name := replace ch_space ch_underscore name in
  let name :=
    fold_left (fun nm char => replace char ch_underscore nm)
              invalid_chars name in
  if truthy name then take 50 name else lit "unknown".

Definition organized_dict := list (str * list path).

Section Organizer.
Variable E : env.
(** [self.base_output_dir], [self.create_subdirs] *)
Variable base_output_dir : path.
Variable create_subdirs : bool.

(** One round of the loop of [organize_by_topic].  The mappings
    come from [organize_files], where the [topic] key is always
    present and holds what [analysis.get] returned; on [None] the
    call [name.replace] raises.  [mkdir] is outside the [try],
    the copy inside it. *)
Definition organize_one (organized : organized_dict)
           (pdf_path : path) (analysis_data : analysis)
  : M organized_dict :=
  match an_topic analysis_data with
  | None =>
      raise (mk_exn AttributeError
               (lit "'NoneType' object has no attribute 'replace'"))
  | Some topic =>
      let folder_name := _sanitize_folder_name topic in
      dest_path <-
        (if create_subdirs then
           let topic_dir := joinpath base_output_dir folder_name in
           emit (EvMkdir topic_dir) ;;;
           match mkdir E topic_dir with
           | Some e => raise e
           | None => ret (joinpath topic_dir (name pdf_path))
           end
         else
           ret (joinpath base_output_dir
                  (folder_name ++ lit "_" ++ name pdf_path))) ;;
      emit (EvCopy pdf_path dest_path) ;;;
      match copy2 E pdf_path dest_path with
      | Some e => ret organized
      | None =>
          let organized :=
            if PyDict.contains PyStr.eqb organized topic then organized
            else PyDict.set PyStr.eqb organized topic [] in
          ret (PyDict.set PyStr.eqb organized topic
                 (PyDict.get_default PyStr.eqb organized topic []
                  ++ [dest_path]))
      end
  end.

(** [FileOrganizer.organize_by_topic] *)
Fixpoint organize_loop (file_mappings : list (path * analysis))
         (organized : organized_dict) : M organized_dict :=
  match file_mappings with
  | [] => ret organized
  | (pdf_path, analysis_data) :: rest =>
      organized <- organize_one organized pdf_path analysis_data ;;
      organize_loop rest organized
  end.

Definition organize_by_topic (file_mappings : list (path * analysis))
  : M organized_dict :=
  organize_loop file_mappings [].

(** [FileOrganizer.generate_index]: a failed write is logged and
    dropped. *)
Definition generate_index (file_mappings : list (path * analysis))
           (output_file : path) : M unit :=
  let index :=
    fold_left
      (fun index kv =>
         let '(pdf_path, analysis_data) := kv in
         jset index (name pdf_path)
           (JDict [ (lit "topic", json_of_opt_str (an_topic analysis_data));
                    (lit "summary", json_of_opt_str (an_summary analysis_data));
                    (lit "entities", an_entities analysis_data) ]))
      file_mappings [] in
  try_except (write_json E output_file (JDict index))
             (fun e => ret tt).
End Organizer.
End FileOrganizer.

(* ================================================================= *)
(** ** main.py *)

(** The dictionary [process_batch] returns.  Its [total] key is only
    set on the path that ran the loop; [b_total] is [None] where the
    key is missing. *)
Record batch_results := mk_batch {
  b_processed : Z;
  b_failed : Z;
  b_total : option Z;
  b_results : results_dict
}.

Module PDFProcessorOrchestrator.
Section Orchestrator.
Variable E : env.
Variable C : Config.

Definition report_path : path := joinpath (PDF_OUTPUT_DIR C) (lit "report.json").
Definition index_path : path := joinpath (PDF_OUTPUT_DIR C) (lit "index.json").

(** [self.results[pdf_path] = result] *)
Definition set_result (pdf_path : path) (r : result) : M unit :=
  fun st =>
    (Return tt,
     mk_state (json_files st) (trace st)
              (PyDict.set path_eqb (self_results st) pdf_path r)).

(** [PDFProcessorOrchestrator.__init__]: the directories of
    [Config.create_directories], the connection to the model, the
    organizer's output directory and an empty [self.results]. *)
Definition make_dir (d : path) : M unit :=
  emit (EvMkdir d) ;;;
  match mkdir E d with Some e => raise e | None => ret tt end.

Definition __init__ : M unit :=
  make_dir (PDF_INPUT_DIR C) ;;;
  make_dir (PDF_OUTPUT_DIR C) ;;;
  match ollama_init E with Some e => raise e | None => ret tt end ;;;
  make_dir (PDF_OUTPUT_DIR C) ;;;
  fun st => (Return tt, mk_state (json_files st) (trace st) []).

(** The list [skip_these]: the [file] entry of every item of the
    [processing_details] entry of the loaded report, an empty list
    standing in for a missing entry. *)
Definition skip_these (report_data : json) : outcome (list json) :=
  match report_data with
  | JDict d =>
      items <~ py_iter (jget_default d (lit "processing_details") (JList [])) ;;
      omap (fun item => py_getitem item (lit "file")) items
  | _ => Raise (no_attribute report_data "get")
  end.

(** [PDFProcessorOrchestrator.process_pdf].  The look at the
    report of the run before comes first and is outside the
    [try]. *)
Definition process_pdf (pdf_path : path) : M result :=
  st <- get_state ;;
  skip <-
    match read_json st report_path with
    | None => ret false
    | Some loaded =>
        report_data <- lift loaded ;;
        these <- lift (skip_these report_data) ;;
        ret (existsb (json_eq_str (name pdf_path)) these)
    end ;;
  if skip then ret (Skipped (name pdf_path))
  else
    try_except
      (text <- PDFExtractor.extract_text E (Some (MAX_PAGES_PER_PDF C)) pdf_path ;;
       metadata <- PDFExtractor.extract_metadata E pdf_path ;;
       analysis <- PDFAnalysisPipeline.generate_topic_and_summary E text 200 ;;
       entities <- PDFAnalysisPipeline.extract_key_entities E text ;;
       ret (Success (name pdf_path) metadata
              (mk_analysis
                 (PyDict.get PyStr.eqb analysis (lit "topic"))
                 (PyDict.get PyStr.eqb analysis (lit "summary"))
                 entities)))
      (fun e => ret (Error (name pdf_path) (exn_str e))).

(** [pdf_dir.glob("*.pdf")], over the names the directory holds. *)
Definition glob_pdf (pdf_dir : path) : list path :=
  map (joinpath pdf_dir)
      (filter (endswith (lit ".pdf")) (listdir E pdf_dir)).

(** The loop of [process_batch]. *)
Fixpoint batch_loop (pdf_files : list path)
         (processed_count failed_count : Z) : M (Z * Z) :=
  match pdf_files with
  | [] => ret (processed_count, failed_count)
  | pdf_path :: rest =>
      result <- process_pdf pdf_path ;;
      set_result pdf_path result ;;;
      if PyStr.eqb (status result) (lit "success") then
        batch_loop rest (processed_count + 1)%Z failed_count
      else if PyStr.eqb (status result) (lit "error") then
        batch_loop rest processed_count (failed_count + 1)%Z
      else batch_loop rest processed_count failed_count
  end.

(** [PDFProcessorOrchestrator.process_batch] *)
Definition process_batch (pdf_dir : path) : M batch_results :=
  let pdf_files := glob_pdf pdf_dir in
  match pdf_files with
  | [] => ret (mk_batch 0 0 None [])
  | _ :: _ =>
      counts <- batch_loop pdf_files 0 0 ;;
      st <- get_state ;;
      ret (mk_batch (fst counts) (snd counts)
                    (Some (Z.of_nat (length pdf_files)))
                    (self_results st))
  end.

(** The mappings [organize_files] hands to the organizer: the
    [analysis] entry of every success record. *)
Definition success_mappings (results : results_dict)
  : list (path * analysis) :=
  fold_left
    (fun file_mappings kv =>
       match snd kv with
       | Success _ _ an => PyDict.set path_eqb file_mappings (fst kv) an
       | _ => file_mappings
       end)
    results [].

(** [PDFProcessorOrchestrator.organize_files] *)
Definition organize_files : M FileOrganizer.organized_dict :=
  st <- get_state ;;
  let file_mappings := success_mappings (self_results st) in
  match file_mappings with
  | [] => ret []
  | _ :: _ =>
      organized <-
        FileOrganizer.organize_by_topic E (PDF_OUTPUT_DIR C) true
          file_mappings ;;
      (if GENERATE_INDEX C then
         FileOrganizer.generate_index E file_mappings index_path
       else ret tt) ;;;
      ret organized
  end.

(** The [topics] entry of the report. *)
Definition report_topics (organized : FileOrganizer.organized_dict)
  : list (str * json) :=
  fold_left
    (fun topics kv =>
       jset topics (fst kv)
         (JDict [ (lit "file_count", JInt (Z.of_nat (length (snd kv))));
                  (lit "files", JList (map (fun f => JStr (name f)) (snd kv))) ]))
    organized [].

(** The [processing_details] entry of the report: one item per
    success record of [self.results], appended in its order. *)
Definition report_details (results : results_dict) : list json :=
  fold_left
    (fun details kv =>
       match snd kv with
       | Success _ _ an =>
           details ++
             [ JDict [ (lit "file", JStr (name (fst kv)));
                       (lit "topic", json_of_opt_str (an_topic an));
                       (lit "summary", json_of_opt_str (an_summary an)) ] ]
       | _ => details
       end)
    results [].

Definition build_report (batch : batch_results)
           (organized : FileOrganizer.organized_dict)
           (results : results_dict) : json :=
  JDict
    [ (lit "summary",
       JDict [ (lit "total_files",
                JInt (match b_total batch with Some t => t | None => 0%Z end));
               (lit "processed", JInt (b_processed batch));
               (lit "failed", JInt (b_failed batch));
               (lit "topics_identified", JInt (Z.of_nat (length organized))) ]);
      (lit "topics", JDict (report_topics organized));
      (lit "processing_details", JList (report_details results)) ].

(** [PDFProcessorOrchestrator._generate_report] *)
Definition _generate_report (batch : batch_results)
           (organized : FileOrganizer.organized_dict) : M unit :=
  st <- get_state ;;
  write_json E report_path
    (build_report batch organized (self_results st)).

(** [PDFProcessorOrchestrator.run] *)
Definition run (pdf_dir : option path) : M unit :=
  let pdf_dir :=
    match pdf_dir with Some d => d | None => PDF_INPUT_DIR C end in
  batch <- process_batch pdf_dir ;;
  organized <- organize_files ;;
  _generate_report batch organized.

(** [main] *)
Definition main : M unit := __init__ ;;; run None.
End Orchestrator.
End PDFProcessorOrchestrator.

(* ================================================================= *)
(** ** streamlit_app.py *)

Module StreamlitLogHandler.

(** [StreamlitLogHandler.emit] on the list [self.logs]: [formatted] is
    what [self.format(record)] gives.  The message is appended and
    only the last 100 are kept; a failure goes to [handleError], which
    leaves the list alone. *)
Definition emit (formatted : outcome str) (logs : list str) : list str :=
  match formatted with
  | Return msg =>
      let logs := logs ++ [msg] in
      if 100 <? length logs then skipn (length logs - 100) logs else logs
  | Raise _ => logs
  end.

(** The list after a series of records, starting from the empty list
    of [__init__]. *)
Definition emit_all (records : list (outcome str)) : list str :=
  fold_left (fun logs formatted => emit formatted logs) records [].

End StreamlitLogHandler.

Module StreamlitApp.
Section Processing.
Variable E : env.
(** [Config] as it is when the button is pressed, and after the
    sidebar's values have been written into it. *)
Variable C_start : Config.
Variable C : Config.

(** The loop over [pdf_files] in the processing section of [main]:
    [process_pdf] is called on each file and its status counted; the
    record itself is not kept. *)
Fixpoint process_loop (pdf_files : list path) (processed failed : Z)
  : M (Z * Z) :=
  match pdf_files with
  | [] => ret (processed, failed)
  | pdf_path :: rest =>
      result <- PDFProcessorOrchestrator.process_pdf E C pdf_path ;;
      if PyStr.eqb (status result) (lit "success") then
        process_loop rest (processed + 1)%Z failed
      else if PyStr.eqb (status result) (lit "error") then
        process_loop rest processed (failed + 1)%Z
      else process_loop rest processed failed
  end.

(** The [try] statement of the processing section, up to the four
    metrics it shows: the number of files, of processed and of failed
    ones, and the organized mapping.  An orchestrator is made before
    and after [Config] is overwritten; the handler shows the error,
    here [None].  Widget calls are left out. *)
Definition start_processing (pdf_files : list path)
  : M (option (Z * Z * Z * FileOrganizer.organized_dict)) :=
  try_except
    (PDFProcessorOrchestrator.__init__ E C_start ;;;
     PDFProcessorOrchestrator.__init__ E C ;;;
     counts <- process_loop pdf_files 0 0 ;;
     organized <- PDFProcessorOrchestrator.organize_files E C ;;
     ret (Some (Z.of_nat (length pdf_files), fst counts, snd counts, organized)))
    (fun e => ret None).

End Processing.
End StreamlitApp.

(* ================================================================= *)
(** ** A small world to run the program in *)

Module Sample.

Definition quoted (s : string) : str := [ch_dquote] ++ lit s ++ [ch_dquote].

Definition input_dir : path := mk_path [] (lit "pdfs").
Definition output_dir : path := mk_path [] (lit "out").
Definition cfg : Config := mk_config input_dir output_dir 50 true.
Definition no_pdf_cfg : Config :=
  mk_config (mk_path [] (lit "inbox")) output_dir 50 true.

Definition a_pdf : path := joinpath input_dir (lit "a.pdf").
Definition blank_pdf : path := joinpath input_dir (lit "blank.pdf").
Definition empty_pdf : path := joinpath input_dir (lit "empty.pdf").

(** A well-formed answer of the model and the array of entities. *)
Definition ai_response : str :=
  lit "{" ++ quoted "topic" ++ lit ": " ++ quoted "AI" ++ lit ", "
  ++ quoted "summary" ++ lit ": " ++ quoted "About artificial intelligence"
  ++ lit "}".

Definition entities_response : str :=
  lit "[" ++ quoted "Entity1" ++ lit ", " ++ quoted "Entity2" ++ lit "]".

Definition loads (s : str) : outcome json :=
  if PyStr.eqb s ai_response then
    Return (JDict [ (lit "topic", JStr (lit "AI"));
                    (lit "summary", JStr (lit "About artificial intelligence")) ])
  else if PyStr.eqb s entities_response then
    Return (JList [JStr (lit "Entity1"); JStr (lit "Entity2")])
  else Raise (mk_exn JSONDecodeError (lit "Expecting value")).

Definition repr (v : json) : str :=
  match v with
  | JNull => lit "None"
  | JBool true => lit "True"
  | JBool false => lit "False"
  | JInt n => str_of_int n
  | JFloat l => l
  | _ => lit "..."
  end.

Definition reader_of (p : path) : outcome PdfReader :=
  if PyStr.eqb (name p) (lit "a.pdf") then
    Return (mk_reader
              [ mk_page (Return (lit "Neural networks"));
                mk_page (Return (lit "   "));
                mk_page (Return (lit "and learning")) ]
              (Some [(lit "/Title", lit "On learning")]))
  else if PyStr.eqb (name p) (lit "blank.pdf") then
    Return (mk_reader [ mk_page (Return (lit " ")) ] None)
  else if PyStr.eqb (name p) (lit "empty.pdf") then
    Return (mk_reader [] None)
  else Raise (mk_exn OSError (lit "No such file or directory")).

Definition answer (history : list event) (prompt : str) : outcome str :=
  match prompt with
  | "E"%char :: _ => Return entities_response
  | _ => Return ai_response
  end.

(** A backend that cannot be reached, and one that answers with
    neither an object nor an array. *)
Definition offline (history : list event) (prompt : str) : outcome str :=
  Raise (mk_exn OSError (lit "Connection refused")).

Definition garbled (history : list event) (prompt : str) : outcome str :=
  Return (lit "[no array here] {nor an object}").

Definition with_llm (llm : list event -> str -> outcome str) : env :=
  mk_env loads repr
    (fun d => if PyStr.eqb (name d) (lit "pdfs")
              then [lit "a.pdf"; lit "notes.txt"; lit "empty.pdf"]
              else [lit "notes.txt"; lit "pdf"])
    (fun p => PyStr.eqb (name p) (lit "a.pdf")
              || PyStr.eqb (name p) (lit "blank.pdf")
              || PyStr.eqb (name p) (lit "empty.pdf"))
    reader_of
    (fun _ => Return 1024%Z)
    (fun _ => None)
    (fun _ _ => None)
    (fun _ => None)
    None
    llm.

Definition E : env := with_llm answer.
Definition E_offline : env := with_llm offline.
Definition E_garbled : env := with_llm garbled.

(** Nothing on disk, nothing called, no results. *)
Definition st0 : state := mk_state [] [] [].

(** What a run that analysed [a.pdf] leaves as its report. *)
Definition earlier_results : results_dict :=
  [ (a_pdf,
     Success (lit "a.pdf") (MetaError (lit "unreadable"))
       (mk_analysis (Some (lit "AI")) (Some (lit "About learning"))
                    (JList []))) ;
    (empty_pdf, Error (lit "empty.pdf") (lit "PDF has no pages")) ].

Definition st_reported : state :=
  mk_state
    [ (PDFProcessorOrchestrator.report_path cfg,
       Return (PDFProcessorOrchestrator.build_report
                 (mk_batch 1 1 (Some 2%Z) earlier_results) []
                 earlier_results)) ]
    [] [].

(** A report cut short on disk: [json.load] rejects it. *)
Definition st_truncated_report : state :=
  mk_state
    [ (PDFProcessorOrchestrator.report_path cfg,
       Raise (mk_exn JSONDecodeError (lit "Expecting value"))) ]
    [] [].

End Sample.

(* ================================================================= *)
(** ** Notions the statements use *)

(** The state after further calls. *)
Definition logged (st : state) (evs : list event) : state :=
  mk_state (json_files st) (trace st ++ evs) (self_results st).

(** [text.strip()] is truthy. *)
Definition nonblank (text : str) : bool := truthy (strip text).

(** All that [extract_text] computes, apart from the call it logs. *)
Definition text_of (E : env) (max_pages : option Z) (pdf_path : path)
  : outcome str :=
  if negb (path_exists E pdf_path) then
    Raise (mk_exn FileNotFoundError
             (lit "PDF file not found: " ++ path_str pdf_path))
  else
    reader <~ open_pdf E pdf_path ;;
    let num_pages := Z.of_nat (length (reader_pages reader)) in
    if (num_pages =? 0)%Z then
      Raise (mk_exn ValueError (lit "PDF has no pages: " ++ path_str pdf_path))
    else
      text_content <~
        PDFExtractor.extract_loop (reader_pages reader)
          (seq 0 (Z.to_nat (PDFExtractor.pages_to_extract max_pages num_pages))) [] ;;
      match text_content with
      | [] =>
          Raise (mk_exn ValueError
                   (lit "No readable text found in PDF: " ++ path_str pdf_path))
      | _ :: _ => Return (join [ch_newline] text_content)
      end.

(** The extractor as the specification words it: the first
    [min(max_pages, actual_pages)] pages are read, and the text
    returned joins the non-blank ones with newlines. *)
Definition extract_text_as_specified (E : env) (max_pages : Z) (p : path)
           (st : state) : Prop :=
  forall reader texts,
    open_pdf E p = Return reader ->
    map page_extract_text (reader_pages reader) = map Return texts ->
    let n := Z.of_nat (length texts) in
    PDFExtractor.pages_to_extract (Some max_pages) n = Z.min max_pages n
    /\ forall text,
        fst (PDFExtractor.extract_text E (Some max_pages) p st) = Return text ->
        text = join [ch_newline]
                 (filter nonblank (firstn (Z.to_nat (Z.min max_pages n)) texts)).

(** What the two replacement passes of [_sanitize_folder_name] do to
    one character. *)
Definition clean_char (c : ascii) : ascii :=
  fold_left (fun x bad => if Ascii.eqb x bad then ch_underscore else x)
            (ch_space :: FileOrganizer.invalid_chars) c.

(** The condition under which [_parse_response] reaches its free-text
    result: no brace span, or a span the decoder rejects with a
    [JSONDecodeError]. *)
Definition no_json_object (E : env) (response : str) : bool :=
  let json_start := find "{" response in
  let json_end := (rfind "}" response + 1)%Z in
  if (json_start >=? 0)%Z && (json_end >? json_start)%Z then
    match json_loads E (slice json_start json_end response) with
    | Return _ => false
    | Raise e => is_JSONDecodeError e
    end
  else true.

(** The free-text result as the specification words it: the lines of
    the response joined with single spaces and cut at 200 characters,
    never empty. *)
Definition fallback_as_specified (E : env) (response : str) : Prop :=
  no_json_object E response = true ->
  exists summary,
    PDFAnalysisPipeline._parse_response E response
    = Return [ (lit "topic", lit "Uncategorized"); (lit "summary", summary) ]
    /\ summary = take 200 (join [ch_space] (split ch_newline response))
    /\ summary <> []
    /\ length summary <= 200.

(** The dictionary [generate_topic_and_summary] returns from its
    handler. *)
Definition failed_analysis (e : exn) : PDFAnalysisPipeline.analysis_dict :=
  [ (lit "topic", lit "Uncategorized");
    (lit "summary", lit "Failed to process");
    (lit "error", exn_str e) ].

(** The two prompts sent for a text. *)
Definition topic_prompt (text : str) (max_length : Z) : str :=
  PDFAnalysisPipeline.format_prompt
    (slice 0 (Z.min (len text) 8000) text) max_length.

Definition array_prompt (text : str) : str :=
  PDFAnalysisPipeline.entities_prompt (slice 0 (Z.min (len text) 8000) text).

(** What [generate_topic_and_summary] makes of the answer to its
    prompt. *)
Definition analysis_of (E : env) (answer : outcome str)
  : PDFAnalysisPipeline.analysis_dict :=
  match (response <~ answer ;; PDFAnalysisPipeline._parse_response E response) with
  | Return d => d
  | Raise e => failed_analysis e
  end.

(** What [extract_key_entities] makes of the answer to its prompt. *)
Definition entities_of (E : env) (answer : outcome str) : json :=
  match answer with
  | Return response =>
      let json_start := find "[" response in
      let json_end := (rfind "]" response + 1)%Z in
      if (json_start >=? 0)%Z && (json_end >? json_start)%Z then
        match json_loads E (slice json_start json_end response) with
        | Return v => v
        | Raise _ => JList []
        end
      else JList []
  | Raise _ => JList []
  end.

(** A dictionary with a [topic] entry and a [summary] entry of at
    most 200 characters. *)
Definition well_formed (d : PDFAnalysisPipeline.analysis_dict) : Prop :=
  exists topic summary,
    PyDict.get PyStr.eqb d (lit "topic") = Some topic
    /\ PyDict.get PyStr.eqb d (lit "summary") = Some summary
    /\ length summary <= 200.

(** What [extract_metadata] returns. *)
Definition metadata_of (E : env) (pdf_path : path) : metadata :=
  match open_pdf E pdf_path with
  | Raise e => MetaError (exn_str e)
  | Return reader =>
      match stat_size E pdf_path with
      | Raise e => MetaError (exn_str e)
      | Return file_size =>
          let metadata :=
            match reader_metadata reader with Some d => d | None => [] end in
          MetaInfo
            (PyDict.get_default PyStr.eqb metadata (lit "/Title") (lit "Unknown"))
            (PyDict.get_default PyStr.eqb metadata (lit "/Author") (lit "Unknown"))
            (Z.of_nat (length (reader_pages reader)))
            file_size
      end
  end.

(** The look of [process_pdf] at the report of the run before: whether
    the file is to be skipped, or the exception the look raises. *)
Definition skip_check (C : Config) (st : state) (pdf_path : path)
  : outcome bool :=
  match read_json st (PDFProcessorOrchestrator.report_path C) with
  | None => Return false
  | Some loaded =>
      report_data <~ loaded ;;
      these <~ PDFProcessorOrchestrator.skip_these report_data ;;
      Return (existsb (json_eq_str (name pdf_path)) these)
  end.

(** The earlier report is missing, or it loads and every item of its
    [processing_details] can be asked for its [file]. *)
Definition prior_report_ok (C : Config) (st : state) : bool :=
  match read_json st (PDFProcessorOrchestrator.report_path C) with
  | None => true
  | Some (Raise _) => false
  | Some (Return report_data) =>
      match PDFProcessorOrchestrator.skip_these report_data with
      | Return _ => true
      | Raise _ => false
      end
  end.

(** The [try] statement of [process_pdf]: the record it produces and
    the state it leaves. *)
Definition attempt (E : env) (C : Config) (pdf_path : path) (st : state)
  : result * state :=
  match text_of E (Some (MAX_PAGES_PER_PDF C)) pdf_path with
  | Raise e =>
      (Error (name pdf_path) (exn_str e), logged st [EvExtractText pdf_path])
  | Return text =>
      let st1 := logged st [EvExtractText pdf_path; EvExtractMetadata pdf_path] in
      let analysis :=
        analysis_of E (llm_invoke E (trace st1) (topic_prompt text 200)) in
      let st2 := logged st1 [EvInvoke (topic_prompt text 200)] in
      let entities :=
        entities_of E (llm_invoke E (trace st2) (array_prompt text)) in
      (Success (name pdf_path) (metadata_of E pdf_path)
         (mk_analysis (PyDict.get PyStr.eqb analysis (lit "topic"))
                      (PyDict.get PyStr.eqb analysis (lit "summary"))
                      entities),
       logged st2 [EvInvoke (array_prompt text)])
  end.

(** The success records of [self.results], in order, with the
    analysis each carries. *)
Definition successes (results : results_dict) : list (path * analysis) :=
  flat_map
    (fun kv =>
       match snd kv with
       | Success _ _ an => [(fst kv, an)]
       | _ => []
       end)
    results.

(** The item [_generate_report] appends for a success record. *)
Definition detail_item (kv : path * analysis) : json :=
  JDict [ (lit "file", JStr (name (fst kv)));
          (lit "topic", json_of_opt_str (an_topic (snd kv)));
          (lit "summary", json_of_opt_str (an_summary (snd kv))) ].

(** Every success record holds a topic. *)
Definition has_topic (r : result) : Prop :=
  match r with
  | Success _ _ an => an_topic an <> None
  | _ => True
  end.

(** The report of a run that found nothing to do. *)
Definition empty_report : json :=
  JDict
    [ (lit "summary",
       JDict [ (lit "total_files", JInt 0);
               (lit "processed", JInt 0);
               (lit "failed", JInt 0);
               (lit "topics_identified", JInt 0) ]);
      (lit "topics", JDict []);
      (lit "processing_details", JList []) ].

(** Every success record of [self.results] holds a topic. *)
Definition all_have_topic (results : results_dict) : Prop :=
  Forall (fun kv => has_topic (snd kv)) results.

(** The run as the specification words its failure policy: every
    document yields a record, and with the backend connected and the
    report writable the whole run completes. *)
Definition failures_contained_as_specified (E : env) (C : Config)
           (st : state) : Prop :=
  (forall p, exists r st',
       PDFProcessorOrchestrator.process_pdf E C p st = (Return r, st'))
  /\ (ollama_init E = None ->
      write_fails E (PDFProcessorOrchestrator.report_path C) = None ->
      exists st', PDFProcessorOrchestrator.main E C st = (Return tt, st')).

(** The [file] entry of a record of [process_pdf]. *)
Definition result_file (r : result) : str :=
  match r with
  | Skipped f | Success f _ _ | Error f _ => f
  end.

(* ================================================================= *)
(** ** More small worlds *)

Module MoreSamples.

(** The sample world with another answer to [PdfReader(path)]. *)
Definition with_reader (open : path -> outcome PdfReader) : env :=
  mk_env Sample.loads Sample.repr
    (fun _ => [lit "a.pdf"; lit "b.pdf"])
    (fun _ => true)
    open
    (fun _ => Return 2048%Z)
    (fun _ => None)
    (fun _ _ => None)
    (fun _ => None)
    None
    Sample.answer.

(** Two pages of text and a third that cannot be read. *)
Definition broken_reader : PdfReader :=
  mk_reader
    [ mk_page (Return (lit "Intro"));
      mk_page (Return (lit "Body"));
      mk_page (Raise (mk_exn ValueError (lit "bad stream"))) ]
    None.

(** The same first two pages, the third readable. *)
Definition sound_reader : PdfReader :=
  mk_reader
    [ mk_page (Return (lit "Intro"));
      mk_page (Return (lit "Body"));
      mk_page (Return (lit "Appendix")) ]
    None.

Definition E_broken : env := with_reader (fun _ => Return broken_reader).
Definition E_sound : env := with_reader (fun _ => Return sound_reader).
Definition E_locked : env :=
  with_reader (fun _ => Raise (mk_exn OSError (lit "Permission denied"))).

Definition doc : path := joinpath Sample.input_dir (lit "a.pdf").

(** The sample world after a run that reported both of its PDF
    files. *)
Definition both_reported : results_dict :=
  [ (Sample.a_pdf,
     Success (lit "a.pdf") (MetaError (lit "unreadable"))
       (mk_analysis (Some (lit "AI")) (Some (lit "About learning")) (JList [])));
    (Sample.empty_pdf,
     Success (lit "empty.pdf") (MetaError (lit "unreadable"))
       (mk_analysis (Some (lit "Misc")) (Some (lit "Nothing")) (JList []))) ].

Definition st_both_reported : state :=
  mk_state
    [ (PDFProcessorOrchestrator.report_path Sample.cfg,
       Return (PDFProcessorOrchestrator.build_report
                 (mk_batch 2 0 (Some 2%Z) both_reported) [] both_reported)) ]
    [] [].

(** The sample world with a backend that cannot be set up. *)
(** The sample world with a disk on which no copy succeeds, and one on
    which no directory can be made. *)
Definition E_full_disk : env :=
  mk_env Sample.loads Sample.repr
    (fun _ => [lit "a.pdf"])
    (fun _ => true)
    (fun _ => Return sound_reader)
    (fun _ => Return 2048%Z)
    (fun _ => None)
    (fun _ _ => Some (mk_exn OSError (lit "No space left on device")))
    (fun _ => None)
    None
    Sample.answer.

Definition E_read_only : env :=
  mk_env Sample.loads Sample.repr
    (fun _ => [lit "a.pdf"])
    (fun _ => true)
    (fun _ => Return sound_reader)
    (fun _ => Return 2048%Z)
    (fun _ => Some (mk_exn OSError (lit "Read-only file system")))
    (fun _ _ => None)
    (fun _ => Some (mk_write_failure
                      (mk_exn OSError (lit "Read-only file system")) None))
    None
    Sample.answer.

(** The sample world with a disk that fills up while a file is being
    written: the file is left cut short. *)
Definition E_disk_fills : env :=
  mk_env Sample.loads Sample.repr
    (fun _ => [lit "a.pdf"])
    (fun _ => true)
    (fun _ => Return sound_reader)
    (fun _ => Return 2048%Z)
    (fun _ => None)
    (fun _ _ => None)
    (fun _ => Some (mk_write_failure
                      (mk_exn OSError (lit "No space left on device"))
                      (Some (Raise (mk_exn JSONDecodeError
                                      (lit "Expecting value"))))))
    None
    Sample.answer.

(** Two analysed files of two topics. *)
Definition two_topics : list (path * analysis) :=
  [ (Sample.a_pdf,
     mk_analysis (Some (lit "AI")) (Some (lit "About learning")) (JList []));
    (joinpath Sample.input_dir (lit "b.pdf"),
     mk_analysis (Some (lit "Finance")) (Some (lit "A report")) (JList [])) ].

(** An earlier report that is a list, and one whose second item has
    no [file] entry. *)
Definition st_list_report : state :=
  mk_state [ (PDFProcessorOrchestrator.report_path Sample.cfg, Return (JList [])) ]
           [] [].

Definition st_item_without_file : state :=
  mk_state
    [ (PDFProcessorOrchestrator.report_path Sample.cfg,
       Return (JDict [ (lit "processing_details",
                        JList [ JDict [ (lit "file", JStr (lit "a.pdf")) ];
                                JDict [ (lit "topic", JStr (lit "AI")) ] ]) ])) ]
    [] [].

(** A state in which an index has been written before. *)
Definition st_indexed : state :=
  mk_state
    [ (PDFProcessorOrchestrator.index_path Sample.cfg, Return (JDict [])) ]
    [] [].

Definition E_no_backend : env :=
  mk_env Sample.loads Sample.repr
    (fun _ => [lit "a.pdf"])
    (fun _ => true)
    (fun _ => Return sound_reader)
    (fun _ => Return 2048%Z)
    (fun _ => None)
    (fun _ _ => None)
    (fun _ => None)
    (Some (mk_exn OSError (lit "Connection refused")))
    Sample.answer.

End MoreSamples.

(** How many records of [self.results] have a given status. *)
Definition count_status (s : str) (results : results_dict) : Z :=
  Z.of_nat (length (filter (fun kv => PyStr.eqb (status (snd kv)) s) results)).

(** A record with status [skipped]. *)
Definition is_skipped (r : result) : Prop :=
  match r with Skipped _ => True | _ => False end.

(** Where [organize_by_topic] copies a file of a given topic: into the
    folder of the sanitized topic under its own name, or into the base
    directory under a name that starts with the sanitized topic. *)
Definition destination (base : path) (create_subdirs : bool) (topic : str)
           (pdf_path : path) : path :=
  if create_subdirs then
    joinpath (joinpath base (FileOrganizer._sanitize_folder_name topic))
             (name pdf_path)
  else
    joinpath base
      (FileOrganizer._sanitize_folder_name topic ++ lit "_" ++ name pdf_path).

(** The entry [generate_index] writes for a file. *)
Definition index_entry (an : analysis) : json :=
  JDict [ (lit "topic", json_of_opt_str (an_topic an));
          (lit "summary", json_of_opt_str (an_summary an));
          (lit "entities", an_entities an) ].

(** The dictionary after [organized[topic].append(dest_path)], the key
    being created when missing. *)
Definition appended (organized : FileOrganizer.organized_dict) (topic : str)
           (dest : path) : FileOrganizer.organized_dict :=
  let organized :=
    if PyDict.contains PyStr.eqb organized topic then organized
    else PyDict.set PyStr.eqb organized topic [] in
  PyDict.set PyStr.eqb organized topic
    (PyDict.get_default PyStr.eqb organized topic [] ++ [dest]).

(** A call that neither copies a file nor writes one. *)
Definition quiet (ev : event) : Prop :=
  match ev with
  | EvCopy _ _ | EvWrite _ => False
  | _ => True
  end.

(** [st'] comes from [st] by quiet calls, the JSON files untouched. *)
Definition quietly_after (st st' : state) : Prop :=
  json_files st' = json_files st
  /\ exists calls, trace st' = trace st ++ calls /\ Forall quiet calls.

(** [logs[-100:]] *)
Definition last_100 (logs : list str) : list str :=
  skipn (length logs - 100) logs.

(** The messages of the records that could be formatted. *)
Definition formatted_messages (records : list (outcome str)) : list str :=
  flat_map (fun r => match r with Return msg => [msg] | Raise _ => [] end)
           records.

(** The [summary] entry of a report. *)
Definition report_summary (total processed failed topics : Z) : json :=
  JDict [ (lit "total_files", JInt total);
          (lit "processed", JInt processed);
          (lit "failed", JInt failed);
          (lit "topics_identified", JInt topics) ].

(* ================================================================= *)
(** * Properties *)

Arguments lit : simpl never.
Unset Implicit Arguments.

(** ** The string methods on small inputs *)

Example find_rfind_examples :
  find "{" (lit "ab{c{") = 2%Z /\ rfind "}" (lit "a}b}c") = 3%Z
  /\ find "{" (lit "abc") = (-1)%Z /\ rfind "}" [] = (-1)%Z
  /\ slice 2 5 (lit "ab{c}d") = lit "{c}".
Proof. repeat split; reflexivity. Qed.

Example strip_split_join_examples :
  strip (lit "  a b" ++ [ch_newline]) = lit "a b"
  /\ split ch_newline (lit "a" ++ [ch_newline] ++ lit "b" ++ [ch_newline])
     = [lit "a"; lit "b"; []]
  /\ join [ch_space] [lit "a"; lit "b"; []] = lit "a b "
  /\ endswith (lit ".pdf") (lit "a.pdf") = true
  /\ endswith (lit ".pdf") (lit "pdf") = false.
Proof. repeat split; reflexivity. Qed.

(** ** Messages, paths and failed writes on small inputs *)

Example repr_str_examples :
  repr_str (lit "file") = lit "'file'"
  /\ repr_str (lit "it's") = [ch_dquote] ++ lit "it's" ++ [ch_dquote]
  /\ repr_str (lit "a" ++ [ch_newline]) = lit "'a\n'"
  /\ py_getitem (JDict []) (lit "file") = Raise (mk_exn KeyError (lit "'file'"))
  /\ PDFProcessorOrchestrator.skip_these (JList [])
     = Raise (mk_exn AttributeError
                (lit "'list' object has no attribute 'get'")).
Proof. repeat split; reflexivity. Qed.

Example joinpath_examples :
  joinpath Sample.output_dir (lit ".") = Sample.output_dir
  /\ joinpath Sample.output_dir [] = Sample.output_dir
  /\ path_str (joinpath (joinpath Sample.output_dir (lit "AI")) (lit "a.pdf"))
     = path_str Sample.output_dir ++ lit "/AI/a.pdf"
  /\ destination Sample.output_dir true (lit ".") Sample.a_pdf
     = joinpath Sample.output_dir (lit "a.pdf").
Proof. repeat split; reflexivity. Qed.

Example write_json_failures :
  write_json MoreSamples.E_read_only
    (PDFProcessorOrchestrator.index_path Sample.cfg) JNull MoreSamples.st_indexed
  = (Raise (mk_exn OSError (lit "Read-only file system")),
     logged MoreSamples.st_indexed
       [EvWrite (PDFProcessorOrchestrator.index_path Sample.cfg)])
  /\ read_json
       (snd (write_json MoreSamples.E_disk_fills
               (PDFProcessorOrchestrator.index_path Sample.cfg) JNull
               MoreSamples.st_indexed))
       (PDFProcessorOrchestrator.index_path Sample.cfg)
     = Some (Raise (mk_exn JSONDecodeError (lit "Expecting value"))).
Proof. split; reflexivity. Qed.

(** ** The repository's unit tests, replayed on the model *)

Example test_sanitize_folder_name :
  FileOrganizer._sanitize_folder_name (lit "Hello World") = lit "Hello_World"
  /\ FileOrganizer._sanitize_folder_name (lit "Tech/Science") = lit "Tech_Science"
  /\ FileOrganizer._sanitize_folder_name (repeat "A"%char 100)
     = repeat "A"%char 50.
Proof. repeat split; reflexivity. Qed.

Example test_parse_response_json :
  PDFAnalysisPipeline._parse_response Sample.E Sample.ai_response
  = Return [ (lit "topic", lit "AI");
             (lit "summary", lit "About artificial intelligence") ].
Proof. reflexivity. Qed.

Example test_parse_response_fallback :
  PDFAnalysisPipeline._parse_response Sample.E
    (lit "Some random text without JSON")
  = Return [ (lit "topic", lit "Uncategorized");
             (lit "summary", lit "Some random text without JSON") ].
Proof. reflexivity. Qed.

Example test_extract_key_entities :
  fst (PDFAnalysisPipeline.extract_key_entities Sample.E (lit "Test content")
         Sample.st0)
  = Return (JList [JStr (lit "Entity1"); JStr (lit "Entity2")]).
Proof. reflexivity. Qed.

Example test_extract_text_success :
  fst (PDFExtractor.extract_text Sample.E (Some 10%Z) Sample.a_pdf Sample.st0)
  = Return (lit "Neural networks" ++ [ch_newline] ++ lit "and learning").
Proof. reflexivity. Qed.

Example test_main_on_sample :
  let final := PDFProcessorOrchestrator.main Sample.E Sample.cfg Sample.st0 in
  fst final = Return tt
  /\ map (fun kv => status (snd kv)) (self_results (snd final))
     = [lit "success"; lit "error"].
Proof. split; vm_compute; reflexivity. Qed.

(** ** Strings *)

Section StringFacts.

Lemma eqb_refl (s : str) : PyStr.eqb s s = true.
Proof.
  induction s as [|c s IH]; simpl; [reflexivity|].
  now rewrite Ascii.eqb_refl, IH.
Qed.

Lemma eqb_eq (s t : str) : PyStr.eqb s t = true <-> s = t.
Proof.
  split; [|intros ->; apply eqb_refl].
  revert t; induction s as [|c s IH]; intros [|d t]; simpl; try discriminate.
  - reflexivity.
  - rewrite andb_true_iff, Ascii.eqb_eq. intros [-> H]. now rewrite (IH _ H).
Qed.

Lemma truthy_map (f : ascii -> ascii) s :
  truthy (map f s) = truthy s.
Proof. now destruct s. Qed.

Lemma truthy_firstn_succ n s :
  truthy (firstn (S n) s) = truthy s.
Proof. now destruct s. Qed.

Lemma lstrip_length s : length (lstrip s) <= length s.
Proof.
  induction s as [|c s IH]; simpl; [lia|].
  destruct (isspace c); simpl; lia.
Qed.

Lemma strip_length s : length (strip s) <= length s.
Proof.
  unfold strip, rstrip. rewrite length_rev.
  etransitivity; [apply lstrip_length|].
  rewrite length_rev. apply lstrip_length.
Qed.

Lemma take_length n s : length (take n s) <= n.
Proof. unfold take. rewrite length_firstn. lia. Qed.

(** [lstrip] leaves nothing exactly when every character is
    whitespace. *)
Lemma lstrip_nil s : lstrip s = [] <-> forallb isspace s = true.
Proof.
  induction s as [|c s IH]; simpl; [tauto|].
  destruct (isspace c); simpl; [exact IH|].
  split; discriminate.
Qed.

Lemma lstrip_all_or_head s :
  lstrip s = [] \/ exists c r, lstrip s = c :: r /\ isspace c = false.
Proof.
  induction s as [|c s IH]; simpl; [now left|].
  destruct (isspace c) eqn:Hc; [exact IH|].
  right. now exists c, s.
Qed.

Lemma strip_nil s : strip s = [] <-> forallb isspace s = true.
Proof.
  unfold strip, rstrip. rewrite <- lstrip_nil. split.
  - intros H. destruct (lstrip_all_or_head s) as [Hs|(c & r & Hs & Hc)];
      [exact Hs|].
    rewrite Hs in H. exfalso.
    apply (f_equal (@rev ascii)) in H. rewrite rev_involutive in H.
    simpl in H. apply lstrip_nil in H.
    rewrite forallb_app in H. simpl in H. rewrite Hc in H.
    rewrite andb_false_r in H. discriminate.
  - intros ->. reflexivity.
Qed.

Lemma split_not_nil sep s : split sep s <> [].
Proof.
  destruct s as [|c s]; simpl; [discriminate|].
  destruct (Ascii.eqb c sep); [discriminate|].
  destruct (split sep s); discriminate.
Qed.

(** Joining the pieces of a split with one character replaces the
    separator by it. *)
Lemma join_split (x sep : ascii) s :
  join [x] (split sep s) = replace sep x s.
Proof.
  induction s as [|c s IH]; [reflexivity|].
  simpl. destruct (Ascii.eqb c sep).
  - pose proof (split_not_nil sep s) as Hne.
    destruct (split sep s) as [|h t] eqn:Hs; [congruence|].
    rewrite <- IH. reflexivity.
  - destruct (split sep s) as [|h t] eqn:Hs.
    + exfalso. now apply (split_not_nil sep s).
    + rewrite <- IH. destruct t; reflexivity.
Qed.

Lemma replace_nil old new s : replace old new s = [] <-> s = [].
Proof. destruct s; simpl; split; congruence. Qed.

Lemma take_succ_nil n s : take (S n) s = [] <-> s = [].
Proof. destruct s; simpl; split; congruence. Qed.

Lemma all_space_no_other s :
  forallb isspace s = negb (existsb (fun c => negb (isspace c)) s).
Proof.
  induction s as [|c s IH]; [reflexivity|].
  simpl. rewrite IH. now destruct (isspace c).
Qed.

Lemma skipn_cons_nth {A} (l : list A) i x r :
  skipn i l = x :: r -> nth_error l i = Some x /\ skipn (S i) l = r.
Proof.
  revert l; induction i as [|i IH]; intros [|y l]; simpl; try discriminate.
  - intros [= -> ->]. now split.
  - intros H. destruct (IH _ H) as [H1 H2]. split; [exact H1|].
    destruct l; [now rewrite skipn_nil in H|exact H2].
Qed.

End StringFacts.

(** ** The monad: how the building blocks run *)

Lemma Return_inj {A} (a b : A) : Return a = Return b -> a = b.
Proof. congruence. Qed.

Lemma logged_logged st a b : logged (logged st a) b = logged st (a ++ b).
Proof. unfold logged; simpl. now rewrite app_assoc. Qed.

(** ** pdf_extractor.py *)

Module ExtractorFacts.
Import PDFExtractor.

Lemma extract_text_run E max_pages p st :
  extract_text E max_pages p st
  = (text_of E max_pages p, logged st [EvExtractText p]).
Proof.
  unfold extract_text, text_of, bind, emit, raise, lift, ret, logged; simpl.
  destruct (path_exists E p); simpl; [|reflexivity].
  destruct (open_pdf E p) as [reader|e]; simpl; [|reflexivity].
  destruct (Z.of_nat (length (reader_pages reader)) =? 0)%Z; [reflexivity|].
  destruct (extract_loop _ _ _) as [[|t ts]|e]; reflexivity.
Qed.

(** The loop keeps, in page order, the non-blank texts of the pages
    it is sent over. *)
Lemma extract_loop_texts pages texts : forall i acc,
  map page_extract_text (firstn (length texts) (skipn i pages))
  = map Return texts ->
  extract_loop pages (seq i (length texts)) acc
  = Return (acc ++ filter nonblank texts).
Proof.
  induction texts as [|t ts IH]; intros i acc H; simpl.
  - now rewrite app_nil_r.
  - simpl in H. destruct (skipn i pages) as [|pg rest] eqn:Hsk;
      [discriminate|].
    destruct (skipn_cons_nth _ _ _ _ Hsk) as [Hnth Hrest].
    simpl in H. injection H as Hpg Hmap.
    rewrite Hnth. simpl. rewrite Hpg. simpl.
    rewrite <- Hrest in Hmap. rewrite (IH _ _ Hmap).
    unfold nonblank at 2. destruct (truthy (strip t)).
    + now rewrite <- app_assoc.
    + reflexivity.
Qed.

Lemma pages_to_extract_le max_pages n :
  (0 <= n -> pages_to_extract max_pages n <= n)%Z.
Proof.
  intros Hn. unfold pages_to_extract.
  destruct max_pages as [m|]; [|lia].
  destruct (m =? 0)%Z; lia.
Qed.

(** The result of [extract_text] on a file that opens with pages,
    when every page read yields text. *)
Lemma text_of_pages E max_pages p reader texts :
  path_exists E p = true ->
  open_pdf E p = Return reader ->
  reader_pages reader <> [] ->
  map page_extract_text
      (firstn (Z.to_nat (pages_to_extract max_pages
                           (Z.of_nat (length (reader_pages reader)))))
              (reader_pages reader))
  = map Return texts ->
  text_of E max_pages p
  = match filter nonblank texts with
    | [] =>
        Raise (mk_exn ValueError
                 (lit "No readable text found in PDF: " ++ path_str p))
    | _ :: _ => Return (join [ch_newline] (filter nonblank texts))
    end.
Proof.
  intros Hex Hopen Hne Htexts.
  set (n := Z.of_nat (length (reader_pages reader))) in *.
  set (k := pages_to_extract max_pages n) in *.
  assert (Hn : (0 < n)%Z).
  { subst n. destruct (reader_pages reader); [congruence|simpl; lia]. }
  unfold text_of. rewrite Hex, Hopen. simpl. fold n.
  destruct (Z.eqb_spec n 0); [lia|]. fold k.
  assert (Hlen : length texts = Z.to_nat k).
  { apply (f_equal (@length _)) in Htexts.
    rewrite !length_map, length_firstn in Htexts.
    pose proof (pages_to_extract_le max_pages n) as Hle.
    fold k in Hle. subst n. lia. }
  rewrite <- Hlen in Htexts |- *.
  rewrite (extract_loop_texts _ _ 0 [] Htexts). simpl.
  destruct (filter nonblank texts); reflexivity.
Qed.

Lemma text_of_no_pages E max_pages p reader :
  path_exists E p = true ->
  open_pdf E p = Return reader ->
  reader_pages reader = [] ->
  text_of E max_pages p
  = Raise (mk_exn ValueError (lit "PDF has no pages: " ++ path_str p)).
Proof.
  intros Hex Hopen Hnil. unfold text_of.
  rewrite Hex, Hopen. simpl. rewrite Hnil. reflexivity.
Qed.

End ExtractorFacts.

(** ** file_organizer.py *)

Module SanitizeFacts.
Import FileOrganizer.

Lemma replace_fold_map (bads : list ascii) (s : str) :
  fold_left (fun nm char => replace char ch_underscore nm) bads s
  = map (fun c =>
           fold_left (fun x bad => if Ascii.eqb x bad then ch_underscore else x)
                     bads c) s.
Proof.
  revert s; induction bads as [|b bads IH]; intros s; simpl.
  - now rewrite map_id.
  - rewrite IH. unfold replace. now rewrite map_map.
Qed.

Lemma sanitize_unfold name :
  _sanitize_folder_name name
  = if truthy name then take 50 (map clean_char name) else lit "unknown".
Proof.
  unfold _sanitize_folder_name. cbv zeta.
  rewrite replace_fold_map. unfold replace. rewrite map_map.
  rewrite truthy_map. reflexivity.
Qed.

Lemma clean_char_idem c : clean_char (clean_char c) = clean_char c.
Proof.
  destruct c as [b0 b1 b2 b3 b4 b5 b6 b7].
  destruct b0, b1, b2, b3, b4, b5, b6, b7; reflexivity.
Qed.

End SanitizeFacts.

(** C9: folder-name sanitization is idempotent on every topic string,
    [sanitize (sanitize x) = sanitize x]. *)
Theorem sanitize_idempotent (x : str) :
  FileOrganizer._sanitize_folder_name (FileOrganizer._sanitize_folder_name x)
  = FileOrganizer._sanitize_folder_name x.
Proof.
  rewrite !SanitizeFacts.sanitize_unfold.
  destruct (truthy x) eqn:Hx; [|reflexivity].
  unfold take.
  rewrite truthy_firstn_succ, truthy_map, Hx.
  rewrite <- firstn_map, map_map.
  rewrite (map_ext _ _ SanitizeFacts.clean_char_idem).
  rewrite firstn_firstn. reflexivity.
Qed.

(** ** Claims about the extractor *)

(** C4, as amended: for a file that exists and opens with at least one
    page, [extract_text] reads the first [pages_to_extract] pages,
    which is [min(max_pages, actual_pages)] for a positive
    [max_pages], every page when [max_pages] is [None] or [0], and no
    page for a negative [max_pages]; when each page read yields text,
    the result is the non-blank texts of those pages, in page order,
    joined with newlines, or the no-readable-text error when there is
    none. *)
Theorem extract_text_reads_first_pages
        (E : env) (max_pages : option Z) (p : path) (st : state)
        (reader : PdfReader) (texts : list str) :
  path_exists E p = true ->
  open_pdf E p = Return reader ->
  reader_pages reader <> [] ->
  let n := Z.of_nat (length (reader_pages reader)) in
  let k := PDFExtractor.pages_to_extract max_pages n in
  map page_extract_text (firstn (Z.to_nat k) (reader_pages reader))
  = map Return texts ->
  (forall m, max_pages = Some m -> (0 < m)%Z -> k = Z.min m n)
  /\ (max_pages = None \/ max_pages = Some 0%Z -> k = n)
  /\ (forall m, max_pages = Some m -> (m < 0)%Z -> Z.to_nat k = 0)
  /\ fst (PDFExtractor.extract_text E max_pages p st)
     = match filter nonblank texts with
       | [] =>
           Raise (mk_exn ValueError
                    (lit "No readable text found in PDF: " ++ path_str p))
       | _ :: _ => Return (join [ch_newline] (filter nonblank texts))
       end.
Proof.
  intros Hex Hopen Hne n k Htexts.
  repeat split.
  - intros m -> Hm. subst k. unfold PDFExtractor.pages_to_extract.
    destruct (Z.eqb_spec m 0); [lia|reflexivity].
  - intros [->| ->]; reflexivity.
  - intros m -> Hm. subst k. unfold PDFExtractor.pages_to_extract.
    destruct (Z.eqb_spec m 0); lia.
  - rewrite ExtractorFacts.extract_text_run. simpl.
    exact (ExtractorFacts.text_of_pages _ _ _ _ _ Hex Hopen Hne Htexts).
Qed.

(** C4, witness: the three-page sample file read with [max_pages = 2]. *)
Lemma extract_text_reads_first_pages_witness :
  fst (PDFExtractor.extract_text Sample.E (Some 2%Z) Sample.a_pdf Sample.st0)
  = Return (lit "Neural networks").
Proof.
  assert (Hne : reader_pages
                  (mk_reader
                     [ mk_page (Return (lit "Neural networks"));
                       mk_page (Return (lit "   "));
                       mk_page (Return (lit "and learning")) ]
                     (Some [(lit "/Title", lit "On learning")])) <> [])
    by (simpl; discriminate).
  exact (proj2 (proj2 (proj2
           (extract_text_reads_first_pages Sample.E (Some 2%Z)
              Sample.a_pdf Sample.st0 _ [lit "Neural networks"; lit "   "]
              eq_refl eq_refl Hne eq_refl)))).
Defined.

(** C4, as the specification words it, fails for [max_pages = 0]: the
    guard on [self.max_pages] treats [0] like [None] and all three
    pages of the sample file are read, where [min(0, 3)] is [0]. *)
Lemma extract_text_max_pages_zero_counterexample :
  ~ extract_text_as_specified Sample.E 0 Sample.a_pdf Sample.st0.
Proof.
  intros H.
  pose proof (H (mk_reader
                   [ mk_page (Return (lit "Neural networks"));
                     mk_page (Return (lit "   "));
                     mk_page (Return (lit "and learning")) ]
                   (Some [(lit "/Title", lit "On learning")]))
                [lit "Neural networks"; lit "   "; lit "and learning"]
                eq_refl eq_refl) as H'.
  cbv zeta in H'. destruct H' as [_ Htext].
  specialize (Htext _ eq_refl). vm_compute in Htext. discriminate.
Qed.

(** C8: [extract_text] raises [FileNotFoundError] for a path that does
    not exist; it raises [ValueError] when the reader reports no page,
    and when every page it reads yields only whitespace; and
    [process_pdf] never returns a success record for a file without
    pages. *)
Theorem extract_text_failures
        (E : env) (C : Config) (max_pages : option Z) (p : path) (st : state) :
  (path_exists E p = false ->
   exists msg,
     fst (PDFExtractor.extract_text E max_pages p st)
     = Raise (mk_exn FileNotFoundError msg))
  /\ (forall reader,
        path_exists E p = true -> open_pdf E p = Return reader ->
        reader_pages reader = [] ->
        (exists msg,
           fst (PDFExtractor.extract_text E max_pages p st)
           = Raise (mk_exn ValueError msg))
        /\ forall st1 f m a,
            fst (PDFProcessorOrchestrator.process_pdf E C p st1)
            <> Return (Success f m a))
  /\ (forall reader texts,
        path_exists E p = true -> open_pdf E p = Return reader ->
        reader_pages reader <> [] ->
        map page_extract_text
            (firstn (Z.to_nat (PDFExtractor.pages_to_extract max_pages
                                 (Z.of_nat (length (reader_pages reader)))))
                    (reader_pages reader))
        = map Return texts ->
        forallb (fun t => forallb isspace t) texts = true ->
        exists msg,
          fst (PDFExtractor.extract_text E max_pages p st)
          = Raise (mk_exn ValueError msg)).
Proof.
  split; [|split].
  - intros Hex. rewrite ExtractorFacts.extract_text_run. simpl.
    unfold text_of. rewrite Hex. simpl. eauto.
  - intros reader Hex Hopen Hnil.
    pose proof (ExtractorFacts.text_of_no_pages E) as Hno.
    split.
    { rewrite ExtractorFacts.extract_text_run. simpl.
      rewrite (Hno _ _ _ Hex Hopen Hnil). eauto. }
    intros st1 f m a.
    unfold PDFProcessorOrchestrator.process_pdf, bind, get_state, try_except.
    simpl.
    destruct (read_json st1 _) as [[j|e]|]; simpl; try discriminate.
    + unfold lift, bind. simpl.
      destruct (PDFProcessorOrchestrator.skip_these j) as [l|e]; simpl;
        try discriminate.
      unfold ret. destruct (existsb _ l); simpl; [discriminate|].
      rewrite ExtractorFacts.extract_text_run.
      rewrite (Hno _ _ _ Hex Hopen Hnil). simpl. discriminate.
    + unfold ret. simpl.
      rewrite ExtractorFacts.extract_text_run.
      rewrite (Hno _ _ _ Hex Hopen Hnil). simpl. discriminate.
  - intros reader texts Hex Hopen Hne Htexts Hblank.
    rewrite ExtractorFacts.extract_text_run. simpl.
    rewrite (ExtractorFacts.text_of_pages _ _ _ _ _ Hex Hopen Hne Htexts).
    assert (Hnil : filter nonblank texts = []).
    { clear -Hblank. induction texts as [|t ts IH]; [reflexivity|].
      simpl in *. apply andb_true_iff in Hblank as [Ht Hts].
      unfold nonblank at 1. apply strip_nil in Ht. rewrite Ht. simpl.
      auto. }
    rewrite Hnil. eauto.
Qed.

(** C8, witness: a missing file, the sample file without pages and the
    sample file whose only page is blank. *)
Lemma extract_text_failures_witness :
  (exists msg,
     fst (PDFExtractor.extract_text Sample.E (Some 50%Z)
            (joinpath Sample.input_dir (lit "missing.pdf")) Sample.st0)
     = Raise (mk_exn FileNotFoundError msg))
  /\ (exists msg,
        fst (PDFExtractor.extract_text Sample.E (Some 50%Z) Sample.empty_pdf
               Sample.st0)
        = Raise (mk_exn ValueError msg))
  /\ (exists msg,
        fst (PDFExtractor.extract_text Sample.E (Some 50%Z) Sample.blank_pdf
               Sample.st0)
        = Raise (mk_exn ValueError msg)).
Proof.
  split; [|split].
  - exact (proj1 (extract_text_failures Sample.E Sample.cfg (Some 50%Z)
                    (joinpath Sample.input_dir (lit "missing.pdf")) Sample.st0)
                 eq_refl).
  - exact (proj1 (proj1 (proj2 (extract_text_failures Sample.E Sample.cfg
                                  (Some 50%Z) Sample.empty_pdf Sample.st0))
                        (mk_reader [] None) eq_refl eq_refl eq_refl)).
  - assert (Hne : reader_pages (mk_reader [mk_page (Return (lit " "))] None)
                  <> []) by (simpl; discriminate).
    exact (proj2 (proj2 (extract_text_failures Sample.E Sample.cfg
                           (Some 50%Z) Sample.blank_pdf Sample.st0))
                 (mk_reader [mk_page (Return (lit " "))] None) [lit " "]
                 eq_refl eq_refl Hne eq_refl eq_refl).
Defined.

(** ** llm_pipeline.py *)

Module PipelineFacts.
Import PDFAnalysisPipeline.

Lemma invoke_run E prompt st :
  invoke E prompt st
  = (llm_invoke E (trace st) prompt, logged st [EvInvoke prompt]).
Proof. reflexivity. Qed.

Lemma generate_topic_and_summary_run E text max_length st :
  generate_topic_and_summary E text max_length st
  = (Return (analysis_of E (llm_invoke E (trace st)
                              (topic_prompt text max_length))),
     logged st [EvInvoke (topic_prompt text max_length)]).
Proof.
  unfold generate_topic_and_summary, try_except, bind, lift, ret.
  rewrite invoke_run. unfold analysis_of, topic_prompt.
  destruct (llm_invoke E _ _) as [response|e]; simpl; [|reflexivity].
  destruct (_parse_response E response); reflexivity.
Qed.

Lemma extract_key_entities_run E text st :
  extract_key_entities E text st
  = (Return (entities_of E (llm_invoke E (trace st) (array_prompt text))),
     logged st [EvInvoke (array_prompt text)]).
Proof.
  unfold extract_key_entities, try_except, bind, lift, ret.
  rewrite invoke_run. unfold entities_of, array_prompt.
  destruct (llm_invoke E _ _) as [response|e]; simpl; [|reflexivity].
  destruct (_ && _); [|reflexivity].
  destruct (json_loads E _); reflexivity.
Qed.

(** When no JSON object is found the parser returns its free-text
    result. *)
Lemma parse_response_fallback E response :
  no_json_object E response = true ->
  _parse_response E response = Return (fallback response).
Proof.
  unfold no_json_object, _parse_response.
  destruct (_ && _); [|reflexivity].
  destruct (json_loads E _) as [v|e]; [discriminate|].
  now intros ->.
Qed.

Lemma topic_summary_well_formed topic summary rest :
  length summary <= 200 ->
  well_formed ((lit "topic", topic) :: (lit "summary", summary) :: rest).
Proof.
  intros H. exists topic, summary.
  split; [reflexivity|]. split; [reflexivity|exact H].
Qed.

Lemma fallback_well_formed response : well_formed (fallback response).
Proof. apply topic_summary_well_formed, take_length. Qed.

Lemma parse_response_well_formed E response d :
  _parse_response E response = Return d -> well_formed d.
Proof.
  unfold _parse_response.
  destruct (_ && _);
    [|intros H; apply Return_inj in H; subst d; apply fallback_well_formed].
  destruct (json_loads E _) as [v|e].
  - destruct v; try discriminate.
    intros H; apply Return_inj in H; subst d.
    apply topic_summary_well_formed.
    etransitivity; [apply strip_length|apply take_length].
  - destruct (is_JSONDecodeError e); [|discriminate].
    intros H; apply Return_inj in H; subst d. apply fallback_well_formed.
Qed.

Lemma analysis_of_well_formed E answer : well_formed (analysis_of E answer).
Proof.
  unfold analysis_of.
  destruct answer as [response|e]; simpl.
  - destruct (_parse_response E response) as [d|e] eqn:Hp.
    + now apply parse_response_well_formed in Hp.
    + apply topic_summary_well_formed. vm_compute. lia.
  - apply topic_summary_well_formed. vm_compute. lia.
Qed.

End PipelineFacts.

(** ** Claims about the analyzer *)

(** C10: whatever the model answers, [generate_topic_and_summary]
    returns a dictionary that holds a [topic] key and a [summary] key
    whose string is at most 200 characters long; this covers the
    parsed object, the free-text result and the handler's result. *)
Theorem generate_topic_and_summary_keys
        (E : env) (text : str) (max_length : Z) (st : state) :
  exists d st',
    PDFAnalysisPipeline.generate_topic_and_summary E text max_length st
    = (Return d, st')
    /\ exists topic summary,
        PyDict.get PyStr.eqb d (lit "topic") = Some topic
        /\ PyDict.get PyStr.eqb d (lit "summary") = Some summary
        /\ length summary <= 200.
Proof.
  rewrite PipelineFacts.generate_topic_and_summary_run.
  eexists _, _. split; [reflexivity|].
  apply PipelineFacts.analysis_of_well_formed.
Qed.

(** C7: the analyzer never raises.  [generate_topic_and_summary]
    always returns a dictionary, and when the model call or the
    parsing of its answer raises [e] that dictionary is the
    uncategorized one carrying [str(e)]; [extract_key_entities] always
    returns, and returns the empty list when the call raises, when the
    answer holds no bracket span and when the span does not decode. *)
Theorem analyzer_never_raises
        (E : env) (text : str) (max_length : Z) (st : state) :
  let topic_answer := llm_invoke E (trace st) (topic_prompt text max_length) in
  let array_answer := llm_invoke E (trace st) (array_prompt text) in
  (exists d,
     fst (PDFAnalysisPipeline.generate_topic_and_summary E text max_length st)
     = Return d)
  /\ (forall e,
        topic_answer = Raise e ->
        fst (PDFAnalysisPipeline.generate_topic_and_summary E text max_length st)
        = Return (failed_analysis e))
  /\ (forall response e,
        topic_answer = Return response ->
        PDFAnalysisPipeline._parse_response E response = Raise e ->
        fst (PDFAnalysisPipeline.generate_topic_and_summary E text max_length st)
        = Return (failed_analysis e))
  /\ (exists v,
        fst (PDFAnalysisPipeline.extract_key_entities E text st) = Return v)
  /\ (forall e,
        array_answer = Raise e ->
        fst (PDFAnalysisPipeline.extract_key_entities E text st)
        = Return (JList []))
  /\ (forall response,
        array_answer = Return response ->
        (find "[" response < 0)%Z
        \/ (rfind "]" response + 1 <= find "[" response)%Z
        \/ (exists e,
              json_loads E (slice (find "[" response) (rfind "]" response + 1)
                              response) = Raise e) ->
        fst (PDFAnalysisPipeline.extract_key_entities E text st)
        = Return (JList [])).
Proof.
  intros topic_answer array_answer.
  rewrite PipelineFacts.generate_topic_and_summary_run,
          PipelineFacts.extract_key_entities_run.
  fold topic_answer array_answer. simpl.
  repeat match goal with |- _ /\ _ => split end.
  - eauto.
  - intros e ->. reflexivity.
  - intros response e -> He. unfold analysis_of. simpl. now rewrite He.
  - eauto.
  - intros e ->. reflexivity.
  - intros response -> Hbad. unfold entities_of.
    destruct (Z.geb_spec (find "[" response) 0) as [H0|H0]; simpl.
    + destruct (Z.gtb_spec (rfind "]" response + 1) (find "[" response))
        as [H1|H1]; simpl; [|reflexivity].
      destruct Hbad as [Hb|[Hb|(e & Hb)]]; [lia|lia|].
      now rewrite Hb.
    + reflexivity.
Qed.

(** C7, witness: with the backend out of reach both calls degrade, and
    an answer whose bracket span does not decode gives no entity. *)
Lemma analyzer_never_raises_witness :
  fst (PDFAnalysisPipeline.generate_topic_and_summary Sample.E_offline
         (lit "Neural networks") 200 Sample.st0)
  = Return (failed_analysis (mk_exn OSError (lit "Connection refused")))
  /\ fst (PDFAnalysisPipeline.extract_key_entities Sample.E_offline
            (lit "Neural networks") Sample.st0)
     = Return (JList [])
  /\ fst (PDFAnalysisPipeline.extract_key_entities Sample.E_garbled
            (lit "Neural networks") Sample.st0)
     = Return (JList []).
Proof.
  pose proof (analyzer_never_raises Sample.E_offline (lit "Neural networks")
                200 Sample.st0) as H.
  pose proof (analyzer_never_raises Sample.E_garbled (lit "Neural networks")
                200 Sample.st0) as G.
  cbv zeta in H, G.
  destruct H as (_ & H1 & _ & _ & H2 & _).
  destruct G as (_ & _ & _ & _ & _ & G3).
  split; [|split].
  - exact (H1 _ eq_refl).
  - exact (H2 (mk_exn OSError (lit "Connection refused")) eq_refl).
  - refine (G3 (lit "[no array here] {nor an object}") eq_refl _).
    right. right. eexists. reflexivity.
Defined.

(** C5, as amended: when no JSON object is found, [_parse_response]
    returns the topic [Uncategorized] and, as summary, the lines of the
    stripped response joined with single spaces and cut at 200
    characters; the summary is at most 200 characters long, and it is
    non-empty exactly when the response holds a character that is not
    whitespace. *)
Theorem parse_response_free_text (E : env) (response : str) :
  no_json_object E response = true ->
  let summary :=
    take 200 (join [ch_space] (split ch_newline (strip response))) in
  PDFAnalysisPipeline._parse_response E response
  = Return [ (lit "topic", lit "Uncategorized"); (lit "summary", summary) ]
  /\ length summary <= 200
  /\ (summary <> [] <-> existsb (fun c => negb (isspace c)) response = true).
Proof.
  intros Hno summary. split; [|split].
  - now apply PipelineFacts.parse_response_fallback.
  - apply take_length.
  - subst summary. rewrite join_split, take_succ_nil, replace_nil, strip_nil.
    rewrite all_space_no_other.
    destruct (existsb _ response); simpl; split; congruence.
Qed.

(** C5, witness: the free text of the parser's own test. *)
Lemma parse_response_free_text_witness :
  PDFAnalysisPipeline._parse_response Sample.E
    (lit "Some random text without JSON")
  = Return [ (lit "topic", lit "Uncategorized");
             (lit "summary", lit "Some random text without JSON") ].
Proof.
  exact (proj1 (parse_response_free_text Sample.E
                  (lit "Some random text without JSON") eq_refl)).
Defined.

(** C5, as the specification words it, fails on a response made of one
    space: no JSON object is found, the lines of the response joined
    are that space, and the summary returned is empty. *)
Lemma parse_response_blank_counterexample :
  ~ fallback_as_specified Sample.E (lit " ").
Proof.
  intros H. destruct (H eq_refl) as (summary & Hparse & Hsum & Hne & _).
  apply Hne. vm_compute in Hparse. congruence.
Qed.

(** ** main.py *)

Module OrchestratorFacts.
Import PDFProcessorOrchestrator.

Lemma extract_metadata_is E p st :
  PDFExtractor.extract_metadata E p st
  = (Return (metadata_of E p), logged st [EvExtractMetadata p]).
Proof.
  unfold PDFExtractor.extract_metadata, metadata_of, try_except, bind, emit,
    raise, lift, ret, logged; simpl.
  destruct (open_pdf E p) as [reader|e]; simpl; [|reflexivity].
  destruct (stat_size E p) as [z|e]; reflexivity.
Qed.

(** [process_pdf] is its look at the earlier report followed, for a
    file that is not skipped, by the guarded attempt. *)
Lemma process_pdf_run E C p st :
  process_pdf E C p st
  = match skip_check C st p with
    | Raise e => (Raise e, st)
    | Return true => (Return (Skipped (name p)), st)
    | Return false =>
        (Return (fst (attempt E C p st)), snd (attempt E C p st))
    end.
Proof.
  unfold process_pdf, skip_check.
  unfold bind at 1. unfold get_state at 1. unfold bind at 1.
  assert (Hrest :
    try_except
      (text <- PDFExtractor.extract_text E (Some (MAX_PAGES_PER_PDF C)) p ;;
       metadata <- PDFExtractor.extract_metadata E p ;;
       analysis <- PDFAnalysisPipeline.generate_topic_and_summary E text 200 ;;
       entities <- PDFAnalysisPipeline.extract_key_entities E text ;;
       ret (Success (name p) metadata
              (mk_analysis (PyDict.get PyStr.eqb analysis (lit "topic"))
                 (PyDict.get PyStr.eqb analysis (lit "summary")) entities)))
      (fun e => ret (Error (name p) (exn_str e))) st
    = (Return (fst (attempt E C p st)), snd (attempt E C p st))).
  { unfold try_except, bind at 1.
    rewrite ExtractorFacts.extract_text_run. unfold attempt.
    destruct (text_of E _ p) as [text|e]; [|reflexivity].
    unfold bind at 1. rewrite extract_metadata_is.
    unfold bind at 1.
    rewrite PipelineFacts.generate_topic_and_summary_run.
    unfold bind at 1. rewrite PipelineFacts.extract_key_entities_run.
    unfold ret. rewrite !logged_logged. reflexivity. }
  destruct (read_json st (report_path C)) as [[j|e]|]; simpl.
  - unfold lift, bind. simpl.
    destruct (skip_these j) as [l|e]; simpl; [|reflexivity].
    unfold ret. destruct (existsb _ l); [reflexivity|exact Hrest].
  - reflexivity.
  - unfold ret. exact Hrest.
Qed.

Lemma attempt_keeps E C p st :
  json_files (snd (attempt E C p st)) = json_files st
  /\ self_results (snd (attempt E C p st)) = self_results st.
Proof.
  unfold attempt. destruct (text_of E _ p); simpl; now split.
Qed.

Lemma attempt_has_topic E C p st : has_topic (fst (attempt E C p st)).
Proof.
  unfold attempt. destruct (text_of E _ p) as [text|e]; [|exact I].
  cbv zeta. cbn [fst has_topic an_topic].
  destruct (PipelineFacts.analysis_of_well_formed E
              (llm_invoke E
                 (trace (logged st [EvExtractText p; EvExtractMetadata p]))
                 (topic_prompt text 200)))
    as (topic & summary & Ht & _).
  rewrite Ht. discriminate.
Qed.

Lemma path_eqb_refl p : path_eqb p p = true.
Proof. unfold path_eqb. now rewrite !eqb_refl. Qed.

Lemma get_set_same {V} (d : list (path * V)) k v :
  PyDict.get path_eqb (PyDict.set path_eqb d k v) k = Some v.
Proof.
  induction d as [|[k' v'] d IH]; simpl.
  - now rewrite path_eqb_refl.
  - destruct (path_eqb k' k) eqn:Hk; simpl; now rewrite Hk.
Qed.

(** The loop that fills [processing_details] appends one item per
    success record. *)
Lemma report_details_fold results : forall acc,
  fold_left
    (fun details kv =>
       match snd kv with
       | Success _ _ an =>
           details ++
             [ JDict [ (lit "file", JStr (name (fst kv)));
                       (lit "topic", json_of_opt_str (an_topic an));
                       (lit "summary", json_of_opt_str (an_summary an)) ] ]
       | _ => details
       end)
    results acc
  = acc ++ map detail_item (successes results).
Proof.
  induction results as [|[p r] results IH]; intros acc; simpl.
  - now rewrite app_nil_r.
  - rewrite IH. destruct r; simpl; try reflexivity.
    now rewrite <- app_assoc.
Qed.

Lemma report_details_successes results :
  report_details results = map detail_item (successes results).
Proof. unfold report_details. now rewrite report_details_fold. Qed.

Lemma successes_in results p an :
  In (p, an) (successes results)
  <-> exists f m, In (p, Success f m an) results.
Proof.
  unfold successes. rewrite in_flat_map. split.
  - intros ([q r] & Hin & Hkv). destruct r; simpl in Hkv; try tauto.
    destruct Hkv as [[= <- <-]|[]]. eauto.
  - intros (f & m & Hin). exists (p, Success f m an). split; [exact Hin|].
    simpl. now left.
Qed.

Lemma omap_file_items items :
  omap (fun item => py_getitem item (lit "file")) (map detail_item items)
  = Return (map (fun kv => JStr (name (fst kv))) items).
Proof.
  induction items as [|kv items IH]; [reflexivity|].
  simpl map. cbn [omap]. rewrite IH. reflexivity.
Qed.

(** Asked for its file names, a report the program wrote gives the
    names of the success records it was built from. *)
Lemma skip_these_build_report batch organized results :
  skip_these (build_report batch organized results)
  = Return (map (fun kv => JStr (name (fst kv))) (successes results)).
Proof.
  unfold skip_these, build_report.
  change (jget_default _ (lit "processing_details") (JList []))
    with (JList (report_details results)).
  simpl py_iter. cbn [obind].
  rewrite report_details_successes. apply omap_file_items.
Qed.

(** A file named in the report the program wrote is to be skipped. *)
Lemma skip_check_reported C st batch organized results kv q :
  read_json st (report_path C)
  = Some (Return (build_report batch organized results)) ->
  In kv (successes results) ->
  name q = name (fst kv) ->
  skip_check C st q = Return true.
Proof.
  intros Hread Hin Hq. unfold skip_check. rewrite Hread. cbn [obind].
  rewrite skip_these_build_report. cbn [obind].
  f_equal. apply existsb_exists.
  exists (JStr (name (fst kv))). split.
  - apply in_map_iff. now exists kv.
  - simpl. rewrite Hq. apply eqb_refl.
Qed.

Lemma write_json_run E file value st :
  write_fails E file = None ->
  write_json E file value st
  = (Return tt,
     mk_state (PyDict.set path_eqb (json_files st) file (Return value))
              (trace st ++ [EvWrite file]) (self_results st)).
Proof.
  intros H. unfold write_json, bind, emit. simpl. now rewrite H.
Qed.

Lemma generate_report_run E C batch organized st :
  write_fails E (report_path C) = None ->
  _generate_report E C batch organized st
  = (Return tt,
     mk_state
       (PyDict.set path_eqb (json_files st) (report_path C)
          (Return (build_report batch organized (self_results st))))
       (trace st ++ [EvWrite (report_path C)]) (self_results st)).
Proof.
  intros H. unfold _generate_report, bind, get_state.
  now rewrite write_json_run.
Qed.

Lemma generate_report_returns E C batch organized st st' :
  _generate_report E C batch organized st = (Return tt, st') ->
  write_fails E (report_path C) = None.
Proof.
  unfold _generate_report, bind, get_state, write_json, emit, raise. simpl.
  destruct (write_fails E (report_path C)); [discriminate|reflexivity].
Qed.

Lemma filter_none {A} (f : A -> bool) l :
  (forall x, In x l -> f x = false) -> filter f l = [].
Proof.
  induction l as [|a l IH]; intros H; [reflexivity|].
  simpl. rewrite (H a (or_introl eq_refl)).
  apply IH. intros x Hx. apply H. now right.
Qed.

(** *** Nothing escapes a document once the earlier report reads *)

Lemma prior_ok_skip_check C st p :
  prior_report_ok C st = true -> exists b, skip_check C st p = Return b.
Proof.
  unfold prior_report_ok, skip_check.
  destruct (read_json st (report_path C)) as [[j|e]|]; simpl;
    try discriminate; eauto.
  destruct (skip_these j); simpl; try discriminate; eauto.
Qed.

Lemma prior_ok_same_files C st st' :
  json_files st' = json_files st ->
  prior_report_ok C st' = prior_report_ok C st.
Proof. unfold prior_report_ok, read_json. now intros ->. Qed.

Lemma process_pdf_ok E C p st :
  prior_report_ok C st = true ->
  exists r st',
    process_pdf E C p st = (Return r, st')
    /\ json_files st' = json_files st
    /\ self_results st' = self_results st
    /\ has_topic r
    /\ (skip_check C st p = Return false -> r = fst (attempt E C p st)).
Proof.
  intros Hok. rewrite process_pdf_run.
  destruct (prior_ok_skip_check C st p Hok) as [b ->].
  destruct b.
  - eexists _, _. split; [reflexivity|]. repeat split. discriminate.
  - destruct (attempt_keeps E C p st) as [Hf Hr].
    eexists _, _. split; [reflexivity|].
    split; [exact Hf|]. split; [exact Hr|].
    split; [apply attempt_has_topic|reflexivity].
Qed.

Lemma set_keeps {V} (P : V -> Prop) (d : list (path * V)) k v :
  Forall (fun kv => P (snd kv)) d -> P v ->
  Forall (fun kv => P (snd kv)) (PyDict.set path_eqb d k v).
Proof.
  intros Hd Hv. induction Hd as [|[k' v'] d Hk Hd IH]; simpl.
  - now constructor.
  - destruct (path_eqb k' k); constructor; auto.
Qed.

Lemma get_set_kept {V} (d : list (path * V)) k v k' :
  PyDict.get path_eqb d k' <> None ->
  PyDict.get path_eqb (PyDict.set path_eqb d k v) k' <> None.
Proof.
  induction d as [|[k0 v0] d IH]; simpl; [congruence|].
  destruct (path_eqb k0 k); simpl; destruct (path_eqb k0 k');
    auto; discriminate.
Qed.

(** The loop of [process_batch] runs to its end and leaves a record
    for every file. *)
Lemma batch_loop_ok E C files : forall a b st,
  prior_report_ok C st = true ->
  exists counts st',
    batch_loop E C files a b st = (Return counts, st')
    /\ json_files st' = json_files st
    /\ (all_have_topic (self_results st) -> all_have_topic (self_results st'))
    /\ forall p,
        In p files \/ PyDict.get path_eqb (self_results st) p <> None ->
        PyDict.get path_eqb (self_results st') p <> None.
Proof.
  induction files as [|f files IH]; intros a b st Hok.
  - eexists _, _. split; [reflexivity|]. repeat split; auto.
    intros p [[]|H]; exact H.
  - cbn [batch_loop]. unfold bind at 1.
    destruct (process_pdf_ok E C f st Hok)
      as (r & st1 & -> & Hf1 & Hr1 & Hr & _).
    unfold bind at 1. unfold set_result at 1.
    set (st2 := mk_state (json_files st1) (trace st1)
                  (PyDict.set path_eqb (self_results st1) f r)).
    assert (Hok2 : prior_report_ok C st2 = true).
    { rewrite (prior_ok_same_files C st st2); [exact Hok|exact Hf1]. }
    assert (Htop2 : all_have_topic (self_results st) ->
                    all_have_topic (self_results st2)).
    { intros Htop. unfold st2, all_have_topic. simpl.
      apply set_keeps; [|exact Hr]. rewrite Hr1. exact Htop. }
    assert (Hnext : forall a' b',
      exists counts st',
        batch_loop E C files a' b' st2 = (Return counts, st')
        /\ json_files st' = json_files st
        /\ (all_have_topic (self_results st) ->
            all_have_topic (self_results st'))
        /\ forall p,
            In p (f :: files)
            \/ PyDict.get path_eqb (self_results st) p <> None ->
            PyDict.get path_eqb (self_results st') p <> None).
    { intros a' b'.
      destruct (IH a' b' st2 Hok2) as (c & st' & Hrun & Hf & Ht & Hin).
      exists c, st'. split; [exact Hrun|]. split; [now rewrite Hf|].
      split; [auto|].
      intros p Hp. apply Hin.
      destruct Hp as [[<-|Hp]|Hp].
      - right. unfold st2. simpl. rewrite get_set_same. discriminate.
      - now left.
      - right. unfold st2. simpl. apply get_set_kept. now rewrite Hr1. }
    destruct (PyStr.eqb (status r) (lit "success")); [apply Hnext|].
    destruct (PyStr.eqb (status r) (lit "error")); apply Hnext.
Qed.

Lemma process_batch_ok E C dir st :
  prior_report_ok C st = true ->
  exists b st',
    process_batch E C dir st = (Return b, st')
    /\ (all_have_topic (self_results st) -> all_have_topic (self_results st'))
    /\ forall p, In p (glob_pdf E dir) ->
                 PyDict.get path_eqb (self_results st') p <> None.
Proof.
  intros Hok. unfold process_batch.
  destruct (glob_pdf E dir) as [|f files] eqn:Hglob.
  - eexists _, _. split; [reflexivity|]. split; [auto|].
    intros p [].
  - destruct (batch_loop_ok E C (f :: files) 0%Z 0%Z st Hok)
      as (c & st' & Hrun & _ & Ht & Hin).
    unfold bind, get_state, ret. rewrite Hrun.
    eexists _, _. split; [reflexivity|]. split; [exact Ht|].
    intros p Hp. apply Hin. now left.
Qed.

Lemma success_mappings_topics results :
  all_have_topic results ->
  Forall (fun kv => an_topic (snd kv) <> None) (success_mappings results).
Proof.
  unfold success_mappings.
  assert (H : forall acc,
    Forall (fun kv : path * analysis => an_topic (snd kv) <> None) acc ->
    all_have_topic results ->
    Forall (fun kv => an_topic (snd kv) <> None)
      (fold_left
         (fun file_mappings kv =>
            match snd kv with
            | Success _ _ an => PyDict.set path_eqb file_mappings (fst kv) an
            | _ => file_mappings
            end)
         results acc)).
  { induction results as [|[p r] results IH]; intros acc Hacc Hall;
      [exact Hacc|].
    inversion Hall as [|? ? Hr Hrest]; subst. simpl in Hr |- *.
    apply IH; [|exact Hrest].
    destruct r; auto.
    apply (set_keeps (fun an => an_topic an <> None)); assumption. }
  intros Hall. apply H; [constructor|exact Hall].
Qed.

Lemma organize_one_ok E base sub organized p an st :
  (forall d, mkdir E d = None) ->
  an_topic an <> None ->
  exists o st',
    FileOrganizer.organize_one E base sub organized p an st = (Return o, st').
Proof.
  intros Hmk Htopic. unfold FileOrganizer.organize_one.
  destruct (an_topic an) as [topic|]; [|congruence].
  unfold bind at 1.
  destruct sub.
  - unfold bind at 1, emit at 1. rewrite Hmk. unfold ret at 1.
    unfold bind, emit.
    destruct (copy2 E p _); unfold ret; eauto.
  - unfold ret at 1. unfold bind, emit.
    destruct (copy2 E p _); unfold ret; eauto.
Qed.

Lemma organize_loop_ok E base sub file_mappings : forall organized st,
  (forall d, mkdir E d = None) ->
  Forall (fun kv => an_topic (snd kv) <> None) file_mappings ->
  exists o st',
    FileOrganizer.organize_loop E base sub file_mappings organized st
    = (Return o, st').
Proof.
  induction file_mappings as [|[p an] rest IH]; intros organized st Hmk Hall.
  - eexists _, _. reflexivity.
  - inversion Hall as [|? ? Han Hrest]; subst.
    cbn [FileOrganizer.organize_loop]. unfold bind.
    destruct (organize_one_ok E base sub organized p an st Hmk Han)
      as (o & st1 & ->).
    apply IH; assumption.
Qed.

Lemma generate_index_ok E file_mappings output_file st :
  exists st',
    FileOrganizer.generate_index E file_mappings output_file st
    = (Return tt, st').
Proof.
  unfold FileOrganizer.generate_index, try_except.
  destruct (write_json E output_file _ st) as [[[]|e] st1]; unfold ret; eauto.
Qed.

Lemma organize_files_ok E C st :
  (forall d, mkdir E d = None) ->
  all_have_topic (self_results st) ->
  exists o st', organize_files E C st = (Return o, st').
Proof.
  intros Hmk Hall. unfold organize_files, bind at 1, get_state.
  pose proof (success_mappings_topics _ Hall) as Htopics.
  destruct (success_mappings (self_results st)) as [|kv rest] eqn:Hmap.
  - eexists _, _. reflexivity.
  - unfold FileOrganizer.organize_by_topic, bind.
    destruct (organize_loop_ok E (PDF_OUTPUT_DIR C) true (kv :: rest) [] st
                Hmk Htopics) as (o & st1 & ->).
    destruct (GENERATE_INDEX C).
    + destruct (generate_index_ok E (kv :: rest) (index_path C) st1)
        as (st2 & ->).
      unfold ret. eauto.
    + unfold ret. eauto.
Qed.

Lemma run_ok E C dir st :
  prior_report_ok C st = true ->
  all_have_topic (self_results st) ->
  (forall d, mkdir E d = None) ->
  write_fails E (report_path C) = None ->
  exists st', run E C dir st = (Return tt, st').
Proof.
  intros Hok Hall Hmk Hw. unfold run, bind.
  destruct (process_batch_ok E C
              (match dir with Some d => d | None => PDF_INPUT_DIR C end)
              st Hok) as (b & st1 & -> & Hall1 & _).
  destruct (organize_files_ok E C st1 Hmk (Hall1 Hall)) as (o & st2 & ->).
  rewrite (generate_report_run E C b o st2 Hw). eauto.
Qed.

Lemma init_ok E C st :
  (forall d, mkdir E d = None) ->
  ollama_init E = None ->
  exists st',
    __init__ E C st = (Return tt, st')
    /\ json_files st' = json_files st
    /\ self_results st' = [].
Proof.
  intros Hmk Hllm. unfold __init__, make_dir, bind, emit, ret.
  rewrite !Hmk, Hllm. simpl. eauto.
Qed.

Lemma main_ok E C st :
  prior_report_ok C st = true ->
  (forall d, mkdir E d = None) ->
  ollama_init E = None ->
  write_fails E (report_path C) = None ->
  exists st', main E C st = (Return tt, st').
Proof.
  intros Hok Hmk Hllm Hw. unfold main, bind.
  destruct (init_ok E C st Hmk Hllm) as (st1 & -> & Hf & Hr).
  apply run_ok; auto.
  - now rewrite (prior_ok_same_files C st st1 Hf).
  - rewrite Hr. constructor.
Qed.

(** From one run to the next: a file analysed with success in a
    completed run is skipped when [process_pdf] meets its name again,
    whatever the world then answers. *)
Lemma next_run_skips E C dir st st' kv E2 q :
  run E C dir st = (Return tt, st') ->
  In kv (successes (self_results st')) ->
  name q = name (fst kv) ->
  process_pdf E2 C q st' = (Return (Skipped (name q)), st').
Proof.
  intros Hrun Hin Hq. unfold run, bind in Hrun.
  destruct (process_batch E C _ st) as [[b|e] st1]; [|discriminate].
  destruct (organize_files E C st1) as [[o|e] st2]; [|discriminate].
  pose proof (generate_report_returns E C b o st2 st' Hrun) as Hw.
  rewrite (generate_report_run E C b o st2 Hw) in Hrun.
  injection Hrun as <-.
  rewrite process_pdf_run.
  erewrite skip_check_reported; [reflexivity| |exact Hin|exact Hq].
  unfold read_json. simpl. apply get_set_same.
Qed.

End OrchestratorFacts.

(** ** Claims about the orchestrator *)

(** C1: when the report persisted by an earlier run lists the name of
    a file in its [processing_details], [process_pdf] returns the
    record with status [skipped] and leaves the state as it was: no
    call to the extractor or the model is logged.  Only the name of
    the path enters the decision. *)
Theorem process_pdf_skips_reported
        (E : env) (C : Config) (p : path) (st : state)
        (batch : batch_results) (organized : FileOrganizer.organized_dict)
        (results : results_dict) (item : json) :
  read_json st (PDFProcessorOrchestrator.report_path C)
  = Some (Return (PDFProcessorOrchestrator.build_report batch organized results)) ->
  In item (PDFProcessorOrchestrator.report_details results) ->
  py_getitem item (lit "file") = Return (JStr (name p)) ->
  PDFProcessorOrchestrator.process_pdf E C p st
  = (Return (Skipped (name p)), st)
  /\ status (Skipped (name p)) = lit "skipped"
  /\ forall q, name q = name p ->
       PDFProcessorOrchestrator.process_pdf E C q st
       = (Return (Skipped (name q)), st).
Proof.
  intros Hread Hin Hfile.
  assert (Hskip : forall q, name q = name p -> skip_check C st q = Return true).
  { intros q Hq.
    rewrite OrchestratorFacts.report_details_successes in Hin.
    apply in_map_iff in Hin as (kv & <- & Hkv).
    simpl in Hfile. injection Hfile as Hname.
    apply (OrchestratorFacts.skip_check_reported C st batch organized results
             kv q Hread Hkv).
    now rewrite Hq, Hname. }
  split; [|split].
  - rewrite OrchestratorFacts.process_pdf_run. now rewrite Hskip.
  - reflexivity.
  - intros q Hq. rewrite OrchestratorFacts.process_pdf_run.
    now rewrite (Hskip q Hq).
Qed.

(** C1, witness: after a run that reported [a.pdf], a file of that
    name in another directory is skipped. *)
Lemma process_pdf_skips_reported_witness :
  PDFProcessorOrchestrator.process_pdf Sample.E Sample.cfg
    (mk_path (lit "elsewhere") (lit "a.pdf")) Sample.st_reported
  = (Return (Skipped (lit "a.pdf")), Sample.st_reported).
Proof.
  refine (proj1 (process_pdf_skips_reported Sample.E Sample.cfg
                   (mk_path (lit "elsewhere") (lit "a.pdf")) Sample.st_reported
                   (mk_batch 1 1 (Some 2%Z) Sample.earlier_results) []
                   Sample.earlier_results
                   (detail_item
                      (Sample.a_pdf,
                       mk_analysis (Some (lit "AI")) (Some (lit "About learning"))
                                   (JList [])))
                   eq_refl _ eq_refl)).
  vm_compute. now left.
Defined.

(** C6: the report [_generate_report] writes holds, as its
    [processing_details], one item per success record of
    [self.results], in order, and nothing else; so does the report a
    completed [run] leaves.  A record enters [successes] exactly when
    its status is [success]. *)
Theorem report_details_are_the_successes
        (E : env) (C : Config) (batch : batch_results)
        (organized : FileOrganizer.organized_dict) (st : state) :
  (write_fails E (PDFProcessorOrchestrator.report_path C) = None ->
   exists st' report,
     PDFProcessorOrchestrator._generate_report E C batch organized st
     = (Return tt, st')
     /\ self_results st' = self_results st
     /\ read_json st' (PDFProcessorOrchestrator.report_path C)
        = Some (Return (JDict report))
     /\ jget report (lit "processing_details")
        = Some (JList (map detail_item (successes (self_results st)))))
  /\ (forall dir st',
        PDFProcessorOrchestrator.run E C dir st = (Return tt, st') ->
        exists report,
          read_json st' (PDFProcessorOrchestrator.report_path C)
          = Some (Return (JDict report))
          /\ jget report (lit "processing_details")
             = Some (JList (map detail_item (successes (self_results st')))))
  /\ (forall results p an,
        In (p, an) (successes results)
        <-> exists r, In (p, r) results
                      /\ status r = lit "success"
                      /\ exists f m, r = Success f m an).
Proof.
  assert (Hgen : forall b o s,
    write_fails E (PDFProcessorOrchestrator.report_path C) = None ->
    exists st' report,
      PDFProcessorOrchestrator._generate_report E C b o s = (Return tt, st')
      /\ self_results st' = self_results s
      /\ read_json st' (PDFProcessorOrchestrator.report_path C)
         = Some (Return (JDict report))
      /\ jget report (lit "processing_details")
         = Some (JList (map detail_item (successes (self_results s))))).
  { intros b o s Hw. rewrite (OrchestratorFacts.generate_report_run E C b o s Hw).
    eexists _, _. split; [reflexivity|]. split; [reflexivity|]. split.
    - unfold read_json. simpl. apply OrchestratorFacts.get_set_same.
    - rewrite <- OrchestratorFacts.report_details_successes. reflexivity. }
  split; [|split].
  - apply Hgen.
  - intros dir st' Hrun. unfold PDFProcessorOrchestrator.run, bind in Hrun.
    destruct (PDFProcessorOrchestrator.process_batch E C _ st)
      as [[b|e] st1]; [|discriminate].
    destruct (PDFProcessorOrchestrator.organize_files E C st1)
      as [[o|e] st2]; [|discriminate].
    pose proof (OrchestratorFacts.generate_report_returns E C b o st2 st' Hrun)
      as Hw.
    destruct (Hgen b o st2 Hw) as (st'' & report & Hg & Hres & Hread & Hdet).
    rewrite Hrun in Hg. injection Hg as <-.
    exists report. now rewrite Hres.
  - intros results p an. rewrite OrchestratorFacts.successes_in. split.
    + intros (f & m & Hin). exists (Success f m an). eauto.
    + intros (r & Hin & _ & f & m & ->). eauto.
Qed.

(** C6, witness: the report written over the sample results lists
    [a.pdf] and not the failed [empty.pdf]. *)
Lemma report_details_are_the_successes_witness :
  exists st' report,
    PDFProcessorOrchestrator._generate_report Sample.E Sample.cfg
      (mk_batch 1 1 (Some 2%Z) Sample.earlier_results) []
      (mk_state [] [] Sample.earlier_results)
    = (Return tt, st')
    /\ self_results st' = Sample.earlier_results
    /\ read_json st' (PDFProcessorOrchestrator.report_path Sample.cfg)
       = Some (Return (JDict report))
    /\ jget report (lit "processing_details")
       = Some (JList
                 [ detail_item
                     (Sample.a_pdf,
                      mk_analysis (Some (lit "AI")) (Some (lit "About learning"))
                                  (JList [])) ]).
Proof.
  exact (proj1 (report_details_are_the_successes Sample.E Sample.cfg
                  (mk_batch 1 1 (Some 2%Z) Sample.earlier_results) []
                  (mk_state [] [] Sample.earlier_results))
               eq_refl).
Defined.

(** C3: with no file ending in [.pdf] in the input directory,
    [process_batch] returns at once, [processed] and [failed] being
    [0], and the dictionary it returns there has no [total] key at
    all, where the path that runs the loop sets [total] to the number
    of files found: the batch result does not hold [total = 0].  An
    orchestrator that holds no result then organizes nothing, and its
    run, like the run of [main], writes a report whose summary is all
    zeros, with no topic and no processing detail; the [total_files]
    there is the default [0] that [_generate_report] reads for the
    missing key. *)
Theorem empty_directory_report
        (E : env) (C : Config) (dir : option path) (st : state) :
  let pdf_dir := match dir with Some d => d | None => PDF_INPUT_DIR C end in
  (forall n, In n (listdir E pdf_dir) -> endswith (lit ".pdf") n = false) ->
  PDFProcessorOrchestrator.process_batch E C pdf_dir st
  = (Return (mk_batch 0 0 None []), st)
  /\ (self_results st = [] ->
      PDFProcessorOrchestrator.organize_files E C st = (Return [], st))
  /\ (self_results st = [] ->
      write_fails E (PDFProcessorOrchestrator.report_path C) = None ->
      exists st',
        PDFProcessorOrchestrator.run E C dir st = (Return tt, st')
        /\ read_json st' (PDFProcessorOrchestrator.report_path C)
           = Some (Return empty_report))
  /\ (dir = None ->
      (forall d, mkdir E d = None) ->
      ollama_init E = None ->
      write_fails E (PDFProcessorOrchestrator.report_path C) = None ->
      exists st',
        PDFProcessorOrchestrator.main E C st = (Return tt, st')
        /\ read_json st' (PDFProcessorOrchestrator.report_path C)
           = Some (Return empty_report)).
Proof.
  intros pdf_dir Hnone.
  assert (Hbatch : forall s,
             PDFProcessorOrchestrator.process_batch E C pdf_dir s
             = (Return (mk_batch 0 0 None []), s)).
  { intros s. unfold PDFProcessorOrchestrator.process_batch,
      PDFProcessorOrchestrator.glob_pdf.
    now rewrite (OrchestratorFacts.filter_none _ _ Hnone). }
  assert (Horg : forall s,
             self_results s = [] ->
             PDFProcessorOrchestrator.organize_files E C s = (Return [], s)).
  { intros s Hfresh.
    unfold PDFProcessorOrchestrator.organize_files, bind, get_state.
    now rewrite Hfresh. }
  assert (Hrun : forall s,
             self_results s = [] ->
             write_fails E (PDFProcessorOrchestrator.report_path C) = None ->
             exists st',
               PDFProcessorOrchestrator.run E C dir s = (Return tt, st')
               /\ read_json st' (PDFProcessorOrchestrator.report_path C)
                  = Some (Return empty_report)).
  { intros s Hfresh Hw.
    unfold PDFProcessorOrchestrator.run. fold pdf_dir.
    unfold bind. rewrite Hbatch, (Horg s Hfresh).
    rewrite (OrchestratorFacts.generate_report_run E C _ _ s Hw).
    eexists. split; [reflexivity|].
    unfold read_json. simpl json_files.
    rewrite OrchestratorFacts.get_set_same, Hfresh. reflexivity. }
  split; [apply Hbatch|]. split; [apply Horg|]. split; [apply Hrun|].
  intros Hdir Hmk Hllm Hw. subst dir.
  unfold PDFProcessorOrchestrator.main, bind.
  destruct (OrchestratorFacts.init_ok E C st Hmk Hllm)
    as (st1 & -> & _ & Hfresh).
  exact (Hrun st1 Hfresh Hw).
Qed.

(** C3, witness: the sample world's directory [inbox] holds two
    files, neither ending in [.pdf]; the batch result has no [total],
    and [main] leaves the all-zero report. *)
Lemma empty_directory_report_witness :
  PDFProcessorOrchestrator.process_batch Sample.E Sample.no_pdf_cfg
    (PDF_INPUT_DIR Sample.no_pdf_cfg) Sample.st0
  = (Return (mk_batch 0 0 None []), Sample.st0)
  /\ exists st',
      PDFProcessorOrchestrator.main Sample.E Sample.no_pdf_cfg Sample.st0
      = (Return tt, st')
      /\ read_json st' (PDFProcessorOrchestrator.report_path Sample.no_pdf_cfg)
         = Some (Return empty_report).
Proof.
  assert (Hnone : forall n,
             In n (listdir Sample.E (PDF_INPUT_DIR Sample.no_pdf_cfg)) ->
             endswith (lit ".pdf") n = false).
  { intros n [<-|[<-|[]]]; reflexivity. }
  split.
  - exact (proj1 (empty_directory_report Sample.E Sample.no_pdf_cfg None
                    Sample.st0 Hnone)).
  - exact (proj2 (proj2 (proj2 (empty_directory_report Sample.E
                                  Sample.no_pdf_cfg None Sample.st0 Hnone)))
                 eq_refl (fun _ => eq_refl) eq_refl eq_refl).
Defined.

(** C2, as amended: once the report of the run before is missing or
    reads well, every document yields a record, and an exception of
    the extractor becomes the error record that carries its message;
    [process_batch] runs to its end and leaves a record for every file
    it found; and the whole run completes when, besides, directories
    can be created, the backend connects and the report can be
    written.  A failure to read the earlier report is not among the
    failures the per-document handler catches. *)
Theorem failures_stay_in_their_document (E : env) (C : Config) (st : state) :
  prior_report_ok C st = true ->
  (forall p,
      exists r st',
        PDFProcessorOrchestrator.process_pdf E C p st = (Return r, st')
        /\ forall e,
            skip_check C st p = Return false ->
            text_of E (Some (MAX_PAGES_PER_PDF C)) p = Raise e ->
            r = Error (name p) (exn_str e))
  /\ (forall dir,
        exists b st',
          PDFProcessorOrchestrator.process_batch E C dir st = (Return b, st')
          /\ forall p,
              In p (PDFProcessorOrchestrator.glob_pdf E dir) ->
              PyDict.get path_eqb (self_results st') p <> None)
  /\ ((forall d, mkdir E d = None) ->
      ollama_init E = None ->
      write_fails E (PDFProcessorOrchestrator.report_path C) = None ->
      exists st', PDFProcessorOrchestrator.main E C st = (Return tt, st')).
Proof.
  intros Hok. split; [|split].
  - intros p.
    destruct (OrchestratorFacts.process_pdf_ok E C p st Hok)
      as (r & st' & Hrun & _ & _ & _ & Hr).
    exists r, st'. split; [exact Hrun|].
    intros e Hskip Htext. rewrite (Hr Hskip).
    unfold attempt. now rewrite Htext.
  - intros dir.
    destruct (OrchestratorFacts.process_batch_ok E C dir st Hok)
      as (b & st' & Hrun & _ & Hin).
    exists b, st'. split; [exact Hrun|exact Hin].
  - intros Hmk Hllm Hw.
    now apply OrchestratorFacts.main_ok.
Qed.

(** C2, witness: in the sample world, with no earlier report, the file
    without pages becomes an error record and the run completes. *)
Lemma failures_stay_in_their_document_witness :
  (exists r st',
      PDFProcessorOrchestrator.process_pdf Sample.E Sample.cfg Sample.empty_pdf
        Sample.st0 = (Return r, st')
      /\ forall e,
          skip_check Sample.cfg Sample.st0 Sample.empty_pdf = Return false ->
          text_of Sample.E (Some (MAX_PAGES_PER_PDF Sample.cfg)) Sample.empty_pdf
          = Raise e ->
          r = Error (lit "empty.pdf") (exn_str e))
  /\ exists st',
      PDFProcessorOrchestrator.main Sample.E Sample.cfg Sample.st0
      = (Return tt, st').
Proof.
  pose proof (failures_stay_in_their_document Sample.E Sample.cfg Sample.st0
                eq_refl) as (Hdoc & _ & Hrun).
  split.
  - exact (Hdoc Sample.empty_pdf).
  - exact (Hrun (fun _ => eq_refl) eq_refl eq_refl).
Defined.

(** C2, as the specification words it, fails when the earlier report
    cannot be decoded: the backend connects and the report can be
    written, yet [process_pdf] raises for the first file and the run
    is aborted. *)
Lemma unreadable_report_aborts_counterexample :
  ~ failures_contained_as_specified Sample.E Sample.cfg
      Sample.st_truncated_report.
Proof.
  intros [_ Hrun].
  destruct (Hrun eq_refl eq_refl) as [st' Hmain].
  vm_compute in Hmain. discriminate.
Qed.

(* ================================================================= *)
(** * Further properties of the code *)

(** ** file_organizer.py: folder names *)

Lemma in_firstn {A} (x : A) n l : In x (firstn n l) -> In x l.
Proof.
  intros H. rewrite <- (firstn_skipn n l). apply in_or_app. now left.
Qed.

Module FolderNameFacts.
Import FileOrganizer.

Lemma clean_char_safe c :
  clean_char c <> ch_space /\ ~ In (clean_char c) invalid_chars.
Proof.
  destruct c as [b0 b1 b2 b3 b4 b5 b6 b7].
  destruct b0, b1, b2, b3, b4, b5, b6, b7;
    (split; [discriminate|]);
    (intros H; repeat (destruct H as [H|H]; [discriminate H|]); exact H).
Qed.

Lemma clean_char_fixes c :
  c <> ch_space -> ~ In c invalid_chars -> clean_char c = c.
Proof.
  destruct c as [b0 b1 b2 b3 b4 b5 b6 b7].
  destruct b0, b1, b2, b3, b4, b5, b6, b7; intros Hs Hi;
    try reflexivity; exfalso;
    first [ now apply Hs | apply Hi; vm_compute; tauto ].
Qed.

End FolderNameFacts.

(** X1: a sanitized folder name is never empty and never longer than
    50 characters; for a non-empty name it has [min(50, len(name))]
    characters, and the empty name becomes the seven characters of
    [unknown]. *)
Theorem sanitize_length (name : str) :
  1 <= length (FileOrganizer._sanitize_folder_name name) <= 50
  /\ (name <> [] ->
      length (FileOrganizer._sanitize_folder_name name)
      = Nat.min 50 (length name))
  /\ (name = [] -> FileOrganizer._sanitize_folder_name name = lit "unknown").
Proof.
  rewrite SanitizeFacts.sanitize_unfold.
  destruct name as [|c name].
  - split; [vm_compute; lia|]. split; [congruence|reflexivity].
  - cbn [truthy]. unfold take. rewrite length_firstn, length_map.
    cbn [length]. split; [lia|]. split; [reflexivity|discriminate].
Qed.

(** X2: no character of a sanitized folder name is a space or one of
    the characters [invalid_chars] lists. *)
Theorem sanitize_output_clean (name : str) (c : ascii) :
  In c (FileOrganizer._sanitize_folder_name name) ->
  c <> ch_space /\ ~ In c FileOrganizer.invalid_chars.
Proof.
  rewrite SanitizeFacts.sanitize_unfold.
  destruct (truthy name).
  - unfold take. intros H. apply in_firstn in H.
    apply in_map_iff in H as (x & <- & _).
    apply FolderNameFacts.clean_char_safe.
  - intros H. vm_compute in H.
    repeat (destruct H as [<-|H];
            [split; [discriminate|];
             intros Hi; vm_compute in Hi;
             repeat (destruct Hi as [Hi|Hi]; [discriminate Hi|]); exact Hi|]).
    destruct H.
Qed.

(** X2, witness: the slash and the space of a topic are gone. *)
Lemma sanitize_output_clean_witness :
  "_"%char <> ch_space /\ ~ In "_"%char FileOrganizer.invalid_chars.
Proof.
  apply (sanitize_output_clean (lit "Tech/Science and more") "_"%char).
  vm_compute. tauto.
Defined.

(** X3: a name that is not empty, has at most 50 characters and holds
    neither a space nor an invalid character is returned unchanged. *)
Theorem sanitize_keeps_clean_names (name : str) :
  name <> [] ->
  length name <= 50 ->
  (forall c, In c name -> c <> ch_space /\ ~ In c FileOrganizer.invalid_chars) ->
  FileOrganizer._sanitize_folder_name name = name.
Proof.
  intros Hne Hlen Hclean. rewrite SanitizeFacts.sanitize_unfold.
  destruct name as [|c name]; [congruence|]. cbn [truthy].
  unfold take. rewrite firstn_all2 by (rewrite length_map; exact Hlen).
  rewrite <- (map_id (c :: name)) at 2. apply map_ext_in.
  intros x Hx. destruct (Hclean x Hx) as [Hs Hi].
  now apply FolderNameFacts.clean_char_fixes.
Qed.

(** X3, witness: a topic that needs no change. *)
Lemma sanitize_keeps_clean_names_witness :
  FileOrganizer._sanitize_folder_name (lit "AI") = lit "AI".
Proof.
  apply sanitize_keeps_clean_names.
  - discriminate.
  - vm_compute. lia.
  - intros c [<-|[<-|[]]]; (split; [discriminate|]);
      intros Hi; vm_compute in Hi;
      repeat (destruct Hi as [Hi|Hi]; [discriminate Hi|]); exact Hi.
Defined.

(** ** pdf_extractor.py *)

Module MoreExtractorFacts.
Import PDFExtractor.

Lemma extract_loop_app pages l1 : forall l2 acc,
  extract_loop pages (l1 ++ l2) acc
  = (acc' <~ extract_loop pages l1 acc ;; extract_loop pages l2 acc').
Proof.
  induction l1 as [|i l1 IH]; intros l2 acc; [reflexivity|].
  cbn [app extract_loop].
  destruct (nth_error pages i) as [pg|]; [|reflexivity].
  destruct (page_extract_text pg) as [text|e]; [|reflexivity].
  cbn [obind]. apply IH.
Qed.

(** The loop keeps only non-blank texts. *)
Lemma extract_loop_nonblank pages indices : forall acc tc,
  Forall (fun t => nonblank t = true) acc ->
  extract_loop pages indices acc = Return tc ->
  Forall (fun t => nonblank t = true) tc.
Proof.
  induction indices as [|i rest IH]; intros acc tc Hacc; cbn [extract_loop].
  - intros H. apply Return_inj in H. now subst.
  - destruct (nth_error pages i) as [pg|]; [|discriminate].
    destruct (page_extract_text pg) as [text|e]; [|discriminate].
    cbn [obind]. apply IH.
    destruct (truthy (strip text)) eqn:Ht; [|exact Hacc].
    apply Forall_app. split; [exact Hacc|]. now constructor.
Qed.

(** The loop looks at the pages only through the indices it visits. *)
Lemma extract_loop_ext pages1 pages2 indices : forall acc,
  (forall i, In i indices -> nth_error pages1 i = nth_error pages2 i) ->
  extract_loop pages1 indices acc = extract_loop pages2 indices acc.
Proof.
  induction indices as [|i rest IH]; intros acc H; [reflexivity|].
  cbn [extract_loop]. rewrite (H i (or_introl eq_refl)).
  destruct (nth_error pages2 i) as [pg|]; [|reflexivity].
  destruct (page_extract_text pg) as [text|e]; [|reflexivity].
  cbn [obind]. apply IH. intros j Hj. apply H. now right.
Qed.

Lemma nonblank_has_text t :
  nonblank t = true -> existsb (fun c => negb (isspace c)) t = true.
Proof.
  unfold nonblank. intros H.
  destruct (existsb (fun c => negb (isspace c)) t) eqn:Hex; [reflexivity|].
  assert (Hall : forallb isspace t = true)
    by (rewrite all_space_no_other, Hex; reflexivity).
  apply strip_nil in Hall. rewrite Hall in H. discriminate.
Qed.

End MoreExtractorFacts.

(** X4: the text [extract_text] returns is never blank: it holds at
    least one character that is not whitespace. *)
Theorem extract_text_never_blank
        (E : env) (max_pages : option Z) (p : path) (st : state) (text : str) :
  fst (PDFExtractor.extract_text E max_pages p st) = Return text ->
  existsb (fun c => negb (isspace c)) text = true.
Proof.
  rewrite ExtractorFacts.extract_text_run. cbn [fst]. unfold text_of.
  destruct (negb (path_exists E p)); [discriminate|].
  destruct (open_pdf E p) as [reader|e]; [|discriminate]. cbn [obind].
  destruct (Z.of_nat (length (reader_pages reader)) =? 0)%Z; [discriminate|].
  destruct (PDFExtractor.extract_loop _ _ _) as [tc|e] eqn:Hloop;
    [|discriminate].
  cbn [obind].
  apply MoreExtractorFacts.extract_loop_nonblank in Hloop; [|constructor].
  destruct tc as [|t ts]; [discriminate|].
  intros H. apply Return_inj in H. subst text.
  inversion Hloop as [|? ? Ht _]; subst.
  apply MoreExtractorFacts.nonblank_has_text in Ht.
  destruct ts as [|t' ts]; [exact Ht|].
  cbn [join]. rewrite existsb_app, Ht. reflexivity.
Qed.

(** X4, witness: the text of the sample file. *)
Lemma extract_text_never_blank_witness :
  existsb (fun c => negb (isspace c))
          (lit "Neural networks" ++ [ch_newline] ++ lit "and learning") = true.
Proof.
  exact (extract_text_never_blank Sample.E (Some 10%Z) Sample.a_pdf Sample.st0
           _ eq_refl).
Defined.

(** X5: when a page within the limit cannot be read, and the pages
    before it can, [extract_text] raises that page's exception;
    [process_pdf], unless it skips the file, turns it into the error
    record that carries the exception's message. *)
Theorem extract_text_page_error
        (E : env) (C : Config) (max_pages : option Z) (p : path) (st : state)
        (reader : PdfReader) (before : list page) (texts : list str)
        (pg : page) (after : list page) (e : exn) :
  path_exists E p = true ->
  open_pdf E p = Return reader ->
  reader_pages reader = before ++ pg :: after ->
  map page_extract_text before = map Return texts ->
  page_extract_text pg = Raise e ->
  (Z.of_nat (length before)
   < PDFExtractor.pages_to_extract max_pages
       (Z.of_nat (length (reader_pages reader))))%Z ->
  fst (PDFExtractor.extract_text E max_pages p st) = Raise e
  /\ (max_pages = Some (MAX_PAGES_PER_PDF C) ->
      skip_check C st p = Return false ->
      fst (PDFProcessorOrchestrator.process_pdf E C p st)
      = Return (Error (name p) (exn_str e))).
Proof.
  intros Hex Hopen Hpages Hbefore Hpg Hlim.
  assert (Htext : text_of E max_pages p = Raise e).
  { unfold text_of. rewrite Hex, Hopen. cbn [negb obind].
    set (n := Z.of_nat (length (reader_pages reader))) in *.
    destruct (Z.eqb_spec n 0) as [Hn|Hn].
    { exfalso. pose proof (ExtractorFacts.pages_to_extract_le max_pages n).
      lia. }
    set (k := Z.to_nat (PDFExtractor.pages_to_extract max_pages n)).
    assert (Hlen : length texts = length before).
    { apply (f_equal (@length _)) in Hbefore. now rewrite !length_map in Hbefore. }
    assert (Hk : k = length texts + S (k - S (length texts))) by lia.
    rewrite Hk, seq_app, MoreExtractorFacts.extract_loop_app.
    rewrite (ExtractorFacts.extract_loop_texts (reader_pages reader) texts 0 []).
    - cbn [obind app]. cbn [seq PDFExtractor.extract_loop].
      rewrite Hpages, Hlen. cbn [Nat.add].
      rewrite nth_error_app2 by lia. rewrite Nat.sub_diag. cbn [nth_error].
      rewrite Hpg. reflexivity.
    - cbn [skipn]. rewrite Hpages, Hlen.
      rewrite firstn_app, Nat.sub_diag, firstn_all. cbn [firstn].
      now rewrite app_nil_r. }
  split.
  - rewrite ExtractorFacts.extract_text_run. exact Htext.
  - intros -> Hskip. rewrite OrchestratorFacts.process_pdf_run, Hskip.
    cbn [fst]. unfold attempt. now rewrite Htext.
Qed.

(** X5, witness: the third page of the sample file cannot be read. *)
Lemma extract_text_page_error_witness :
  fst (PDFExtractor.extract_text MoreSamples.E_broken (Some 50%Z)
         MoreSamples.doc Sample.st0)
  = Raise (mk_exn ValueError (lit "bad stream"))
  /\ fst (PDFProcessorOrchestrator.process_pdf MoreSamples.E_broken Sample.cfg
            MoreSamples.doc Sample.st0)
     = Return (Error (lit "a.pdf") (lit "bad stream")).
Proof.
  pose proof (extract_text_page_error MoreSamples.E_broken Sample.cfg
                (Some 50%Z) MoreSamples.doc Sample.st0 MoreSamples.broken_reader
                [ mk_page (Return (lit "Intro")); mk_page (Return (lit "Body")) ]
                [lit "Intro"; lit "Body"]
                (mk_page (Raise (mk_exn ValueError (lit "bad stream")))) []
                (mk_exn ValueError (lit "bad stream"))
                eq_refl eq_refl eq_refl eq_refl eq_refl eq_refl) as [H1 H2].
  split; [exact H1|exact (H2 eq_refl eq_refl)].
Defined.

(** X6: pages beyond the limit never matter, not even one that cannot
    be read: two readers with the same number of pages that agree on
    the pages within the limit give the same result. *)
Theorem extract_text_ignores_later_pages
        (E1 E2 : env) (max_pages : option Z) (p : path) (st1 st2 : state)
        (r1 r2 : PdfReader) :
  path_exists E1 p = true -> path_exists E2 p = true ->
  open_pdf E1 p = Return r1 -> open_pdf E2 p = Return r2 ->
  length (reader_pages r1) = length (reader_pages r2) ->
  (let k := Z.to_nat (PDFExtractor.pages_to_extract max_pages
                        (Z.of_nat (length (reader_pages r1)))) in
   firstn k (reader_pages r1) = firstn k (reader_pages r2)) ->
  fst (PDFExtractor.extract_text E1 max_pages p st1)
  = fst (PDFExtractor.extract_text E2 max_pages p st2).
Proof.
  intros Hex1 Hex2 Ho1 Ho2 Hlen Hfirst.
  rewrite !ExtractorFacts.extract_text_run. cbn [fst]. unfold text_of.
  rewrite Hex1, Hex2, Ho1, Ho2. cbn [negb obind]. rewrite <- Hlen.
  destruct (Z.of_nat (length (reader_pages r1)) =? 0)%Z; [reflexivity|].
  cbv zeta in Hfirst.
  set (k := Z.to_nat _) in *.
  rewrite (MoreExtractorFacts.extract_loop_ext
             (reader_pages r1) (reader_pages r2) (seq 0 k) []); [reflexivity|].
  intros i Hi. apply in_seq in Hi.
  assert (Hlt : Nat.ltb i k = true) by (apply Nat.ltb_lt; lia).
  pose proof (nth_error_firstn k (reader_pages r1) i) as H1.
  pose proof (nth_error_firstn k (reader_pages r2) i) as H2.
  rewrite Hlt in H1, H2. rewrite <- H1, <- H2, Hfirst. reflexivity.
Qed.

(** X6, witness: with a limit of two pages the unreadable third page
    of one sample file is of no effect. *)
Lemma extract_text_ignores_later_pages_witness :
  fst (PDFExtractor.extract_text MoreSamples.E_broken (Some 2%Z)
         MoreSamples.doc Sample.st0)
  = fst (PDFExtractor.extract_text MoreSamples.E_sound (Some 2%Z)
           MoreSamples.doc Sample.st0).
Proof.
  exact (extract_text_ignores_later_pages MoreSamples.E_broken
           MoreSamples.E_sound (Some 2%Z) MoreSamples.doc Sample.st0 Sample.st0
           MoreSamples.broken_reader MoreSamples.sound_reader
           eq_refl eq_refl eq_refl eq_refl eq_refl eq_refl).
Defined.

(** X7: [extract_metadata] never raises.  When the reader or the size
    query raises it returns the dictionary with the single entry
    [error], holding the exception's message; otherwise it reports the
    number of pages and the size, with [Unknown] for a title or an
    author the document does not give. *)
Theorem extract_metadata_never_raises (E : env) (p : path) (st : state) :
  exists m,
    PDFExtractor.extract_metadata E p st
    = (Return m, logged st [EvExtractMetadata p])
    /\ (forall e, open_pdf E p = Raise e -> m = MetaError (exn_str e))
    /\ (forall reader e,
          open_pdf E p = Return reader -> stat_size E p = Raise e ->
          m = MetaError (exn_str e))
    /\ (forall reader size,
          open_pdf E p = Return reader -> stat_size E p = Return size ->
          exists title author,
            m = MetaInfo title author
                  (Z.of_nat (length (reader_pages reader))) size
            /\ (reader_metadata reader = None ->
                title = lit "Unknown" /\ author = lit "Unknown")).
Proof.
  exists (metadata_of E p).
  split; [apply OrchestratorFacts.extract_metadata_is|].
  unfold metadata_of. split; [|split].
  - now intros e ->.
  - now intros reader e -> ->.
  - intros reader size -> ->. eexists _, _. split; [reflexivity|].
    now intros ->.
Qed.

(** X7, witness: a file that cannot be opened, and one without
    document information. *)
Lemma extract_metadata_never_raises_witness :
  fst (PDFExtractor.extract_metadata MoreSamples.E_locked MoreSamples.doc
         Sample.st0)
  = Return (MetaError (lit "Permission denied"))
  /\ fst (PDFExtractor.extract_metadata MoreSamples.E_sound MoreSamples.doc
            Sample.st0)
     = Return (MetaInfo (lit "Unknown") (lit "Unknown") 3 2048).
Proof.
  destruct (extract_metadata_never_raises MoreSamples.E_locked MoreSamples.doc
              Sample.st0) as (m1 & Hrun1 & Herr & _).
  destruct (extract_metadata_never_raises MoreSamples.E_sound MoreSamples.doc
              Sample.st0) as (m2 & Hrun2 & _ & _ & Hinfo).
  split.
  - rewrite Hrun1. cbn [fst]. f_equal.
    exact (Herr (mk_exn OSError (lit "Permission denied")) eq_refl).
  - rewrite Hrun2. cbn [fst]. f_equal.
    destruct (Hinfo MoreSamples.sound_reader 2048%Z eq_refl eq_refl)
      as (title & author & -> & Hdef).
    destruct (Hdef eq_refl) as [-> ->]. reflexivity.
Defined.

(** ** llm_pipeline.py *)

Module MorePipelineFacts.

Lemma firstn_min_length {A} (n : nat) (l : list A) :
  firstn (Nat.min (length l) n) l = firstn n l.
Proof.
  destruct (Nat.le_gt_cases (length l) n) as [H|H].
  - rewrite Nat.min_l by exact H. now rewrite firstn_all, firstn_all2.
  - rewrite Nat.min_r by lia. reflexivity.
Qed.

(** The text put into a prompt is [text[0:8000]]. *)
Lemma truncated_text text :
  slice 0 (Z.min (len text) 8000) text = slice 0 8000 text.
Proof.
  unfold slice, len. cbn [skipn Z.to_nat]. rewrite !Z.sub_0_r.
  replace (Z.to_nat (Z.min (Z.of_nat (length text)) 8000))
    with (Nat.min (length text) (Z.to_nat 8000)) by lia.
  apply firstn_min_length.
Qed.

Lemma not_in_replace_target old new s :
  old <> new -> ~ In old (replace old new s).
Proof.
  intros Hne Hin. unfold replace in Hin.
  apply in_map_iff in Hin as (c & Hc & _).
  destruct (Ascii.eqb c old) eqn:Heq.
  - now apply Hne.
  - apply Ascii.eqb_neq in Heq. now apply Heq.
Qed.

End MorePipelineFacts.

(** X8: only the first 8000 characters of a text reach the model: on
    two texts that agree on [text[0:8000]] the two analyzer calls send
    the same prompts and so behave alike. *)
Theorem analyzer_reads_first_8000
        (E : env) (text1 text2 : str) (max_length : Z) (st : state) :
  slice 0 8000 text1 = slice 0 8000 text2 ->
  PDFAnalysisPipeline.generate_topic_and_summary E text1 max_length st
  = PDFAnalysisPipeline.generate_topic_and_summary E text2 max_length st
  /\ PDFAnalysisPipeline.extract_key_entities E text1 st
     = PDFAnalysisPipeline.extract_key_entities E text2 st.
Proof.
  intros H.
  rewrite !PipelineFacts.generate_topic_and_summary_run,
          !PipelineFacts.extract_key_entities_run.
  unfold topic_prompt, array_prompt.
  rewrite !MorePipelineFacts.truncated_text, H. split; reflexivity.
Qed.

(** X8, witness: two texts of 8001 characters that differ in the
    last. *)
Lemma analyzer_reads_first_8000_witness :
  PDFAnalysisPipeline.extract_key_entities Sample.E
    (repeat "a"%char (Z.to_nat 8000) ++ lit "x") Sample.st0
  = PDFAnalysisPipeline.extract_key_entities Sample.E
      (repeat "a"%char (Z.to_nat 8000) ++ lit "y") Sample.st0.
Proof.
  refine (proj2 (analyzer_reads_first_8000 Sample.E
                   (repeat "a"%char (Z.to_nat 8000) ++ lit "x")
                   (repeat "a"%char (Z.to_nat 8000) ++ lit "y")
                   200 Sample.st0 _)).
  vm_compute. reflexivity.
Defined.

(** X9: the free-text summary is a single line: no newline is left in
    it. *)
Theorem free_text_summary_one_line (E : env) (response : str) :
  no_json_object E response = true ->
  exists summary,
    PDFAnalysisPipeline._parse_response E response
    = Return [ (lit "topic", lit "Uncategorized"); (lit "summary", summary) ]
    /\ ~ In ch_newline summary.
Proof.
  intros Hno. eexists. split.
  - now apply PipelineFacts.parse_response_fallback.
  - rewrite join_split. intros Hin. apply in_firstn in Hin.
    revert Hin. apply MorePipelineFacts.not_in_replace_target. discriminate.
Qed.

(** X9, witness: an answer of two lines. *)
Lemma free_text_summary_one_line_witness :
  exists summary,
    PDFAnalysisPipeline._parse_response Sample.E
      (lit "Topic: AI" ++ [ch_newline] ++ lit "About learning")
    = Return [ (lit "topic", lit "Uncategorized"); (lit "summary", summary) ]
    /\ ~ In ch_newline summary.
Proof.
  exact (free_text_summary_one_line Sample.E
           (lit "Topic: AI" ++ [ch_newline] ++ lit "About learning") eq_refl).
Defined.

(** ** main.py: one document *)

(** X10: [process_pdf] leaves the JSON files and [self.results] as
    they are, whether it returns or raises; it only adds calls to the
    log; and the record it returns names the file by the last
    component of its path. *)
Theorem process_pdf_keeps_state (E : env) (C : Config) (p : path) (st : state) :
  json_files (snd (PDFProcessorOrchestrator.process_pdf E C p st))
  = json_files st
  /\ self_results (snd (PDFProcessorOrchestrator.process_pdf E C p st))
     = self_results st
  /\ (exists calls,
        trace (snd (PDFProcessorOrchestrator.process_pdf E C p st))
        = trace st ++ calls)
  /\ forall r,
      fst (PDFProcessorOrchestrator.process_pdf E C p st) = Return r ->
      result_file r = name p.
Proof.
  rewrite OrchestratorFacts.process_pdf_run.
  destruct (skip_check C st p) as [[|]|e]; cbn [fst snd].
  - repeat split.
    + exists []. now rewrite app_nil_r.
    + intros r H. apply Return_inj in H. now subst.
  - destruct (OrchestratorFacts.attempt_keeps E C p st) as [Hf Hr].
    split; [exact Hf|]. split; [exact Hr|]. split.
    + unfold attempt. destruct (text_of E _ p); cbn [snd]; unfold logged;
        cbn [trace]; rewrite <- ?app_assoc; eauto.
    + intros r H. apply Return_inj in H. subst r.
      unfold attempt. destruct (text_of E _ p); reflexivity.
  - repeat split.
    + exists []. now rewrite app_nil_r.
    + discriminate.
Qed.

(** X11: for a file that is not skipped, a failed extraction is the
    only call logged, so neither the metadata nor the model is asked;
    a successful extraction is followed by the metadata call and the
    two model calls, in this order, and the record is a success record
    with a topic and a summary whatever those three calls do. *)
Theorem process_pdf_calls (E : env) (C : Config) (p : path) (st : state) :
  skip_check C st p = Return false ->
  (forall e,
      fst (PDFExtractor.extract_text E (Some (MAX_PAGES_PER_PDF C)) p st)
      = Raise e ->
      PDFProcessorOrchestrator.process_pdf E C p st
      = (Return (Error (name p) (exn_str e)), logged st [EvExtractText p]))
  /\ (forall text,
        fst (PDFExtractor.extract_text E (Some (MAX_PAGES_PER_PDF C)) p st)
        = Return text ->
        exists m an,
          PDFProcessorOrchestrator.process_pdf E C p st
          = (Return (Success (name p) m an),
             logged st [ EvExtractText p; EvExtractMetadata p;
                         EvInvoke (topic_prompt text 200);
                         EvInvoke (array_prompt text) ])
          /\ an_topic an <> None /\ an_summary an <> None).
Proof.
  intros Hskip. rewrite OrchestratorFacts.process_pdf_run, Hskip.
  rewrite ExtractorFacts.extract_text_run. cbn [fst].
  split.
  - intros e He. unfold attempt. now rewrite He.
  - intros text Ht. unfold attempt. rewrite Ht. cbv zeta. cbn [fst snd].
    eexists _, _. split; [rewrite !logged_logged; reflexivity|].
    cbn [an_topic an_summary].
    destruct (PipelineFacts.analysis_of_well_formed E
                (llm_invoke E
                   (trace (logged st [EvExtractText p; EvExtractMetadata p]))
                   (topic_prompt text 200)))
      as (topic & summary & -> & -> & _).
    split; discriminate.
Qed.

(** X11, witness: the sample file without pages and the readable
    sample file. *)
Lemma process_pdf_calls_witness :
  trace (snd (PDFProcessorOrchestrator.process_pdf Sample.E Sample.cfg
                Sample.empty_pdf Sample.st0))
  = [EvExtractText Sample.empty_pdf]
  /\ exists m an,
      PDFProcessorOrchestrator.process_pdf Sample.E Sample.cfg Sample.a_pdf
        Sample.st0
      = (Return (Success (lit "a.pdf") m an),
         logged Sample.st0
           [ EvExtractText Sample.a_pdf; EvExtractMetadata Sample.a_pdf;
             EvInvoke (topic_prompt
                         (lit "Neural networks" ++ [ch_newline]
                          ++ lit "and learning") 200);
             EvInvoke (array_prompt
                         (lit "Neural networks" ++ [ch_newline]
                          ++ lit "and learning")) ])
      /\ an_topic an <> None /\ an_summary an <> None.
Proof.
  split.
  - rewrite (proj1 (process_pdf_calls Sample.E Sample.cfg Sample.empty_pdf
                      Sample.st0 eq_refl)
               (mk_exn ValueError (lit "PDF has no pages: pdfs/empty.pdf"))
               eq_refl).
    reflexivity.
  - exact (proj2 (process_pdf_calls Sample.E Sample.cfg Sample.a_pdf
                    Sample.st0 eq_refl) _ eq_refl).
Defined.

(** X12: a readable document met while the model cannot be reached is
    still recorded as a success, under the topic [Uncategorized], with
    the summary [Failed to process] and no entity. *)
Theorem unreachable_model_still_success
        (E : env) (C : Config) (p : path) (st : state) (text : str) :
  skip_check C st p = Return false ->
  fst (PDFExtractor.extract_text E (Some (MAX_PAGES_PER_PDF C)) p st)
  = Return text ->
  (forall history prompt, exists e, llm_invoke E history prompt = Raise e) ->
  exists m,
    fst (PDFProcessorOrchestrator.process_pdf E C p st)
    = Return (Success (name p) m
                (mk_analysis (Some (lit "Uncategorized"))
                             (Some (lit "Failed to process"))
                             (JList []))).
Proof.
  intros Hskip Htext Hllm.
  rewrite OrchestratorFacts.process_pdf_run, Hskip.
  rewrite ExtractorFacts.extract_text_run in Htext. cbn [fst] in Htext.
  cbn [fst]. unfold attempt. rewrite Htext. cbv zeta. cbn [fst].
  destruct (Hllm (trace (logged st [EvExtractText p; EvExtractMetadata p]))
              (topic_prompt text 200)) as [e1 ->].
  destruct (Hllm (trace (logged
                           (logged st [EvExtractText p; EvExtractMetadata p])
                           [EvInvoke (topic_prompt text 200)]))
              (array_prompt text)) as [e2 ->].
  eexists. reflexivity.
Qed.

(** X12, witness: the readable sample file with the backend out of
    reach. *)
Lemma unreachable_model_still_success_witness :
  exists m,
    fst (PDFProcessorOrchestrator.process_pdf Sample.E_offline Sample.cfg
           Sample.a_pdf Sample.st0)
    = Return (Success (lit "a.pdf") m
                (mk_analysis (Some (lit "Uncategorized"))
                             (Some (lit "Failed to process"))
                             (JList []))).
Proof.
  refine (unreachable_model_still_success Sample.E_offline Sample.cfg
            Sample.a_pdf Sample.st0 _ eq_refl eq_refl _).
  intros history prompt. eexists. reflexivity.
Defined.

(** X13: from one run to the next: every file a completed run
    recorded as a success is skipped when [process_pdf] meets a path
    of that name again, in whatever directory and whatever the file
    then holds; nothing is called for it. *)
Theorem success_is_skipped_by_next_run
        (E E2 : env) (C : Config) (dir : option path) (st st' : state)
        (p q : path) (f : str) (m : metadata) (an : analysis) :
  PDFProcessorOrchestrator.run E C dir st = (Return tt, st') ->
  In (p, Success f m an) (self_results st') ->
  name q = name p ->
  PDFProcessorOrchestrator.process_pdf E2 C q st'
  = (Return (Skipped (name q)), st').
Proof.
  intros Hrun Hin Hq.
  apply (OrchestratorFacts.next_run_skips E C dir st st' (p, an) E2 q Hrun).
  - apply OrchestratorFacts.successes_in. eauto.
  - exact Hq.
Qed.

(** X13, witness: after the sample run, [a.pdf] is skipped even with
    the backend out of reach. *)
Lemma success_is_skipped_by_next_run_witness :
  PDFProcessorOrchestrator.process_pdf Sample.E_offline Sample.cfg
    (mk_path (lit "elsewhere") (lit "a.pdf"))
    (snd (PDFProcessorOrchestrator.run Sample.E Sample.cfg None Sample.st0))
  = (Return (Skipped (lit "a.pdf")),
     snd (PDFProcessorOrchestrator.run Sample.E Sample.cfg None Sample.st0)).
Proof.
  set (st' := snd (PDFProcessorOrchestrator.run Sample.E Sample.cfg None
                     Sample.st0)).
  refine (success_is_skipped_by_next_run Sample.E Sample.E_offline Sample.cfg
            None Sample.st0 st' Sample.a_pdf
            (mk_path (lit "elsewhere") (lit "a.pdf")) (lit "a.pdf")
            (metadata_of Sample.E Sample.a_pdf)
            (mk_analysis (Some (lit "AI"))
                         (Some (lit "About artificial intelligence"))
                         (JList [JStr (lit "Entity1"); JStr (lit "Entity2")]))
            _ _ eq_refl).
  - vm_compute. reflexivity.
  - vm_compute. left. reflexivity.
Defined.

(** X14: when the connection to the model cannot be set up, [main]
    raises that exception right after creating the two directories: no
    file is read, nothing is written and [self.results] is
    untouched. *)
Theorem startup_failure_aborts (E : env) (C : Config) (st : state) (e : exn) :
  mkdir E (PDF_INPUT_DIR C) = None ->
  mkdir E (PDF_OUTPUT_DIR C) = None ->
  ollama_init E = Some e ->
  PDFProcessorOrchestrator.main E C st
  = (Raise e, logged st [EvMkdir (PDF_INPUT_DIR C); EvMkdir (PDF_OUTPUT_DIR C)]).
Proof.
  intros Hin Hout Hllm.
  unfold PDFProcessorOrchestrator.main, PDFProcessorOrchestrator.__init__,
    PDFProcessorOrchestrator.make_dir, bind, emit, raise, ret.
  cbn [fst snd json_files trace self_results].
  rewrite Hin. cbn [json_files trace self_results]. rewrite Hout, Hllm.
  unfold logged. cbn. now rewrite <- app_assoc.
Qed.

(** X14, witness: the sample world without a backend. *)
Lemma startup_failure_aborts_witness :
  PDFProcessorOrchestrator.main MoreSamples.E_no_backend Sample.cfg Sample.st0
  = (Raise (mk_exn OSError (lit "Connection refused")),
     logged Sample.st0 [EvMkdir Sample.input_dir; EvMkdir Sample.output_dir]).
Proof.
  exact (startup_failure_aborts MoreSamples.E_no_backend Sample.cfg Sample.st0
           (mk_exn OSError (lit "Connection refused")) eq_refl eq_refl eq_refl).
Defined.

(** ** main.py: the batch *)

Module BatchFacts.
Import PDFProcessorOrchestrator.

Lemma path_eqb_eq p q : path_eqb p q = true <-> p = q.
Proof.
  split; [|intros ->; apply OrchestratorFacts.path_eqb_refl].
  unfold path_eqb. rewrite andb_true_iff, !eqb_eq.
  destruct p, q; simpl. now intros [-> ->].
Qed.

(** Storing under a key the dictionary does not hold appends. *)
Lemma set_absent {V} (d : list (path * V)) k v :
  ~ In k (map fst d) -> PyDict.set path_eqb d k v = d ++ [(k, v)].
Proof.
  induction d as [|[k' v'] d IH]; intros Hk; [reflexivity|].
  simpl in *. destruct (path_eqb k' k) eqn:He.
  - apply path_eqb_eq in He. tauto.
  - rewrite IH by tauto. reflexivity.
Qed.

Lemma status_tests r :
  PyStr.eqb (status r) (lit "success")
  = match r with Success _ _ _ => true | _ => false end
  /\ PyStr.eqb (status r) (lit "error")
     = match r with Error _ _ => true | _ => false end.
Proof. destruct r; split; reflexivity. Qed.

Lemma count_status_app s a b :
  count_status s (a ++ b) = (count_status s a + count_status s b)%Z.
Proof. unfold count_status. rewrite filter_app, length_app. lia. Qed.

Lemma count_status_single s f r :
  count_status s [(f, r)] = if PyStr.eqb (status r) s then 1%Z else 0%Z.
Proof.
  unfold count_status. cbn [filter snd].
  now destruct (PyStr.eqb (status r) s).
Qed.

Ltac eval_literal_tests :=
  repeat match goal with
         | |- context [PyStr.eqb (lit ?a) (lit ?b)] =>
             let v := eval vm_compute in (PyStr.eqb (lit a) (lit b)) in
             change (PyStr.eqb (lit a) (lit b)) with v
         end.

(** Every record has one of the three statuses. *)
Lemma count_status_total results :
  (count_status (lit "success") results + count_status (lit "error") results
   + count_status (lit "skipped") results
   = Z.of_nat (length results))%Z.
Proof.
  induction results as [|[p r] results IH]; [reflexivity|].
  change ((p, r) :: results) with ([(p, r)] ++ results).
  rewrite !count_status_app, !count_status_single, length_app.
  destruct r; cbn [status]; eval_literal_tests; cbn [length]; lia.
Qed.

(** A name that ends in [.pdf] is a component of its own. *)
Lemma joinpath_pdf dir n :
  endswith (lit ".pdf") n = true -> joinpath dir n = mk_path (path_str dir) n.
Proof.
  intros H. unfold joinpath.
  destruct n as [|c [|c2 r]].
  - discriminate H.
  - unfold endswith in H. apply andb_true_iff in H as [_ H].
    vm_compute in H. discriminate H.
  - change (lit ".") with ["."%char]. cbn [PyStr.eqb orb].
    now rewrite andb_false_r.
Qed.

Lemma joinpath_nodup dir names :
  Forall (fun n => endswith (lit ".pdf") n = true) names ->
  NoDup names -> NoDup (map (joinpath dir) names).
Proof.
  intros Hpdf Hnd. induction Hnd as [|n names Hn Hnd IH]; simpl;
    inversion Hpdf as [|? ? Hn_pdf Hrest]; subst; constructor; [|now apply IH].
  intros Hin. apply in_map_iff in Hin as (m & Heq & Hm).
  rewrite (joinpath_pdf dir n Hn_pdf) in Heq.
  rewrite (joinpath_pdf dir m) in Heq
    by (rewrite Forall_forall in Hrest; now apply Hrest).
  injection Heq as ->. contradiction.
Qed.

Lemma glob_pdf_nodup E dir :
  NoDup (listdir E dir) -> NoDup (glob_pdf E dir).
Proof.
  intros H. unfold glob_pdf. apply joinpath_nodup.
  - apply Forall_forall. intros n Hn. now apply filter_In in Hn.
  - now apply NoDup_filter.
Qed.

(** The loop of [process_batch] appends one record per file, in
    order, and counts the success and the error records among them. *)
Lemma batch_loop_counts E C files : forall a b st,
  prior_report_ok C st = true ->
  NoDup (map fst (self_results st) ++ files) ->
  exists a' b' st' added,
    batch_loop E C files a b st = (Return (a', b'), st')
    /\ map fst added = files
    /\ self_results st' = self_results st ++ added
    /\ a' = (a + count_status (lit "success") added)%Z
    /\ b' = (b + count_status (lit "error") added)%Z.
Proof.
  induction files as [|f files IH]; intros a b st Hok Hnd.
  - exists a, b, st, []. cbn [batch_loop]. unfold ret.
    rewrite app_nil_r. repeat split; unfold count_status; simpl; lia.
  - cbn [batch_loop]. unfold bind at 1.
    destruct (OrchestratorFacts.process_pdf_ok E C f st Hok)
      as (r & st1 & -> & Hf1 & Hr1 & _ & _).
    unfold bind at 1. unfold set_result at 1.
    assert (Habs : ~ In f (map fst (self_results st))).
    { intros Hin. apply NoDup_remove_2 in Hnd. apply Hnd.
      apply in_or_app. now left. }
    rewrite Hr1, (set_absent _ f r Habs).
    set (st2 := mk_state (json_files st1) (trace st1)
                  (self_results st ++ [(f, r)])).
    assert (Hok2 : prior_report_ok C st2 = true).
    { rewrite (OrchestratorFacts.prior_ok_same_files C st st2);
        [exact Hok|exact Hf1]. }
    assert (Hnd2 : NoDup (map fst (self_results st2) ++ files)).
    { unfold st2. cbn [self_results]. rewrite map_app, <- app_assoc. exact Hnd. }
    destruct (status_tests r) as [Hs He]. rewrite Hs, He.
    assert (Hnext : forall a2 b2,
      a2 = (a + count_status (lit "success") [(f, r)])%Z ->
      b2 = (b + count_status (lit "error") [(f, r)])%Z ->
      exists a' b' st' added,
        batch_loop E C files a2 b2 st2 = (Return (a', b'), st')
        /\ map fst added = f :: files
        /\ self_results st' = self_results st ++ added
        /\ a' = (a + count_status (lit "success") added)%Z
        /\ b' = (b + count_status (lit "error") added)%Z).
    { intros a2 b2 Ha Hb.
      destruct (IH a2 b2 st2 Hok2 Hnd2)
        as (a' & b' & st' & added & Hrun & Hkeys & Hres & Ha' & Hb').
      exists a', b', st', ((f, r) :: added).
      split; [exact Hrun|]. split; [simpl; now rewrite Hkeys|].
      split; [rewrite Hres; unfold st2; cbn [self_results];
              now rewrite <- app_assoc|].
      change ((f, r) :: added) with ([(f, r)] ++ added).
      rewrite !count_status_app. split; lia. }
    destruct r; apply Hnext; rewrite count_status_single;
      cbn [status] in Hs, He |- *; rewrite ?Hs, ?He; lia.
Qed.

(** The look at the earlier report depends on the JSON files only. *)
Lemma skip_check_same_files C st st' q :
  json_files st' = json_files st -> skip_check C st' q = skip_check C st q.
Proof. unfold skip_check, read_json. now intros ->. Qed.

(** When every file is listed in the earlier report the loop records
    them as skipped and calls nothing. *)
Lemma batch_loop_all_skipped E C files : forall a b st,
  (forall f, In f files -> skip_check C st f = Return true) ->
  exists st',
    batch_loop E C files a b st = (Return (a, b), st')
    /\ json_files st' = json_files st
    /\ trace st' = trace st
    /\ (Forall (fun kv => is_skipped (snd kv)) (self_results st) ->
        Forall (fun kv => is_skipped (snd kv)) (self_results st')).
Proof.
  induction files as [|f files IH]; intros a b st Hall.
  - exists st. cbn [batch_loop]. unfold ret. auto.
  - cbn [batch_loop]. unfold bind at 1.
    rewrite OrchestratorFacts.process_pdf_run, (Hall f (or_introl eq_refl)).
    unfold bind at 1. unfold set_result at 1.
    change (PyStr.eqb (status (Skipped (name f))) (lit "success")) with false.
    change (PyStr.eqb (status (Skipped (name f))) (lit "error")) with false.
    cbv iota.
    set (st2 := mk_state (json_files st) (trace st)
                  (PyDict.set path_eqb (self_results st) f (Skipped (name f)))).
    destruct (IH a b st2) as (st' & Hrun & Hf & Ht & Hsk).
    { intros g Hg. rewrite (skip_check_same_files C st st2 g eq_refl).
      apply Hall. now right. }
    exists st'. split; [exact Hrun|]. split; [exact Hf|]. split; [exact Ht|].
    intros Hsk0. apply Hsk. unfold st2. cbn [self_results].
    apply (OrchestratorFacts.set_keeps is_skipped); [exact Hsk0|exact I].
Qed.

Lemma skipped_no_successes results :
  Forall (fun kv => is_skipped (snd kv)) results ->
  successes results = [] /\ success_mappings results = [].
Proof.
  unfold success_mappings.
  induction 1 as [|[p r] results Hr _ [IH1 IH2]]; [now split|].
  destruct r; simpl in Hr; try contradiction.
  simpl. now split.
Qed.

(** What [process_batch] counts. *)
Lemma batch_counts (E : env) (C : Config) (dir : path) (st : state) :
  prior_report_ok C st = true ->
  self_results st = [] ->
  NoDup (listdir E dir) ->
  exists b st',
    PDFProcessorOrchestrator.process_batch E C dir st = (Return b, st')
    /\ map fst (self_results st') = PDFProcessorOrchestrator.glob_pdf E dir
    /\ b_processed b = count_status (lit "success") (self_results st')
    /\ b_failed b = count_status (lit "error") (self_results st')
    /\ (b_processed b + b_failed b + count_status (lit "skipped") (self_results st')
        = Z.of_nat (length (PDFProcessorOrchestrator.glob_pdf E dir)))%Z
    /\ (PDFProcessorOrchestrator.glob_pdf E dir <> [] ->
        b_total b
        = Some (Z.of_nat (length (PDFProcessorOrchestrator.glob_pdf E dir)))).
Proof.
  intros Hok Hfresh Hnd.
  pose proof (glob_pdf_nodup E dir Hnd) as Hglob.
  unfold PDFProcessorOrchestrator.process_batch.
  destruct (PDFProcessorOrchestrator.glob_pdf E dir) as [|f files] eqn:Hfiles.
  - exists (mk_batch 0 0 None []), st. unfold ret. rewrite Hfresh.
    repeat split. congruence.
  - destruct (batch_loop_counts E C (f :: files) 0%Z 0%Z st Hok)
      as (a' & b' & st' & added & Hrun & Hkeys & Hres & Ha & Hb).
    { now rewrite Hfresh. }
    unfold bind, get_state, ret. rewrite Hrun.
    eexists _, st'. split; [reflexivity|].
    rewrite Hfresh in Hres. cbn [app] in Hres. rewrite Hres.
    cbn [b_processed b_failed b_total fst snd].
    split; [exact Hkeys|]. split; [lia|]. split; [lia|]. split; [|reflexivity].
    rewrite <- Hkeys, length_map, <- (count_status_total added).
    lia.
Qed.

End BatchFacts.

(** X15: for a fresh orchestrator, an earlier report that is missing or
    reads well, and a directory whose names are distinct,
    [process_batch] leaves in [self.results] one record per globbed
    file, in glob order; [processed] is the number of success records
    and [failed] the number of error records among them, the skipped
    ones being counted in neither; [total] is the number of files
    when there is one. *)
Theorem process_batch_counts (E : env) (C : Config) (dir : path) (st : state) :
  prior_report_ok C st = true ->
  self_results st = [] ->
  NoDup (listdir E dir) ->
  exists b st',
    PDFProcessorOrchestrator.process_batch E C dir st = (Return b, st')
    /\ map fst (self_results st') = PDFProcessorOrchestrator.glob_pdf E dir
    /\ b_processed b = count_status (lit "success") (self_results st')
    /\ b_failed b = count_status (lit "error") (self_results st')
    /\ (b_processed b + b_failed b + count_status (lit "skipped") (self_results st')
        = Z.of_nat (length (PDFProcessorOrchestrator.glob_pdf E dir)))%Z
    /\ (PDFProcessorOrchestrator.glob_pdf E dir <> [] ->
        b_total b
        = Some (Z.of_nat (length (PDFProcessorOrchestrator.glob_pdf E dir)))).
Proof. exact (BatchFacts.batch_counts E C dir st). Qed.

(** X15, witness: the sample directory, one success and one error. *)
Lemma process_batch_counts_witness :
  exists b st',
    PDFProcessorOrchestrator.process_batch Sample.E Sample.cfg Sample.input_dir
      Sample.st0 = (Return b, st')
    /\ map fst (self_results st') = [Sample.a_pdf; Sample.empty_pdf]
    /\ b_processed b = 1%Z /\ b_failed b = 1%Z /\ b_total b = Some 2%Z.
Proof.
  destruct (process_batch_counts Sample.E Sample.cfg Sample.input_dir Sample.st0
              eq_refl eq_refl)
    as (b & st' & Hrun & Hkeys & Hp & Hf & _ & Ht).
  { vm_compute. repeat constructor; simpl; intuition discriminate. }
  exists b, st'. split; [exact Hrun|]. split; [exact Hkeys|].
  assert (Hst : st' = snd (PDFProcessorOrchestrator.process_batch Sample.E
                             Sample.cfg Sample.input_dir Sample.st0))
    by (now rewrite Hrun).
  split; [rewrite Hp, Hst; reflexivity|].
  split; [rewrite Hf, Hst; reflexivity|].
  rewrite Ht; [reflexivity|discriminate].
Defined.

(** X16: a run in which every globbed file is listed in the earlier
    report calls neither the extractor nor the model and copies
    nothing; it overwrites the report with one that counts no
    processed and no failed file and has an empty
    [processing_details].  After it, [process_pdf] skips no file: the
    run that follows analyses every document again. *)
Theorem all_skipped_run_forgets
        (E : env) (C : Config) (dir : option path) (st : state)
        (batch : batch_results) (organized : FileOrganizer.organized_dict)
        (results : results_dict) :
  let pdf_dir := match dir with Some d => d | None => PDF_INPUT_DIR C end in
  self_results st = [] ->
  read_json st (PDFProcessorOrchestrator.report_path C)
  = Some (Return (PDFProcessorOrchestrator.build_report batch organized results)) ->
  (forall f, In f (PDFProcessorOrchestrator.glob_pdf E pdf_dir) ->
             exists kv, In kv (successes results) /\ name f = name (fst kv)) ->
  write_fails E (PDFProcessorOrchestrator.report_path C) = None ->
  exists st' b,
    PDFProcessorOrchestrator.run E C dir st = (Return tt, st')
    /\ trace st' = trace st ++ [EvWrite (PDFProcessorOrchestrator.report_path C)]
    /\ read_json st' (PDFProcessorOrchestrator.report_path C)
       = Some (Return (PDFProcessorOrchestrator.build_report b []
                         (self_results st')))
    /\ b_processed b = 0%Z /\ b_failed b = 0%Z
    /\ PDFProcessorOrchestrator.report_details (self_results st') = []
    /\ forall q, skip_check C st' q = Return false.
Proof.
  intros pdf_dir Hfresh Hread Hlisted Hw.
  assert (Hbatch : exists b st1,
    PDFProcessorOrchestrator.process_batch E C pdf_dir st = (Return b, st1)
    /\ json_files st1 = json_files st /\ trace st1 = trace st
    /\ Forall (fun kv => is_skipped (snd kv)) (self_results st1)
    /\ b_processed b = 0%Z /\ b_failed b = 0%Z).
  { unfold PDFProcessorOrchestrator.process_batch.
    destruct (PDFProcessorOrchestrator.glob_pdf E pdf_dir) as [|f files] eqn:Hg.
    - exists (mk_batch 0 0 None []), st. unfold ret. rewrite Hfresh.
      repeat split. constructor.
    - destruct (BatchFacts.batch_loop_all_skipped E C (f :: files) 0%Z 0%Z st)
        as (st1 & Hrun & Hf & Ht & Hsk).
      { intros g Hgin. destruct (Hlisted g Hgin) as (kv & Hkv & Hname).
        exact (OrchestratorFacts.skip_check_reported C st batch organized
                 results kv g Hread Hkv Hname). }
      unfold bind, get_state, ret. rewrite Hrun.
      eexists _, st1. split; [reflexivity|]. repeat split; auto.
      apply Hsk. rewrite Hfresh. constructor. }
  destruct Hbatch as (b & st1 & Hrun & Hf & Ht & Hsk & Hp & Hfl).
  destruct (BatchFacts.skipped_no_successes _ Hsk) as [Hsucc Hmap].
  unfold PDFProcessorOrchestrator.run. fold pdf_dir. unfold bind at 1.
  rewrite Hrun. unfold bind at 1.
  unfold PDFProcessorOrchestrator.organize_files at 1, bind at 1, get_state at 1.
  rewrite Hmap. unfold ret at 1.
  rewrite (OrchestratorFacts.generate_report_run E C b [] st1 Hw).
  eexists _, b. split; [reflexivity|].
  cbn [trace self_results]. split; [now rewrite Ht|].
  assert (Hrd : read_json
                  (mk_state
                     (PyDict.set path_eqb (json_files st1)
                        (PDFProcessorOrchestrator.report_path C)
                        (Return (PDFProcessorOrchestrator.build_report b []
                                   (self_results st1))))
                     (trace st1 ++ [EvWrite (PDFProcessorOrchestrator.report_path C)])
                     (self_results st1))
                  (PDFProcessorOrchestrator.report_path C)
                = Some (Return (PDFProcessorOrchestrator.build_report b []
                                  (self_results st1)))).
  { unfold read_json. cbn [json_files]. apply OrchestratorFacts.get_set_same. }
  split; [exact Hrd|]. split; [exact Hp|]. split; [exact Hfl|].
  split; [now rewrite OrchestratorFacts.report_details_successes, Hsucc|].
  intros q. unfold skip_check. rewrite Hrd. cbn [obind].
  rewrite OrchestratorFacts.skip_these_build_report, Hsucc. reflexivity.
Qed.

(** X16, witness: both sample files were reported by the run before. *)
Lemma all_skipped_run_forgets_witness :
  exists st' b,
    PDFProcessorOrchestrator.run Sample.E Sample.cfg None
      MoreSamples.st_both_reported = (Return tt, st')
    /\ trace st' = [EvWrite (PDFProcessorOrchestrator.report_path Sample.cfg)]
    /\ read_json st' (PDFProcessorOrchestrator.report_path Sample.cfg)
       = Some (Return (PDFProcessorOrchestrator.build_report b []
                         (self_results st')))
    /\ b_processed b = 0%Z /\ b_failed b = 0%Z
    /\ PDFProcessorOrchestrator.report_details (self_results st') = []
    /\ forall q, skip_check Sample.cfg st' q = Return false.
Proof.
  refine (all_skipped_run_forgets Sample.E Sample.cfg None
            MoreSamples.st_both_reported
            (mk_batch 2 0 (Some 2%Z) MoreSamples.both_reported) []
            MoreSamples.both_reported eq_refl eq_refl _ eq_refl).
  intros f Hf. vm_compute in Hf. destruct Hf as [<-|[<-|[]]].
  - exists (Sample.a_pdf,
            mk_analysis (Some (lit "AI")) (Some (lit "About learning"))
                        (JList [])).
    split; [vm_compute; now left|reflexivity].
  - exists (Sample.empty_pdf,
            mk_analysis (Some (lit "Misc")) (Some (lit "Nothing")) (JList [])).
    split; [vm_compute; right; now left|reflexivity].
Defined.

(** ** file_organizer.py: copying and indexing *)

Module OrganizerFacts.
Import FileOrganizer.

(** Lookup after a store, for string keys. *)
Lemma sget_set {V} (d : list (str * V)) k v k' :
  PyDict.get PyStr.eqb (PyDict.set PyStr.eqb d k v) k'
  = if PyStr.eqb k k' then Some v else PyDict.get PyStr.eqb d k'.
Proof.
  induction d as [|[k0 v0] d IH]; [reflexivity|].
  cbn [PyDict.set]. destruct (PyStr.eqb k0 k) eqn:H0.
  - apply eqb_eq in H0. subst k0. cbn [PyDict.get].
    now destruct (PyStr.eqb k k').
  - cbn [PyDict.get]. rewrite IH.
    destruct (PyStr.eqb k0 k') eqn:H1; [|reflexivity].
    destruct (PyStr.eqb k k') eqn:H2; [|reflexivity].
    apply eqb_eq in H1, H2. subst. rewrite eqb_refl in H0. discriminate.
Qed.

Lemma appended_lookup organized topic dest topic' :
  PyDict.get_default PyStr.eqb (appended organized topic dest) topic' []
  = if PyStr.eqb topic topic'
    then PyDict.get_default PyStr.eqb organized topic [] ++ [dest]
    else PyDict.get_default PyStr.eqb organized topic' [].
Proof.
  unfold appended, PyDict.get_default, PyDict.contains. cbv zeta.
  rewrite sget_set.
  destruct (PyDict.get PyStr.eqb organized topic) eqn:Hg;
    rewrite ?Hg, ?sget_set, ?eqb_refl;
    destruct (PyStr.eqb topic topic'); rewrite ?Hg; reflexivity.
Qed.

(** One round of the loop, once the folder of the topic can be made. *)
Lemma organize_one_run E base sub organized p an topic st :
  an_topic an = Some topic ->
  (sub = true ->
   mkdir E (joinpath base (_sanitize_folder_name topic)) = None) ->
  exists st',
    organize_one E base sub organized p an st
    = (Return (match copy2 E p (destination base sub topic p) with
               | Some _ => organized
               | None => appended organized topic (destination base sub topic p)
               end), st')
    /\ json_files st' = json_files st
    /\ self_results st' = self_results st.
Proof.
  intros Ht Hmk. unfold organize_one, destination. rewrite Ht.
  destruct sub.
  - unfold bind, emit, ret. cbn [fst snd json_files trace self_results].
    rewrite (Hmk eq_refl). cbn [json_files trace self_results].
    destruct (copy2 E p _); eexists; split; try reflexivity; now split.
  - unfold bind, emit, ret. cbn [fst snd json_files trace self_results].
    destruct (copy2 E p _); eexists; split; try reflexivity; now split.
Qed.

Lemma organize_loop_destinations E base sub mappings : forall organized st,
  Forall (fun kv => exists topic,
              an_topic (snd kv) = Some topic
              /\ (sub = true ->
                  mkdir E (joinpath base (_sanitize_folder_name topic)) = None))
         mappings ->
  exists result st',
    organize_loop E base sub mappings organized st = (Return result, st')
    /\ json_files st' = json_files st
    /\ self_results st' = self_results st
    /\ forall topic dest,
        In dest (PyDict.get_default PyStr.eqb result topic [])
        <-> In dest (PyDict.get_default PyStr.eqb organized topic [])
            \/ exists p an,
                In (p, an) mappings /\ an_topic an = Some topic
                /\ dest = destination base sub topic p
                /\ copy2 E p dest = None.
Proof.
  induction mappings as [|[p an] rest IH]; intros organized st Hall.
  - exists organized, st. cbn [organize_loop]. unfold ret.
    repeat split; auto.
    intros [H|(q & a & [] & _)]; exact H.
  - inversion Hall as [|? ? (topic & Ht & Hmk) Hrest]; subst.
    cbn [snd] in Ht.
    cbn [organize_loop]. unfold bind.
    destruct (organize_one_run E base sub organized p an topic st Ht Hmk)
      as (st1 & -> & Hf1 & Hr1).
    destruct (IH (match copy2 E p (destination base sub topic p) with
                  | Some _ => organized
                  | None => appended organized topic
                              (destination base sub topic p)
                  end) st1 Hrest)
      as (result & st' & Hrun & Hf & Hr & Hin).
    exists result, st'. split; [exact Hrun|].
    split; [congruence|]. split; [congruence|].
    intros topic' dest. rewrite Hin. clear Hin Hrun.
    destruct (copy2 E p (destination base sub topic p)) eqn:Hcopy.
    + split.
      * intros [H|(q & a & Hq & Hrest')]; [now left|].
        right. exists q, a. split; [now right|exact Hrest'].
      * intros [H|(q & a & [Heq|Hq] & Ha & Hd & Hc)]; [now left| |].
        -- injection Heq as <- <-. rewrite Ht in Ha. injection Ha as <-.
           rewrite Hd in Hc. congruence.
        -- right. eauto 6.
    + rewrite appended_lookup. destruct (PyStr.eqb topic topic') eqn:Heq.
      * apply eqb_eq in Heq. subst topic'. rewrite in_app_iff. split.
        -- intros [[H|[<-|[]]]|(q & a & Hq & Hrest')].
           ++ now left.
           ++ right. exists p, an. split; [now left|]. auto.
           ++ right. exists q, a. split; [now right|exact Hrest'].
        -- intros [H|(q & a & [Heq'|Hq] & Ha & Hd & Hc)].
           ++ left. now left.
           ++ injection Heq' as <- <-. left. right. left. now rewrite Hd.
           ++ right. eauto 6.
      * split.
        -- intros [H|(q & a & Hq & Hrest')]; [now left|].
           right. exists q, a. split; [now right|exact Hrest'].
        -- intros [H|(q & a & [Heq'|Hq] & Ha & Hd & Hc)]; [now left| |].
           ++ injection Heq' as <- <-. rewrite Ht in Ha. injection Ha as <-.
              rewrite eqb_refl in Heq. discriminate.
           ++ right. eauto 6.
Qed.

(** Lookup of another key after a store, for path keys. *)
Lemma pget_set_other {V} (d : list (path * V)) k v k' :
  k' <> k ->
  PyDict.get path_eqb (PyDict.set path_eqb d k v) k' = PyDict.get path_eqb d k'.
Proof.
  intros Hne. induction d as [|[k0 v0] d IH]; cbn [PyDict.set PyDict.get].
  - destruct (path_eqb k k') eqn:He; [|reflexivity].
    apply BatchFacts.path_eqb_eq in He. congruence.
  - destruct (path_eqb k0 k) eqn:H0; cbn [PyDict.get].
    + apply BatchFacts.path_eqb_eq in H0. subst k0.
      destruct (path_eqb k k') eqn:He; [|reflexivity].
      apply BatchFacts.path_eqb_eq in He. congruence.
    + now rewrite IH.
Qed.

Lemma organize_loop_app E base sub l1 : forall l2 organized st,
  organize_loop E base sub (l1 ++ l2) organized st
  = match organize_loop E base sub l1 organized st with
    | (Return o, st1) => organize_loop E base sub l2 o st1
    | (Raise e, st1) => (Raise e, st1)
    end.
Proof.
  induction l1 as [|[p an] l1 IH]; intros l2 organized st; [reflexivity|].
  cbn [app organize_loop]. unfold bind.
  destruct (organize_one E base sub organized p an st) as [[o|e] st1];
    [apply IH|reflexivity].
Qed.

(** The index built by the loop of [generate_index]. *)
Lemma index_fold_other mappings : forall index key,
  ~ In key (map (fun kv => name (fst kv)) mappings) ->
  jget (fold_left
          (fun index kv =>
             let '(pdf_path, analysis_data) := kv in
             jset index (name pdf_path)
               (JDict [ (lit "topic", json_of_opt_str (an_topic analysis_data));
                        (lit "summary", json_of_opt_str (an_summary analysis_data));
                        (lit "entities", an_entities analysis_data) ]))
          mappings index) key
  = jget index key.
Proof.
  induction mappings as [|[p an] rest IH]; intros index key Hk; [reflexivity|].
  cbn [fold_left]. rewrite IH.
  - unfold jget, jset. rewrite sget_set.
    destruct (PyStr.eqb (name p) key) eqn:He; [|reflexivity].
    apply eqb_eq in He. exfalso. apply Hk. now left.
  - intros Hin. apply Hk. now right.
Qed.

Lemma index_fold_lookup mappings : forall index p an,
  NoDup (map (fun kv => name (fst kv)) mappings) ->
  In (p, an) mappings ->
  jget (fold_left
          (fun index kv =>
             let '(pdf_path, analysis_data) := kv in
             jset index (name pdf_path)
               (JDict [ (lit "topic", json_of_opt_str (an_topic analysis_data));
                        (lit "summary", json_of_opt_str (an_summary analysis_data));
                        (lit "entities", an_entities analysis_data) ]))
          mappings index) (name p)
  = Some (index_entry an).
Proof.
  induction mappings as [|[q a] rest IH]; intros index p an Hnd Hin;
    [destruct Hin|].
  inversion Hnd as [|? ? Hq Hrest]; subst. cbn [fst] in Hq.
  cbn [fold_left]. destruct Hin as [Heq|Hin].
  - injection Heq as -> ->. rewrite index_fold_other by exact Hq.
    unfold jget, jset. rewrite sget_set, eqb_refl. reflexivity.
  - now apply IH.
Qed.

End OrganizerFacts.

(** X17: once the folders can be made, [organize_by_topic] returns
    whatever copies fail, touching neither the JSON files nor
    [self.results]; under each topic, as the model gave it, it lists
    exactly the destinations of the files of that topic whose copy
    succeeded: the folder of the sanitized topic and the file's own
    name, or in flat mode the file's name after the sanitized topic
    and an underscore.  A file whose copy fails is left out.  For a
    topic that is a single dot the folder is the base directory
    itself, as [joinpath] has it. *)
Theorem organize_by_topic_destinations
        (E : env) (base : path) (create_subdirs : bool)
        (file_mappings : list (path * analysis)) (st : state) :
  Forall (fun kv =>
            exists topic,
              an_topic (snd kv) = Some topic
              /\ (create_subdirs = true ->
                  mkdir E (joinpath base
                             (FileOrganizer._sanitize_folder_name topic))
                  = None))
         file_mappings ->
  exists organized st',
    FileOrganizer.organize_by_topic E base create_subdirs file_mappings st
    = (Return organized, st')
    /\ json_files st' = json_files st
    /\ self_results st' = self_results st
    /\ forall topic dest,
        In dest (PyDict.get_default PyStr.eqb organized topic [])
        <-> exists p an,
            In (p, an) file_mappings /\ an_topic an = Some topic
            /\ dest = destination base create_subdirs topic p
            /\ copy2 E p dest = None.
Proof.
  intros Hall. unfold FileOrganizer.organize_by_topic.
  destruct (OrganizerFacts.organize_loop_destinations E base create_subdirs
              file_mappings [] st Hall)
    as (organized & st' & Hrun & Hf & Hr & Hin).
  exists organized, st'. split; [exact Hrun|]. split; [exact Hf|].
  split; [exact Hr|].
  intros topic dest. rewrite Hin. split.
  - intros [[]|H]; exact H.
  - intros H. now right.
Qed.

(** X17, witness: two files of two topics in the sample world, and the
    same two on a disk where no copy succeeds. *)
Lemma organize_by_topic_destinations_witness :
  fst (FileOrganizer.organize_by_topic Sample.E Sample.output_dir true
         MoreSamples.two_topics Sample.st0)
  = Return [ (lit "AI",
              [joinpath (joinpath Sample.output_dir (lit "AI")) (lit "a.pdf")]);
             (lit "Finance",
              [joinpath (joinpath Sample.output_dir (lit "Finance"))
                        (lit "b.pdf")]) ]
  /\ fst (FileOrganizer.organize_by_topic MoreSamples.E_full_disk
            Sample.output_dir true MoreSamples.two_topics Sample.st0)
     = Return [].
Proof.
  assert (H1 : Forall (fun kv : path * analysis =>
            exists topic,
              an_topic (snd kv) = Some topic
              /\ (true = true ->
                  mkdir Sample.E
                    (joinpath Sample.output_dir
                       (FileOrganizer._sanitize_folder_name topic)) = None))
            MoreSamples.two_topics).
  { repeat constructor; eexists; split; reflexivity. }
  assert (H2 : Forall (fun kv : path * analysis =>
            exists topic,
              an_topic (snd kv) = Some topic
              /\ (true = true ->
                  mkdir MoreSamples.E_full_disk
                    (joinpath Sample.output_dir
                       (FileOrganizer._sanitize_folder_name topic)) = None))
            MoreSamples.two_topics).
  { repeat constructor; eexists; split; reflexivity. }
  destruct (organize_by_topic_destinations Sample.E Sample.output_dir true
              MoreSamples.two_topics Sample.st0 H1) as (o1 & s1 & R1 & _).
  destruct (organize_by_topic_destinations MoreSamples.E_full_disk
              Sample.output_dir true MoreSamples.two_topics Sample.st0 H2)
    as (o2 & s2 & R2 & _).
  split.
  - rewrite R1. cbn [fst]. f_equal.
    assert (Ho : Return o1
                 = fst (FileOrganizer.organize_by_topic Sample.E
                          Sample.output_dir true MoreSamples.two_topics
                          Sample.st0)) by (now rewrite R1).
    vm_compute in Ho. now apply Return_inj in Ho.
  - rewrite R2. cbn [fst]. f_equal.
    assert (Ho : Return o2
                 = fst (FileOrganizer.organize_by_topic MoreSamples.E_full_disk
                          Sample.output_dir true MoreSamples.two_topics
                          Sample.st0)) by (now rewrite R2).
    vm_compute in Ho. now apply Return_inj in Ho.
Defined.

(** X18: creating the topic folder is not guarded: when it fails for a
    file, the files before it having been handled, [organize_by_topic]
    raises that exception; the state is the one left by the files
    before, with the failed call logged, so the files after it are not
    looked at. *)
Theorem organize_by_topic_mkdir_failure
        (E : env) (base : path) (before after : list (path * analysis))
        (p : path) (an : analysis) (topic : str) (e : exn) (st : state) :
  Forall (fun kv =>
            exists t,
              an_topic (snd kv) = Some t
              /\ (true = true ->
                  mkdir E (joinpath base (FileOrganizer._sanitize_folder_name t))
                  = None))
         before ->
  an_topic an = Some topic ->
  mkdir E (joinpath base (FileOrganizer._sanitize_folder_name topic)) = Some e ->
  FileOrganizer.organize_by_topic E base true (before ++ (p, an) :: after) st
  = (Raise e,
     logged (snd (FileOrganizer.organize_by_topic E base true before st))
            [EvMkdir (joinpath base (FileOrganizer._sanitize_folder_name topic))]).
Proof.
  intros Hbefore Ht Hmk.
  unfold FileOrganizer.organize_by_topic.
  rewrite OrganizerFacts.organize_loop_app.
  destruct (OrganizerFacts.organize_loop_destinations E base true before [] st
              Hbefore) as (o & st1 & Hrun & _).
  rewrite Hrun. cbn [FileOrganizer.organize_loop snd]. unfold bind at 1.
  unfold FileOrganizer.organize_one. rewrite Ht.
  unfold bind at 1. unfold bind at 1. unfold emit at 1.
  rewrite Hmk. reflexivity.
Qed.

(** X18, witness: no directory can be made for the first of two
    files. *)
Lemma organize_by_topic_mkdir_failure_witness :
  FileOrganizer.organize_by_topic MoreSamples.E_read_only Sample.output_dir true
    MoreSamples.two_topics Sample.st0
  = (Raise (mk_exn OSError (lit "Read-only file system")),
     logged Sample.st0 [EvMkdir (joinpath Sample.output_dir (lit "AI"))]).
Proof.
  exact (organize_by_topic_mkdir_failure MoreSamples.E_read_only
           Sample.output_dir []
           [ (joinpath Sample.input_dir (lit "b.pdf"),
              mk_analysis (Some (lit "Finance")) (Some (lit "A report"))
                          (JList [])) ]
           Sample.a_pdf
           (mk_analysis (Some (lit "AI")) (Some (lit "About learning"))
                        (JList []))
           (lit "AI") (mk_exn OSError (lit "Read-only file system"))
           Sample.st0 (Forall_nil _) eq_refl eq_refl).
Defined.

(** X19: [generate_index] never raises and leaves alone [self.results]
    and every JSON file but the index.  When the write succeeds the
    index file holds, for files of distinct names, under the name of
    each file its topic, summary and entities.  When it fails the
    index file is what the failed write left: as before if it could
    not be opened, and otherwise, having been opened for writing, the
    remains that the failure names, its old content gone. *)
Theorem generate_index_entries
        (E : env) (file_mappings : list (path * analysis)) (output_file : path)
        (st : state) :
  exists st',
    FileOrganizer.generate_index E file_mappings output_file st
    = (Return tt, st')
    /\ self_results st' = self_results st
    /\ (forall q, q <> output_file -> read_json st' q = read_json st q)
    /\ (forall failure,
          write_fails E output_file = Some failure ->
          read_json st' output_file
          = match wf_left failure with
            | None => read_json st output_file
            | Some content => Some content
            end)
    /\ (write_fails E output_file = None ->
        exists index,
          read_json st' output_file = Some (Return (JDict index))
          /\ (NoDup (map (fun kv => name (fst kv)) file_mappings) ->
              forall p an,
                In (p, an) file_mappings ->
                jget index (name p) = Some (index_entry an))).
Proof.
  unfold FileOrganizer.generate_index, try_except, write_json, bind, emit,
    raise, ret.
  cbn [fst snd json_files trace self_results].
  destruct (write_fails E output_file) as [failure|] eqn:Hw;
    cbn [json_files trace self_results].
  - destruct (wf_left failure) as [content|] eqn:Hleft.
    + eexists. split; [reflexivity|]. cbn [self_results].
      split; [reflexivity|]. split; [|split].
      * intros q Hq. unfold read_json. cbn [json_files].
        now apply OrganizerFacts.pget_set_other.
      * intros f Hf. injection Hf as <-. rewrite Hleft.
        unfold read_json. cbn [json_files].
        apply OrchestratorFacts.get_set_same.
      * discriminate.
    + eexists. split; [reflexivity|]. cbn [self_results].
      split; [reflexivity|]. split; [|split].
      * reflexivity.
      * intros f Hf. injection Hf as <-. now rewrite Hleft.
      * discriminate.
  - eexists. split; [reflexivity|]. cbn [self_results].
    split; [reflexivity|]. split; [|split].
    + intros q Hq. unfold read_json. cbn [json_files].
      now apply OrganizerFacts.pget_set_other.
    + discriminate.
    + intros _. eexists. split.
      * unfold read_json. cbn [json_files].
        apply OrchestratorFacts.get_set_same.
      * intros Hnd p an Hin.
        now apply OrganizerFacts.index_fold_lookup.
Qed.

(** X19, witness: the index of the two sample files; a disk on which
    the index cannot be opened; and a disk that fills up, where a
    index written before no longer loads. *)
Lemma generate_index_entries_witness :
  (exists st' index,
      FileOrganizer.generate_index Sample.E MoreSamples.two_topics
        (PDFProcessorOrchestrator.index_path Sample.cfg) Sample.st0
      = (Return tt, st')
      /\ read_json st' (PDFProcessorOrchestrator.index_path Sample.cfg)
         = Some (Return (JDict index))
      /\ jget index (lit "b.pdf")
         = Some (index_entry
                   (mk_analysis (Some (lit "Finance")) (Some (lit "A report"))
                                (JList []))))
  /\ (exists st',
        FileOrganizer.generate_index MoreSamples.E_read_only
          MoreSamples.two_topics
          (PDFProcessorOrchestrator.index_path Sample.cfg) Sample.st0
        = (Return tt, st')
        /\ read_json st' (PDFProcessorOrchestrator.index_path Sample.cfg) = None)
  /\ exists st',
      FileOrganizer.generate_index MoreSamples.E_disk_fills
        MoreSamples.two_topics
        (PDFProcessorOrchestrator.index_path Sample.cfg)
        MoreSamples.st_indexed
      = (Return tt, st')
      /\ read_json st' (PDFProcessorOrchestrator.index_path Sample.cfg)
         = Some (Raise (mk_exn JSONDecodeError (lit "Expecting value"))).
Proof.
  split; [|split].
  - destruct (generate_index_entries Sample.E MoreSamples.two_topics
                (PDFProcessorOrchestrator.index_path Sample.cfg) Sample.st0)
      as (st' & Hrun & _ & _ & _ & Hok).
    destruct (Hok eq_refl) as (index & Hread & Hget).
    exists st', index. split; [exact Hrun|]. split; [exact Hread|].
    apply (Hget ltac:(vm_compute; repeat constructor; simpl; intuition discriminate)
                (joinpath Sample.input_dir (lit "b.pdf"))).
    right. now left.
  - destruct (generate_index_entries MoreSamples.E_read_only
                MoreSamples.two_topics
                (PDFProcessorOrchestrator.index_path Sample.cfg) Sample.st0)
      as (st' & Hrun & _ & _ & Hfail & _).
    exists st'. split; [exact Hrun|]. exact (Hfail _ eq_refl).
  - destruct (generate_index_entries MoreSamples.E_disk_fills
                MoreSamples.two_topics
                (PDFProcessorOrchestrator.index_path Sample.cfg)
                MoreSamples.st_indexed)
      as (st' & Hrun & _ & _ & Hfail & _).
    exists st'. split; [exact Hrun|]. exact (Hfail _ eq_refl).
Defined.

(** ** streamlit_app.py *)

Module DashboardFacts.

Lemma emit_last_100 formatted seen :
  StreamlitLogHandler.emit formatted (last_100 seen)
  = last_100 (seen ++ formatted_messages [formatted]).
Proof.
  destruct formatted as [msg|e]; simpl.
  - unfold last_100. rewrite !length_app, length_skipn. cbn [length].
    destruct (Nat.ltb_spec 100 (length seen - (length seen - 100) + 1)).
    + rewrite skipn_app, skipn_skipn, length_skipn.
      replace (length seen - (length seen - 100) + 1 - 100
               - (length seen - (length seen - 100))) with 0 by lia.
      rewrite skipn_app.
      replace (length seen + 1 - 100 - length seen) with 0 by lia.
      cbn [skipn]. f_equal. f_equal. lia.
    + rewrite skipn_app.
      replace (length seen + 1 - 100) with 0 by lia.
      replace (length seen - 100) with 0 by lia. reflexivity.
  - now rewrite app_nil_r.
Qed.

Lemma emit_all_from records : forall seen,
  fold_left (fun logs formatted => StreamlitLogHandler.emit formatted logs)
            records (last_100 seen)
  = last_100 (seen ++ formatted_messages records).
Proof.
  induction records as [|r records IH]; intros seen.
  - simpl. now rewrite app_nil_r.
  - cbn [fold_left]. rewrite emit_last_100, IH.
    unfold formatted_messages. cbn [flat_map]. now rewrite app_nil_r, <- app_assoc.
Qed.

Lemma quietly_refl st : quietly_after st st.
Proof.
  split; [reflexivity|]. exists []. split; [now rewrite app_nil_r|constructor].
Qed.

Lemma quietly_trans a b c :
  quietly_after a b -> quietly_after b c -> quietly_after a c.
Proof.
  intros [Hf1 (c1 & Ht1 & Hq1)] [Hf2 (c2 & Ht2 & Hq2)].
  split; [congruence|]. exists (c1 ++ c2). split.
  - now rewrite Ht2, Ht1, app_assoc.
  - now apply Forall_app.
Qed.

Lemma quietly_logged st calls :
  Forall quiet calls -> quietly_after st (logged st calls).
Proof. intros H. split; [reflexivity|]. now exists calls. Qed.

Lemma process_pdf_quiet E C p st :
  quietly_after st (snd (PDFProcessorOrchestrator.process_pdf E C p st))
  /\ self_results (snd (PDFProcessorOrchestrator.process_pdf E C p st))
     = self_results st.
Proof.
  rewrite OrchestratorFacts.process_pdf_run.
  destruct (skip_check C st p) as [[|]|e]; cbn [snd];
    try (split; [apply quietly_refl|reflexivity]).
  split; [|apply OrchestratorFacts.attempt_keeps].
  unfold attempt. destruct (text_of E _ p); cbn [snd]; cbv zeta.
  - rewrite !logged_logged. apply quietly_logged. repeat constructor.
  - apply quietly_logged. repeat constructor.
Qed.

Lemma init_quiet E C st :
  quietly_after st (snd (PDFProcessorOrchestrator.__init__ E C st))
  /\ (fst (PDFProcessorOrchestrator.__init__ E C st) = Return tt ->
      self_results (snd (PDFProcessorOrchestrator.__init__ E C st)) = []).
Proof.
  unfold PDFProcessorOrchestrator.__init__, PDFProcessorOrchestrator.make_dir,
    bind, emit, raise, ret.
  cbn [fst snd json_files trace self_results].
  destruct (mkdir E (PDF_INPUT_DIR C));
    cbn [fst snd json_files trace self_results];
    [|destruct (mkdir E (PDF_OUTPUT_DIR C));
      cbn [fst snd json_files trace self_results];
      [|destruct (ollama_init E);
        cbn [fst snd json_files trace self_results]]];
    (split;
     [split; [reflexivity|]; rewrite <- ?app_assoc; eexists;
      split; [reflexivity|repeat constructor]
     |try discriminate; try reflexivity]).
Qed.

(** The dashboard's loop never stores a record. *)
Lemma process_loop_quiet E C files : forall a b st,
  quietly_after st (snd (StreamlitApp.process_loop E C files a b st))
  /\ self_results (snd (StreamlitApp.process_loop E C files a b st))
     = self_results st
  /\ forall a' b',
      fst (StreamlitApp.process_loop E C files a b st) = Return (a', b') ->
      (a <= a' /\ b <= b' /\ a' + b' <= a + b + Z.of_nat (length files))%Z.
Proof.
  induction files as [|f files IH]; intros a b st.
  - cbn [StreamlitApp.process_loop]. unfold ret. cbn [fst snd length].
    split; [apply quietly_refl|]. split; [reflexivity|].
    intros a' b' H. apply Return_inj in H. injection H as <- <-. lia.
  - cbn [StreamlitApp.process_loop]. unfold bind.
    destruct (process_pdf_quiet E C f st) as [Hq Hr].
    destruct (PDFProcessorOrchestrator.process_pdf E C f st) as [[r|e] st1];
      cbn [snd] in Hq, Hr.
    + assert (Hnext : forall a1 b1,
        (a <= a1 /\ b <= b1 /\ a1 + b1 <= a + b + 1)%Z ->
        quietly_after st (snd (StreamlitApp.process_loop E C files a1 b1 st1))
        /\ self_results (snd (StreamlitApp.process_loop E C files a1 b1 st1))
           = self_results st
        /\ forall a' b',
            fst (StreamlitApp.process_loop E C files a1 b1 st1)
            = Return (a', b') ->
            (a <= a' /\ b <= b'
             /\ a' + b' <= a + b + Z.of_nat (length (f :: files)))%Z).
      { intros a1 b1 Hab. destruct (IH a1 b1 st1) as (Hq1 & Hr1 & Hc).
        split; [exact (quietly_trans _ _ _ Hq Hq1)|]. split; [congruence|].
        intros a' b' H. specialize (Hc a' b' H). cbn [length]. lia. }
      destruct (PyStr.eqb (status r) (lit "success")); [apply Hnext; lia|].
      destruct (PyStr.eqb (status r) (lit "error")); apply Hnext; lia.
    + cbn [fst snd]. split; [exact Hq|]. split; [exact Hr|]. discriminate.
Qed.

End DashboardFacts.

(** X20: the dashboard's log handler keeps the last 100 messages:
    after any series of records its list holds, in order, the last 100
    of the messages that could be formatted, so never more than 100; a
    record whose formatting fails changes nothing. *)
Theorem log_handler_keeps_last_100 (records : list (outcome str)) :
  StreamlitLogHandler.emit_all records
  = last_100 (formatted_messages records)
  /\ length (StreamlitLogHandler.emit_all records) <= 100
  /\ forall logs e, StreamlitLogHandler.emit (Raise e) logs = logs.
Proof.
  assert (H : StreamlitLogHandler.emit_all records
              = last_100 (formatted_messages records))
    by apply (DashboardFacts.emit_all_from records []).
  split; [exact H|]. split; [|reflexivity].
  rewrite H. unfold last_100. rewrite length_skipn. lia.
Qed.

(** X21: the processing section of the dashboard never organizes a
    file.  It calls [process_pdf] without storing the records, so
    [organize_files] finds [self.results] empty: the mapping shown is
    empty, no file is copied, and neither the report nor the index is
    written or changed.  The section itself never raises, and the
    counts it shows add up to at most the number of files. *)
Theorem dashboard_organizes_nothing
        (E : env) (C_start C : Config) (pdf_files : list path) (st : state) :
  let done := StreamlitApp.start_processing E C_start C pdf_files st in
  (exists shown, fst done = Return shown)
  /\ quietly_after st (snd done)
  /\ forall total processed failed organized,
      fst done = Return (Some (total, processed, failed, organized)) ->
      organized = []
      /\ total = Z.of_nat (length pdf_files)
      /\ (0 <= processed /\ 0 <= failed /\ processed + failed <= total)%Z.
Proof.
  cbv zeta.
  assert (Hrun : StreamlitApp.start_processing E C_start C pdf_files st
    = match PDFProcessorOrchestrator.__init__ E C_start st with
      | (Raise _, s0) => (Return None, s0)
      | (Return _, s0) =>
          match PDFProcessorOrchestrator.__init__ E C s0 with
          | (Raise _, s1) => (Return None, s1)
          | (Return _, s1) =>
              match StreamlitApp.process_loop E C pdf_files 0 0 s1 with
              | (Raise _, s2) => (Return None, s2)
              | (Return counts, s2) =>
                  match PDFProcessorOrchestrator.organize_files E C s2 with
                  | (Raise _, s3) => (Return None, s3)
                  | (Return organized, s3) =>
                      (Return (Some (Z.of_nat (length pdf_files), fst counts,
                                     snd counts, organized)), s3)
                  end
              end
          end
      end).
  { unfold StreamlitApp.start_processing, try_except, bind, ret.
    destruct (PDFProcessorOrchestrator.__init__ E C_start st) as [[u0|e0] s0];
      [|reflexivity].
    destruct (PDFProcessorOrchestrator.__init__ E C s0) as [[u1|e1] s1];
      [|reflexivity].
    destruct (StreamlitApp.process_loop E C pdf_files 0 0 s1) as [[c|e2] s2];
      [|reflexivity].
    destruct (PDFProcessorOrchestrator.organize_files E C s2) as [[o|e3] s3];
      reflexivity. }
  rewrite Hrun. clear Hrun.
  destruct (DashboardFacts.init_quiet E C_start st) as [Hq0 _].
  destruct (PDFProcessorOrchestrator.__init__ E C_start st) as [[[]|e0] s0];
    cbn [snd] in Hq0;
    [|cbn [fst snd]; split; [eauto|]; split; [exact Hq0|discriminate]].
  destruct (DashboardFacts.init_quiet E C s0) as [Hq1 Hr1].
  destruct (PDFProcessorOrchestrator.__init__ E C s0) as [[[]|e1] s1];
    cbn [fst snd] in Hq1, Hr1;
    [|cbn [fst snd]; split; [eauto|];
      split; [exact (DashboardFacts.quietly_trans _ _ _ Hq0 Hq1)|discriminate]].
  specialize (Hr1 eq_refl).
  destruct (DashboardFacts.process_loop_quiet E C pdf_files 0%Z 0%Z s1)
    as (Hq2 & Hr2 & Hc).
  pose proof (DashboardFacts.quietly_trans _ _ _
                (DashboardFacts.quietly_trans _ _ _ Hq0 Hq1) Hq2) as Hq.
  destruct (StreamlitApp.process_loop E C pdf_files 0 0 s1)
    as [[[a' b']|e2] s2]; cbn [fst snd] in Hq, Hr2, Hc;
    [|cbn [fst snd]; split; [eauto|]; split; [exact Hq|discriminate]].
  assert (Horg : PDFProcessorOrchestrator.organize_files E C s2
                 = (Return [], s2)).
  { unfold PDFProcessorOrchestrator.organize_files, bind, get_state.
    rewrite Hr2, Hr1. reflexivity. }
  rewrite Horg. cbn [fst snd].
  split; [eauto|]. split; [exact Hq|].
  intros total processed failed organized H. apply Return_inj in H.
  injection H as <- <- <- <-.
  specialize (Hc a' b' eq_refl). repeat split; lia.
Qed.

(** X21, witness: the dashboard run over the two sample files shows
    one processed and one failed file and an empty mapping. *)
Lemma dashboard_organizes_nothing_witness :
  fst (StreamlitApp.start_processing Sample.E Sample.cfg Sample.cfg
         [Sample.a_pdf; Sample.empty_pdf] Sample.st0)
  = Return (Some (2%Z, 1%Z, 1%Z, []))
  /\ json_files (snd (StreamlitApp.start_processing Sample.E Sample.cfg
                        Sample.cfg [Sample.a_pdf; Sample.empty_pdf] Sample.st0))
     = [].
Proof.
  pose proof (dashboard_organizes_nothing Sample.E Sample.cfg Sample.cfg
                [Sample.a_pdf; Sample.empty_pdf] Sample.st0) as H.
  cbv zeta in H. destruct H as (_ & [Hfiles _] & _).
  split; [vm_compute; reflexivity|exact Hfiles].
Defined.

(** ** main.py: the report *)

Module ReportFacts.
Import PDFProcessorOrchestrator.

Lemma organize_one_keeps E base sub organized p an st :
  self_results (snd (FileOrganizer.organize_one E base sub organized p an st))
  = self_results st.
Proof.
  unfold FileOrganizer.organize_one.
  destruct (an_topic an); [|reflexivity].
  unfold bind, emit, raise, ret. cbn [fst snd json_files trace self_results].
  destruct sub; cbn [fst snd json_files trace self_results].
  - destruct (mkdir E _); cbn [fst snd json_files trace self_results];
      [reflexivity|].
    destruct (copy2 E p _); reflexivity.
  - destruct (copy2 E p _); reflexivity.
Qed.

Lemma organize_loop_keeps E base sub mappings : forall organized st,
  self_results (snd (FileOrganizer.organize_loop E base sub mappings organized st))
  = self_results st.
Proof.
  induction mappings as [|[p an] rest IH]; intros organized st; [reflexivity|].
  cbn [FileOrganizer.organize_loop]. unfold bind.
  pose proof (organize_one_keeps E base sub organized p an st) as H1.
  destruct (FileOrganizer.organize_one E base sub organized p an st)
    as [[o|e] st1]; cbn [snd] in H1 |- *; [|exact H1].
  now rewrite IH.
Qed.

Lemma generate_index_keeps E mappings out st :
  self_results (snd (FileOrganizer.generate_index E mappings out st))
  = self_results st.
Proof.
  unfold FileOrganizer.generate_index, try_except, write_json, bind, emit,
    raise, ret.
  cbn [fst snd json_files trace self_results].
  destruct (write_fails E out) as [w|]; [|reflexivity].
  destruct (wf_left w); reflexivity.
Qed.

(** [organize_files] never changes [self.results]. *)
Lemma organize_files_keeps E C st :
  self_results (snd (organize_files E C st)) = self_results st.
Proof.
  unfold organize_files, bind, get_state.
  destruct (success_mappings (self_results st)) as [|kv rest]; [reflexivity|].
  unfold FileOrganizer.organize_by_topic.
  pose proof (organize_loop_keeps E (PDF_OUTPUT_DIR C) true (kv :: rest) [] st)
    as H1.
  destruct (FileOrganizer.organize_loop E (PDF_OUTPUT_DIR C) true (kv :: rest)
              [] st) as [[o|e] st1]; cbn [snd] in H1 |- *; [|exact H1].
  destruct (GENERATE_INDEX C).
  - pose proof (generate_index_keeps E (kv :: rest) (index_path C) st1) as H2.
    destruct (FileOrganizer.generate_index E (kv :: rest) (index_path C) st1)
      as [[u|e] st2]; cbn [snd] in H2 |- *; unfold ret; cbn [snd]; congruence.
  - unfold ret. cbn [snd]. exact H1.
Qed.

End ReportFacts.

(** X22: the summary of the report agrees with the records.  After a
    completed run of a fresh orchestrator over a directory of distinct
    names, the earlier report being missing or reading well, the
    report's [total_files] is the number of globbed files, [processed]
    the number of success records and [failed] the number of error
    records of [self.results]; with the skipped records they add up to
    [total_files]. *)
Theorem report_summary_counts
        (E : env) (C : Config) (dir : option path) (st st' : state) :
  let pdf_dir := match dir with Some d => d | None => PDF_INPUT_DIR C end in
  prior_report_ok C st = true ->
  self_results st = [] ->
  NoDup (listdir E pdf_dir) ->
  PDFProcessorOrchestrator.run E C dir st = (Return tt, st') ->
  exists report topics,
    read_json st' (PDFProcessorOrchestrator.report_path C)
    = Some (Return (JDict report))
    /\ jget report (lit "summary")
       = Some (report_summary
                 (Z.of_nat (length (PDFProcessorOrchestrator.glob_pdf E pdf_dir)))
                 (count_status (lit "success") (self_results st'))
                 (count_status (lit "error") (self_results st'))
                 topics)
    /\ (count_status (lit "success") (self_results st')
        + count_status (lit "error") (self_results st')
        + count_status (lit "skipped") (self_results st')
        = Z.of_nat (length (PDFProcessorOrchestrator.glob_pdf E pdf_dir)))%Z.
Proof.
  intros pdf_dir Hok Hfresh Hnd Hrun.
  destruct (BatchFacts.batch_counts E C pdf_dir st Hok Hfresh Hnd)
    as (b & st1 & Hbatch & Hkeys & Hp & Hf & Hsum & Htot).
  unfold PDFProcessorOrchestrator.run in Hrun. fold pdf_dir in Hrun.
  unfold bind in Hrun. rewrite Hbatch in Hrun.
  pose proof (ReportFacts.organize_files_keeps E C st1) as Hkeep.
  destruct (PDFProcessorOrchestrator.organize_files E C st1)
    as [[o|e] st2]; [|discriminate]. cbn [snd] in Hkeep.
  pose proof (OrchestratorFacts.generate_report_returns E C b o st2 st' Hrun)
    as Hw.
  rewrite (OrchestratorFacts.generate_report_run E C b o st2 Hw) in Hrun.
  injection Hrun as <-. cbn [self_results]. rewrite Hkeep.
  eexists _, (Z.of_nat (length o)). split.
  - unfold read_json. cbn [json_files]. apply OrchestratorFacts.get_set_same.
  - split; [|now rewrite <- Hp, <- Hf].
    unfold jget. cbn [PyDict.get]. rewrite eqb_refl.
    unfold report_summary. rewrite <- Hp, <- Hf. do 4 f_equal.
    destruct (PDFProcessorOrchestrator.glob_pdf E pdf_dir) as [|g gs] eqn:Hg.
    + unfold PDFProcessorOrchestrator.process_batch in Hbatch.
      rewrite Hg in Hbatch. unfold ret in Hbatch.
      injection Hbatch as <- _. reflexivity.
    + rewrite Htot by discriminate. reflexivity.
Qed.

(** X22, witness: the sample run, two files, one success and one
    error. *)
Lemma report_summary_counts_witness :
  exists report topics,
    read_json
      (snd (PDFProcessorOrchestrator.run Sample.E Sample.cfg None Sample.st0))
      (PDFProcessorOrchestrator.report_path Sample.cfg)
    = Some (Return (JDict report))
    /\ jget report (lit "summary") = Some (report_summary 2 1 1 topics).
Proof.
  set (st' := snd (PDFProcessorOrchestrator.run Sample.E Sample.cfg None
                     Sample.st0)).
  destruct (report_summary_counts Sample.E Sample.cfg None Sample.st0 st'
              eq_refl eq_refl)
    as (report & topics & Hread & Hsum & _).
  - vm_compute. repeat constructor; simpl; intuition discriminate.
  - vm_compute. reflexivity.
  - exists report, topics. split; [exact Hread|].
    rewrite Hsum. reflexivity.
Defined.

(** ** main.py: an earlier report that cannot be used *)

Module SkipCheckFacts.

Lemma omap_stops {A B} (f : A -> outcome B) before x after e :
  Forall (fun a => exists b, f a = Return b) before ->
  f x = Raise e ->
  omap f (before ++ x :: after) = Raise e.
Proof.
  intros Hb Hx. induction Hb as [|a before [b Ha] _ IH]; cbn [app omap].
  - now rewrite Hx.
  - rewrite Ha. cbn [obind]. now rewrite IH.
Qed.

End SkipCheckFacts.

(** X23: the look at the earlier report is not guarded.
    [process_pdf] raises, before any call and whatever the file, the
    exception of a report that does not load; [AttributeError] when
    the report loads as something other than an object; and
    [KeyError], its message the quoted key, when an item of
    [processing_details] has no [file] entry, even if the file is
    listed by an item before it. *)
Theorem process_pdf_report_errors (E : env) (C : Config) (p : path) (st : state) :
  (forall e,
      read_json st (PDFProcessorOrchestrator.report_path C) = Some (Raise e) ->
      PDFProcessorOrchestrator.process_pdf E C p st = (Raise e, st))
  /\ (forall report_data,
        read_json st (PDFProcessorOrchestrator.report_path C)
        = Some (Return report_data) ->
        (forall d, report_data <> JDict d) ->
        exists msg,
          PDFProcessorOrchestrator.process_pdf E C p st
          = (Raise (mk_exn AttributeError msg), st))
  /\ (forall d before fields after,
        read_json st (PDFProcessorOrchestrator.report_path C)
        = Some (Return (JDict d)) ->
        jget d (lit "processing_details")
        = Some (JList (before ++ JDict fields :: after)) ->
        Forall (fun item => exists v, py_getitem item (lit "file") = Return v)
               before ->
        jget fields (lit "file") = None ->
        PDFProcessorOrchestrator.process_pdf E C p st
        = (Raise (mk_exn KeyError (lit "'file'")), st)).
Proof.
  split; [|split].
  - intros e Hread. rewrite OrchestratorFacts.process_pdf_run.
    unfold skip_check. now rewrite Hread.
  - intros report_data Hread Hno. rewrite OrchestratorFacts.process_pdf_run.
    unfold skip_check. rewrite Hread. cbn [obind].
    destruct report_data; try (eexists; reflexivity).
    exfalso. now apply (Hno items).
  - intros d before fields after Hread Hdetails Hbefore Hfile.
    rewrite OrchestratorFacts.process_pdf_run.
    unfold skip_check. rewrite Hread. cbn [obind].
    unfold PDFProcessorOrchestrator.skip_these, jget_default, PyDict.get_default.
    unfold jget in Hdetails. rewrite Hdetails. cbn [py_iter obind].
    rewrite (SkipCheckFacts.omap_stops
               (fun item => py_getitem item (lit "file")) before (JDict fields)
               after (mk_exn KeyError (lit "'file'")) Hbefore).
    + reflexivity.
    + cbn [py_getitem]. rewrite Hfile. reflexivity.
Qed.

(** X23, witness: a report that is a list, and a report whose second
    item lacks its [file] entry while the first lists the file. *)
Lemma process_pdf_report_errors_witness :
  (exists msg,
      PDFProcessorOrchestrator.process_pdf Sample.E Sample.cfg Sample.a_pdf
        MoreSamples.st_list_report
      = (Raise (mk_exn AttributeError msg), MoreSamples.st_list_report))
  /\ PDFProcessorOrchestrator.process_pdf Sample.E Sample.cfg Sample.a_pdf
       MoreSamples.st_item_without_file
     = (Raise (mk_exn KeyError (lit "'file'")),
        MoreSamples.st_item_without_file).
Proof.
  split.
  - refine (proj1 (proj2 (process_pdf_report_errors Sample.E Sample.cfg
                            Sample.a_pdf MoreSamples.st_list_report))
                  (JList []) eq_refl _).
    discriminate.
  - refine (proj2 (proj2 (process_pdf_report_errors Sample.E Sample.cfg
                            Sample.a_pdf MoreSamples.st_item_without_file))
                  _ [JDict [(lit "file", JStr (lit "a.pdf"))]]
                  [(lit "topic", JStr (lit "AI"))] [] eq_refl eq_refl _ eq_refl).
    repeat constructor. eexists. reflexivity.
Defined.
